(** * ConversationalAIAgent: the booking agent and its calendar service

    A shallow embedding of [backend/agent.py] (class [BookingAgent]) and
    [backend/calendar_service.py] (class [GoogleCalendarService]), and the
    properties of the conversational scheduling engine proved about it.

    Conventions of the embedding.
    - A Python [str] is a Rocq [string]; character classes (case, white
      space, digits, word characters) are the ASCII ones, so the embedding
      speaks about ASCII text.
    - A Python exception is a value of [exn]; code that may raise returns
      [Exc A]; [try/except] is a [match] on that result.
    - The per-user conversation dictionary is the record
      [ConversationState]; a key that may be absent is an [option] field.
      Every node of the workflow mutates that one dictionary in place, so a
      node is a function from the dictionary before to the dictionary after.
    - Everything outside the repository that a turn consults (the clock, the
      LLM endpoint, [json.loads], [dateparser], the credential files and the
      Google Calendar API) is a field of the record [World]. *)

From Stdlib Require Import ZArith String Ascii Lia DecimalString DecimalN SpecFloat.
From stdpp Require Import gmap strings list.

Open Scope string_scope.
Open Scope Z_scope.

(** ** Python primitives *)

Module Py.

(** Exceptions the modelled code can raise. *)
Inductive exn : Type :=
  | ValueError | KeyError | IndexError | AttributeError | TypeError
  | OverflowError | JSONDecodeError | RuntimeError.

(** The result of running code that may raise. *)
Inductive Exc (A : Type) : Type :=
  | Ok (a : A)
  | Raise (e : exn).
Arguments Ok {A} a.
Arguments Raise {A} e.

Definition bind {A B} (m : Exc A) (k : A → Exc B) : Exc B :=
  match m with Ok a => k a | Raise e => Raise e end.

Definition of_option {A} (e : exn) (o : option A) : Exc A :=
  match o with Some a => Ok a | None => Raise e end.

(** [filterM p l]: [[x for x in l if p(x)]] where [p] may raise. *)
Fixpoint filterM {A} (p : A → Exc bool) (l : list A) : Exc (list A) :=
  match l with
  | [] => Ok []
  | x :: l' =>
      match p x with
      | Raise e => Raise e
      | Ok b =>
          match filterM p l' with
          | Raise e => Raise e
          | Ok ys => Ok (if b then x :: ys else ys)
          end
      end
  end.

(** *** Characters *)

Definition code (c : ascii) : Z := Z.of_nat (nat_of_ascii c).

Definition is_digit (c : ascii) : bool := (48 <=? code c) && (code c <=? 57).

Definition digit_val (c : ascii) : Z := code c - 48.

(** [str.isspace] on ASCII: TAB..CR, FS..US and the blank. *)
Definition is_space (c : ascii) : bool :=
  ((9 <=? code c) && (code c <=? 13)) || ((28 <=? code c) && (code c <=? 32)).

Definition is_upper (c : ascii) : bool := (65 <=? code c) && (code c <=? 90).

Definition is_alpha (c : ascii) : bool :=
  is_upper c || ((97 <=? code c) && (code c <=? 122)).

(** [\w] of the [re] module on ASCII. *)
Definition is_word (c : ascii) : bool :=
  is_alpha c || is_digit c || (code c =? 95).

Definition lower_char (c : ascii) : ascii :=
  if is_upper c then ascii_of_nat (nat_of_ascii c + 32) else c.

(** *** Strings *)

Fixpoint lower (s : string) : string :=
  match s with
  | "" => ""
  | String c s' => String (lower_char c) (lower s')
  end.

Fixpoint lstrip (s : string) : string :=
  match s with
  | "" => ""
  | String c s' => if is_space c then lstrip s' else s
  end.

Fixpoint rev_str (acc s : string) : string :=
  match s with
  | "" => acc
  | String c s' => rev_str (String c acc) s'
  end.

Definition rstrip (s : string) : string := rev_str "" (lstrip (rev_str "" s)).

(** [s.strip()] *)
Definition strip (s : string) : string := rstrip (lstrip s).

(** [s.startswith(p)] *)
Fixpoint startswith (p s : string) : bool :=
  match p, s with
  | "", _ => true
  | String a p', String b s' => if Ascii.eqb a b then startswith p' s' else false
  | String _ _, "" => false
  end.

(** [sub in s] *)
Fixpoint contains (sub s : string) : bool :=
  startswith sub s ||
  match s with
  | "" => false
  | String _ s' => contains sub s'
  end.

Fixpoint drop_str (n : nat) (s : string) : string :=
  match n, s with
  | O, _ => s
  | S k, String _ s' => drop_str k s'
  | S _, "" => ""
  end.

Fixpoint take_str (n : nat) (s : string) : string :=
  match n, s with
  | S k, String c s' => String c (take_str k s')
  | _, _ => ""
  end.

(** [s.replace(old, new)] for a non-empty [old]: occurrences are replaced
    from the left and do not overlap; [skip] counts the characters of an
    occurrence that remain to be passed over. *)
Fixpoint replace_go (old new : string) (skip : nat) (s : string) : string :=
  match s with
  | "" => ""
  | String c s' =>
      match skip with
      | S k => replace_go old new k s'
      | O =>
          if startswith old s
          then new +:+ replace_go old new (String.length old - 1) s'
          else String c (replace_go old new 0 s')
      end
  end.

Definition replace (old new s : string) : string := replace_go old new 0 s.

(** [s.split(sep)] for a non-empty [sep]; [cur] is the piece being read. *)
Fixpoint split_go (sep : string) (skip : nat) (cur : string) (s : string)
  : list string :=
  match s with
  | "" => [cur]
  | String c s' =>
      match skip with
      | S k => split_go sep k cur s'
      | O =>
          if startswith sep s
          then cur :: split_go sep (String.length sep - 1) "" s'
          else split_go sep 0 (cur +:+ String c "") s'
      end
  end.

Definition split (sep s : string) : list string := split_go sep 0 "" s.

(** [s.find(sub)]: index of the first occurrence. *)
Fixpoint find_from (sub s : string) (i : nat) : option nat :=
  if startswith sub s then Some i
  else match s with
       | "" => None
       | String _ s' => find_from sub s' (S i)
       end.

Definition find (sub s : string) : option nat := find_from sub s 0.

(** [s.rfind(sub)]: index of the last occurrence. *)
Fixpoint rfind_from (sub s : string) (i : nat) : option nat :=
  let here := if startswith sub s then Some i else None in
  match s with
  | "" => here
  | String _ s' =>
      match rfind_from sub s' (S i) with
      | Some j => Some j
      | None => here
      end
  end.

Definition rfind (sub s : string) : option nat := rfind_from sub s 0.

(** [s.split(sep, 1)] *)
Definition split1 (sep s : string) : list string :=
  match find sep s with
  | None => [s]
  | Some i => [take_str i s; drop_str (i + String.length sep) s]
  end.

(** *** Integers *)

(** Decimal digits of a natural number. *)
Definition dec (z : Z) : string := NilZero.string_of_uint (N.to_uint (Z.to_N z)).

(** [sys.get_int_max_str_digits()]: the most digits the interpreter reads
    into an integer, or writes of one, in base 10. *)
Definition MAX_STR_DIGITS : Z := 4300.

(** The decimal text of an integer. *)
Definition str_int (z : Z) : string :=
  if z <? 0 then "-" +:+ dec (- z) else dec z.

(** [str(z)], also inside an f-string: an integer of more than
    [MAX_STR_DIGITS] digits is refused. *)
Definition py_str_int (z : Z) : Exc string :=
  if Z.of_nat (String.length (dec (Z.abs z))) <=? MAX_STR_DIGITS
  then Ok (str_int z) else Raise ValueError.

(** [f"{z:02d}"] *)
Definition fmt02d (z : Z) : string :=
  if z <? 0 then "-" +:+ dec (- z)
  else if z <? 10 then "0" +:+ dec z
  else dec z.

(** [f"{z:04d}"] for a non-negative [z]. *)
Definition fmt04d (z : Z) : string :=
  if z <? 10 then "000" +:+ dec z
  else if z <? 100 then "00" +:+ dec z
  else if z <? 1000 then "0" +:+ dec z
  else dec z.

(** The digits of an [int] literal: groups of digits separated by single
    underscores.  [acc] is the value read so far, [prev] tells whether the
    previous character was a digit. *)
Fixpoint int_digits (acc : Z) (prev : bool) (s : string) : option Z :=
  match s with
  | "" => if prev then Some acc else None
  | String c s' =>
      if is_digit c then int_digits (10 * acc + digit_val c) true s'
      else if Ascii.eqb c "_" then
        (if prev then int_digits acc false s' else None)
      else None
  end.

(** [int(s)] for a string: surrounding white space, an optional sign. *)
Definition int_str (s : string) : Exc Z :=
  match strip s with
  | String "-" d => of_option ValueError (Z.opp <$> int_digits 0 false d)
  | String "+" d => of_option ValueError (int_digits 0 false d)
  | d => of_option ValueError (int_digits 0 false d)
  end.

(** Value of a run of digits matched by [\d+]. *)
Fixpoint digits_val (acc : Z) (s : string) : Z :=
  match s with
  | "" => acc
  | String c s' => digits_val (10 * acc + digit_val c) s'
  end.

(** [int(m.group(k))] for a group that [\d+] matched: a run of more than
    [MAX_STR_DIGITS] digits is refused. *)
Definition int_group (d : string) : Exc Z :=
  if Z.of_nat (String.length d) <=? MAX_STR_DIGITS
  then Ok (digits_val 0 d) else Raise ValueError.

(** Split off the longest prefix of at most [n] digits. *)
Fixpoint take_digits (n : nat) (s : string) : string * string :=
  match n, s with
  | S k, String c s' =>
      if is_digit c
      then let '(d, r) := take_digits k s' in (String c d, r)
      else ("", s)
  | _, _ => ("", s)
  end.

(** [\d+], greedy: all the digits at the front of [s]. *)
Definition all_digits (s : string) : string * string :=
  take_digits (String.length s) s.

End Py.

Import Py.

#[global] Instance Exc_bind : MBind Exc := fun A B k m => Py.bind m k.
#[global] Instance Exc_ret : MRet Exc := @Py.Ok.
#[global] Instance Exc_fmap : FMap Exc :=
  fun A B f m => match m with Py.Ok a => Py.Ok (f a) | Py.Raise e => Py.Raise e end.

(** ** The [datetime] library

    Dates are proleptic Gregorian ordinals as [date.toordinal] numbers them
    (day 1 is 0001-01-01, a Monday).  A [datetime] is a date, the
    microseconds since its midnight, and the UTC offset (in microseconds) when
    it is timezone-aware. *)

Module Datetime.

Definition MAXORDINAL : Z := 3652059.

Definition US_PER_SECOND : Z := 1000000.
Definition US_PER_MINUTE : Z := 60 * US_PER_SECOND.
Definition US_PER_HOUR : Z := 60 * US_PER_MINUTE.
Definition US_PER_DAY : Z := 24 * US_PER_HOUR.

Definition is_leap (year : Z) : bool :=
  (year mod 4 =? 0) && (negb (year mod 100 =? 0) || (year mod 400 =? 0)).

Definition days_before_year (year : Z) : Z :=
  let y := year - 1 in y * 365 + y / 4 - y / 100 + y / 400.

Definition days_in_month (year month : Z) : Z :=
  if month =? 2 then (if is_leap year then 29 else 28)
  else if (month =? 4) || (month =? 6) || (month =? 9) || (month =? 11) then 30
  else 31.

Definition DAYS_BEFORE_MONTH (month : Z) : Z :=
  match month with
  | 1 => 0 | 2 => 31 | 3 => 59 | 4 => 90 | 5 => 120 | 6 => 151
  | 7 => 181 | 8 => 212 | 9 => 243 | 10 => 273 | 11 => 304 | _ => 334
  end.

Definition days_before_month (year month : Z) : Z :=
  DAYS_BEFORE_MONTH month + (if (2 <? month) && is_leap year then 1 else 0).

Definition ymd2ord (year month day : Z) : Z :=
  days_before_year year + days_before_month year month + day.

Definition DI400Y : Z := 146097.
Definition DI100Y : Z := 36524.
Definition DI4Y : Z := 1461.

Definition ord2ymd (n : Z) : Z * Z * Z :=
  let n := n - 1 in
  let n400 := n / DI400Y in
  let n := n mod DI400Y in
  let year := n400 * 400 + 1 in
  let n100 := n / DI100Y in
  let n := n mod DI100Y in
  let n4 := n / DI4Y in
  let n := n mod DI4Y in
  let n1 := n / 365 in
  let n := n mod 365 in
  let year := year + n100 * 100 + n4 * 4 + n1 in
  if (n1 =? 4) || (n100 =? 4) then (year - 1, 12, 31)
  else
    let leapyear := (n1 =? 3) && (negb (n4 =? 24) || (n100 =? 3)) in
    let month := Z.shiftr (n + 50) 5 in
    let preceding :=
      DAYS_BEFORE_MONTH month + (if (2 <? month) && leapyear then 1 else 0) in
    if n <? preceding then
      let month := month - 1 in
      let preceding :=
        preceding
        - ((if month =? 2 then 28
            else if (month =? 4) || (month =? 6) || (month =? 9) || (month =? 11)
                 then 30 else 31)
           + (if (month =? 2) && leapyear then 1 else 0)) in
      (year, month, n - preceding + 1)
    else (year, month, n - preceding + 1).

(** [date.weekday()]: Monday is 0. *)
Definition weekday (ord : Z) : Z := (ord + 6) mod 7.

(** [date + timedelta(days=n)] *)
Definition add_days (ord n : Z) : Exc Z :=
  let r := ord + n in
  if (1 <=? r) && (r <=? MAXORDINAL) then Ok r else Raise OverflowError.

Record datetime : Type := {
  dt_ord : Z;
  dt_us : Z;
  dt_tz : option Z;
}.

(** [dt + timedelta(microseconds=us)]; the offset is kept. *)
Definition add_us (dt : datetime) (us : Z) : Exc datetime :=
  let total := dt_us dt + us in
  d ← add_days (dt_ord dt) (total / US_PER_DAY);
  Ok {| dt_ord := d; dt_us := total mod US_PER_DAY; dt_tz := dt_tz dt |}.

(** [dt.replace(hour, minute, second=0, microsecond=0)] *)
Definition replace_time (dt : datetime) (hour minute : Z) : datetime :=
  {| dt_ord := dt_ord dt;
     dt_us := hour * US_PER_HOUR + minute * US_PER_MINUTE;
     dt_tz := dt_tz dt |}.

(** The instant an aware datetime denotes: microseconds of UTC. *)
Definition utc_us (dt : datetime) (offset : Z) : Z :=
  dt_ord dt * US_PER_DAY + dt_us dt - offset.

(** The same for any datetime, a naive one read as UTC. *)
Definition instant (dt : datetime) : Z := utc_us dt (default 0 (dt_tz dt)).

(** [dt.astimezone(pytz.UTC)]; a naive [dt] is read in the system's local
    zone, whose offset is [system_offset]. *)
Definition astimezone_utc (system_offset : Z) (dt : datetime) : Exc datetime :=
  let t := utc_us dt (default system_offset (dt_tz dt)) in
  d ← add_days 0 (t / US_PER_DAY);
  Ok {| dt_ord := d; dt_us := t mod US_PER_DAY; dt_tz := Some 0 |}.

(** Comparison of two datetimes: both aware, or both naive; mixing them is a
    [TypeError]. *)
Definition le (a b : datetime) : Exc bool :=
  match dt_tz a, dt_tz b with
  | Some oa, Some ob => Ok (utc_us a oa <=? utc_us b ob)
  | None, None => Ok (utc_us a 0 <=? utc_us b 0)
  | _, _ => Raise TypeError
  end.

Definition ge (a b : datetime) : Exc bool := le b a.

Definition hour (dt : datetime) : Z := dt_us dt / US_PER_HOUR.
Definition minute (dt : datetime) : Z := (dt_us dt / US_PER_MINUTE) mod 60.
Definition second (dt : datetime) : Z := (dt_us dt / US_PER_SECOND) mod 60.
Definition microsecond (dt : datetime) : Z := dt_us dt mod US_PER_SECOND.

Definition fmt06d (z : Z) : string :=
  take_str (6 - String.length (dec z)) "000000" +:+ dec z.

(** The [+HH:MM[:SS[.ffffff]]] suffix of [isoformat]. *)
Definition format_offset (off : Z) : string :=
  let a := Z.abs off in
  (if off <? 0 then "-" else "+")
  +:+ fmt02d (a / US_PER_HOUR) +:+ ":" +:+ fmt02d ((a / US_PER_MINUTE) mod 60)
  +:+ (if (a mod US_PER_MINUTE) =? 0 then ""
       else ":" +:+ fmt02d ((a / US_PER_SECOND) mod 60)
            +:+ (if (a mod US_PER_SECOND) =? 0 then ""
                 else "." +:+ fmt06d (a mod US_PER_SECOND))).

(** [date.isoformat()], also [strftime("%Y-%m-%d")] for years from 1000. *)
Definition format_date (ord : Z) : string :=
  let '(y, m, d) := ord2ymd ord in
  fmt04d y +:+ "-" +:+ fmt02d m +:+ "-" +:+ fmt02d d.

(** [datetime.isoformat()] *)
Definition isoformat (dt : datetime) : string :=
  format_date (dt_ord dt) +:+ "T"
  +:+ fmt02d (hour dt) +:+ ":" +:+ fmt02d (minute dt) +:+ ":" +:+ fmt02d (second dt)
  +:+ (if microsecond dt =? 0 then "" else "." +:+ fmt06d (microsecond dt))
  +:+ match dt_tz dt with None => "" | Some off => format_offset off end.

(** Exactly [n] digits, as a number. *)
Definition fixed_digits (n : nat) (s : string) : option Z :=
  let '(d, r) := take_digits n s in
  if (String.length d =? n)%nat && (String.length s =? n)%nat
  then Some (digits_val 0 d) else None.

(** [HH[:MM[:SS[.fff[fff]]]]] of an ISO string: hour, minute, second,
    microsecond. *)
Definition parse_hh_mm_ss_ff (s : string) : option (Z * Z * Z * Z) :=
  h ← fixed_digits 2 (take_str 2 s);
  match drop_str 2 s with
  | "" => Some (h, 0, 0, 0)
  | String ":" s1 =>
      m ← fixed_digits 2 (take_str 2 s1);
      match drop_str 2 s1 with
      | "" => Some (h, m, 0, 0)
      | String ":" s2 =>
          sec ← fixed_digits 2 (take_str 2 s2);
          match drop_str 2 s2 with
          | "" => Some (h, m, sec, 0)
          | String "." f =>
              if (String.length f =? 3)%nat
              then us ← fixed_digits 3 f; Some (h, m, sec, us * 1000)
              else if (String.length f =? 6)%nat
              then us ← fixed_digits 6 f; Some (h, m, sec, us)
              else None
          | _ => None
          end
      | _ => None
      end
  | _ => None
  end.

Definition time_us (c : Z * Z * Z * Z) : Z :=
  let '(h, m, s, us) := c in
  h * US_PER_HOUR + m * US_PER_MINUTE + s * US_PER_SECOND + us.

Definition valid_time (c : Z * Z * Z * Z) : bool :=
  let '(h, m, s, us) := c in (h <? 24) && (m <? 60) && (s <? 60).

(** The time part of an ISO string, after the separator: the UTC offset
    starts at the first [-], or else at the first [+]. *)
Definition parse_isoformat_time (tstr : string) : option (Z * option Z) :=
  let tz_pos := match find "-" tstr with Some i => Some i | None => find "+" tstr end in
  match tz_pos with
  | None =>
      c ← parse_hh_mm_ss_ff tstr;
      if valid_time c then Some (time_us c, None) else None
  | Some i =>
      c ← parse_hh_mm_ss_ff (take_str i tstr);
      let tzstr := drop_str (S i) tstr in
      let n := String.length tzstr in
      if (n =? 5)%nat || (n =? 8)%nat || (n =? 15)%nat then
        tz ← parse_hh_mm_ss_ff tzstr;
        let off := time_us tz in
        let off := if startswith "-" (drop_str i tstr) then - off else off in
        if valid_time c && (Z.abs off <? US_PER_DAY)
        then Some (time_us c, Some off) else None
      else None
  end.

(** The date part [YYYY-MM-DD] of an ISO string. *)
Definition parse_isoformat_date (dstr : string) : option Z :=
  y ← fixed_digits 4 (take_str 4 dstr);
  m ← fixed_digits 2 (take_str 2 (drop_str 5 dstr));
  d ← fixed_digits 2 (take_str 2 (drop_str 8 dstr));
  if startswith "-" (drop_str 4 dstr) && startswith "-" (drop_str 7 dstr)
     && (1 <=? y) && (1 <=? m) && (m <=? 12) && (1 <=? d) && (d <=? days_in_month y m)
  then Some (ymd2ord y m d) else None.

(** [datetime.fromisoformat], with the grammar of Python 3.7 to 3.10: the
    strings [isoformat] emits, [YYYY-MM-DD[*HH[:MM[:SS[.fff[fff]]]][+HH:MM[:SS[.ffffff]]]]];
    anything else is a [ValueError].  (Later versions read further spellings
    of ISO 8601.) *)
Definition fromisoformat (s : string) : Exc datetime :=
  of_option ValueError
    (d ← parse_isoformat_date (take_str 10 s);
     match drop_str 10 s with
     | "" => Some {| dt_ord := d; dt_us := 0; dt_tz := None |}
     | String _ tstr =>
         if (String.length tstr <? 2)%nat then None
         else
           '(us, tz) ← parse_isoformat_time tstr;
           Some {| dt_ord := d; dt_us := us; dt_tz := tz |}
     end).

(** One or two digits of a [strptime] month or day field; [lead] tells
    whether a blank may stand for the leading zero. *)
Definition strptime_field (lead : bool) (s : string) (lo2 hi2 : Z) : option Z :=
  match s with
  | String a (String b "") =>
      if is_digit a && is_digit b then
        let v := digits_val 0 s in
        if (1 <=? v) && (v <=? hi2) then Some v else None
      else if lead && Ascii.eqb a " " && is_digit b && negb (Ascii.eqb b "0")
      then Some (digit_val b) else None
  | String a "" =>
      if is_digit a && negb (Ascii.eqb a "0") then Some (digit_val a) else None
  | _ => None
  end.

(** [datetime.strptime(s, "%Y-%m-%d")], as a date ordinal. *)
Definition strptime_ymd (s : string) : Exc Z :=
  of_option ValueError
    (match split "-" s with
     | [ys; ms; ds] =>
         y ← fixed_digits 4 ys;
         m ← strptime_field false ms 1 12;
         d ← strptime_field true ds 1 31;
         if (1 <=? y) && (d <=? days_in_month y m)
         then Some (ymd2ord y m d) else None
     | _ => None
     end).

Definition day_name (wd : Z) : string :=
  match wd with
  | 0 => "Monday" | 1 => "Tuesday" | 2 => "Wednesday" | 3 => "Thursday"
  | 4 => "Friday" | 5 => "Saturday" | _ => "Sunday"
  end.

Definition month_name (m : Z) : string :=
  match m with
  | 1 => "January" | 2 => "February" | 3 => "March" | 4 => "April"
  | 5 => "May" | 6 => "June" | 7 => "July" | 8 => "August"
  | 9 => "September" | 10 => "October" | 11 => "November" | _ => "December"
  end.

(** [%I]: the hour on the 12-hour clock. *)
Definition hour12 (h : Z) : Z := if h mod 12 =? 0 then 12 else h mod 12.

(** [%I:%M %p] *)
Definition format_clock (dt : datetime) : string :=
  fmt02d (hour12 (hour dt)) +:+ ":" +:+ fmt02d (minute dt) +:+ " "
  +:+ (if hour dt <? 12 then "AM" else "PM").

(** [strftime("%a %b %d, %I:%M %p")] *)
Definition format_short (dt : datetime) : string :=
  let '(y, m, d) := ord2ymd (dt_ord dt) in
  take_str 3 (day_name (weekday (dt_ord dt))) +:+ " "
  +:+ take_str 3 (month_name m) +:+ " " +:+ fmt02d d +:+ ", " +:+ format_clock dt.

(** [strftime("%A, %B %d")] *)
Definition format_long_date (ord : Z) : string :=
  let '(y, m, d) := ord2ymd ord in
  day_name (weekday ord) +:+ ", " +:+ month_name m +:+ " " +:+ fmt02d d.

End Datetime.

(** ** TimeRangeNormalizer: time points *)

(** [BookingAgent._normalize_time] *)
Definition _normalize_time (time_str : string) : Exc string :=
  let time_str := strip (replace "." "" (lower time_str)) in
  let is_pm := contains "pm" time_str in
  let time_str := strip (replace "pm" "" (replace "am" "" time_str)) in
  if negb (contains ":" time_str) then
    hour ← int_str time_str ;
    let hour := if is_pm && (hour <? 12) then hour + 12 else hour in
    Ok (fmt02d hour +:+ ":00")
  else
    match split ":" time_str with
    | [hour; minute] =>
        hour ← int_str hour ;
        let hour := if is_pm && (hour <? 12) then hour + 12 else hour in
        Ok (fmt02d hour +:+ ":" +:+ minute)
    | _ => Raise ValueError
    end.

(** [BookingAgent._add_minutes] *)
Definition _add_minutes (time_str : string) (minutes : Z) : Exc string :=
  match split ":" time_str with
  | [hour; minute] =>
      hour ← int_str hour ;
      minute ← int_str minute ;
      let total_minutes := hour * 60 + minute + minutes in
      Ok (fmt02d (total_minutes / 60) +:+ ":" +:+ fmt02d (total_minutes mod 60))
  | _ => Raise ValueError
  end.

(** ** Values of dynamic type

    What [json.loads] returns, and so what the dictionary of extracted
    details may hold.  A Python [float] is an IEEE 754 binary64 value. *)

#[warnings="-register-all"]
Inductive json : Type :=
  | JNull
  | JBool (b : bool)
  | JInt (z : Z)
  | JFloat (f : spec_float)
  | JString (s : string)
  | JArray (l : list json)
  | JObject (l : list (string * json)).

(** A Python [dict] with string keys, in insertion order. *)
Abbreviation pydict := (list (string * json)).

(** [d.get(k)] *)
Fixpoint dict_get (k : string) (d : pydict) : option json :=
  match d with
  | [] => None
  | (k', v) :: d' => if String.eqb k k' then Some v else dict_get k d'
  end.

(** [d[k] = v] *)
Fixpoint dict_set (k : string) (v : json) (d : pydict) : pydict :=
  match d with
  | [] => [(k, v)]
  | (k', v') :: d' =>
      if String.eqb k k' then (k, v) :: d' else (k', v') :: dict_set k v d'
  end.

(** [d[k]] *)
Definition dict_item (k : string) (d : pydict) : Exc json :=
  of_option KeyError (dict_get k d).

(** Truth value of a Python object. *)
Definition truthy (v : json) : bool :=
  match v with
  | JNull => false
  | JBool b => b
  | JInt z => negb (z =? 0)
  | JFloat (S754_zero _) => false
  | JFloat _ => true
  | JString s => negb (String.eqb s "")
  | JArray l => match l with [] => false | _ => true end
  | JObject l => match l with [] => false | _ => true end
  end.

(** [int(v)] *)
Definition py_int (v : json) : Exc Z :=
  match v with
  | JInt z => Ok z
  | JBool b => Ok (if b then 1 else 0)
  | JString s => int_str s
  | JFloat (S754_zero _) => Ok 0
  | JFloat (S754_finite sign m e) =>
      let mag := if 0 <=? e then Z.pos m * 2 ^ e else Z.pos m / 2 ^ (- e) in
      Ok (if sign then - mag else mag)
  | JFloat (S754_infinity _) => Raise OverflowError
  | JFloat S754_nan => Raise ValueError
  | JNull | JArray _ | JObject _ => Raise TypeError
  end.

(** ** Data of a conversation *)

(** A slot as the calendar service returns it: three strings. *)
Record Slot : Type := {
  slot_start : string;
  slot_end : string;
  slot_display : string;
}.

(** A busy interval of the free/busy answer: two RFC 3339 strings. *)
Record Busy : Type := {
  busy_start : string;
  busy_end : string;
}.

(** The body of an [events().insert] request. *)
Record Event : Type := {
  event_summary : json;
  event_start : string;
  event_end : string;
  event_timeZone : string;
}.

(** The fields of the created event that [book_appointment] reads. *)
Record EventResult : Type := {
  result_id : string;
  result_htmlLink : string;
  result_start : string;
  result_end : string;
}.

Inductive Message : Type :=
  | HumanMessage (content : string)
  | AIMessage (content : string).

Definition content (m : Message) : string :=
  match m with HumanMessage c => c | AIMessage c => c end.

(** A user id as Python passes it: [None] or a string. *)
Abbreviation pyid := (option string).

(** [not user_id] *)
Definition falsy_id (user_id : pyid) : bool :=
  match user_id with
  | Some (String _ _) => false
  | _ => true
  end.

(** ** The collaborators *)

Record World : Type := {
  (** [datetime.now(self.timezone).date()] *)
  today : Z;
  (** UTC offset of the zone the process runs in, in microseconds *)
  system_offset : Z;
  (** [self.chat.invoke(prompt).content], a function of the user's text:
      the rest of the prompt is constant *)
  chat_invoke : string → Exc string;
  (** [json.loads] *)
  json_loads : string → Exc json;
  (** [dateparser.parse(...).date()]; [None] when the parser finds no date
      or raises *)
  dateparser_parse : string → option Z;
  (** [str] of a value that is neither a string nor an integer; it raises
      where the value holds an integer that [str] refuses *)
  py_str_other : json → Exc string;
  (** whether the token file of a user holds usable credentials *)
  stored_credentials : string → bool;
  (** [freebusy().query(timeMin, timeMax)...['calendars']['primary']['busy']] *)
  freebusy_query : string → string → Exc (list Busy);
  (** [events().insert(calendarId='primary', body=event).execute()] *)
  events_insert : Event → Exc EventResult;
}.

(** [str(v)], as an f-string renders a value *)
Definition py_str (w : World) (v : json) : Exc string :=
  match v with
  | JString s => Ok s
  | JInt z => py_str_int z
  | _ => py_str_other w v
  end.

(** ** GoogleCalendarService *)

(** Asia/Kolkata: UTC+05:30 the whole year, as the zone has stood since
    15 October 1945. *)
Definition IST : Z := 5 * Datetime.US_PER_HOUR + 30 * Datetime.US_PER_MINUTE.

(** [self.timezone.localize(dt)] for a [dt] of the years from 1946 on with a
    day of the calendar after it: the library looks the offset up a day
    before and a day after [dt], and both are at UTC+05:30 then. *)
Definition localize (dt : Datetime.datetime) : Datetime.datetime :=
  {| Datetime.dt_ord := Datetime.dt_ord dt;
     Datetime.dt_us := Datetime.dt_us dt;
     Datetime.dt_tz := Some IST |}.

(** [timedelta(minutes=m)] in microseconds; the library bounds a timedelta
    by a thousand million days. *)
Definition timedelta_minutes (m : Z) : Exc Z :=
  let us := m * Datetime.US_PER_MINUTE in
  if (-999999999 * Datetime.US_PER_DAY <=? us)
     && (us <? 1000000000 * Datetime.US_PER_DAY)
  then Ok us else Raise OverflowError.

(** [GoogleCalendarService._get_credentials], as the truth value of what it
    returns: a missing user id raises inside and is answered with [None]. *)
Definition _get_credentials (w : World) (user_id : pyid) : bool :=
  match user_id with
  | Some (String c u) => stored_credentials w (String c u)
  | _ => false
  end.

(** The [while] loop that lists the candidate slots, every 15 minutes.
    [fuel] bounds the number of iterations; running out of it is reported
    as [RuntimeError] (see [possible_slots_fuel]). *)
Fixpoint possible_slots (fuel : nat) (current_time end_datetime : Datetime.datetime)
    (slot_duration : Z) : Exc (list (string * string)) :=
  match fuel with
  | O => Raise RuntimeError
  | S fuel' =>
      slot_end ← Datetime.add_us current_time slot_duration;
      continue ← Datetime.le slot_end end_datetime;
      if continue : bool then
        next ← Datetime.add_us current_time (15 * Datetime.US_PER_MINUTE);
        rest ← possible_slots fuel' next end_datetime slot_duration;
        Ok ((Datetime.isoformat current_time, Datetime.isoformat slot_end) :: rest)
      else Ok []
  end.

(** Iterations the loop can need: one per quarter of an hour between the
    first candidate and the last, and the test that ends it. *)
Definition possible_slots_bound (start_datetime end_datetime : Datetime.datetime)
    (slot_duration : Z) : nat :=
  S (Z.to_nat
       ((Datetime.instant end_datetime - Datetime.instant start_datetime - slot_duration)
          / (15 * Datetime.US_PER_MINUTE) + 1)).

(** The inner [for busy in busy_slots] loop with its [break]. *)
Fixpoint is_available (slot_start slot_end : Datetime.datetime)
    (busy_slots : list Busy) : Exc bool :=
  match busy_slots with
  | [] => Ok true
  | busy :: rest =>
      busy_start ← Datetime.fromisoformat (replace "Z" "+00:00" (busy_start busy));
      busy_end ← Datetime.fromisoformat (replace "Z" "+00:00" (busy_end busy));
      before ← Datetime.le slot_end busy_start;
      free ← (if before : bool then Ok true else Datetime.ge slot_start busy_end);
      if free : bool then is_available slot_start slot_end rest else Ok false
  end.

(** The dictionary appended for an available slot. *)
Definition available_slot (s_start s_end : string) : Exc (list Slot) :=
  dt ← Datetime.fromisoformat s_start;
  Ok [{| slot_start := s_start; slot_end := s_end;
         slot_display := Datetime.format_clock dt |}].

(** The outer [for slot in possible_slots] loop. *)
Fixpoint available_slots_of (w : World) (busy_slots : list Busy)
    (possible : list (string * string)) : Exc (list Slot) :=
  match possible with
  | [] => Ok []
  | (s_start, s_end) :: rest =>
      slot_start ← Datetime.fromisoformat s_start
                     ≫= Datetime.astimezone_utc (system_offset w);
      slot_end ← Datetime.fromisoformat s_end
                   ≫= Datetime.astimezone_utc (system_offset w);
      free ← is_available slot_start slot_end busy_slots;
      this ← (if free : bool then available_slot s_start s_end else Ok []);
      rest' ← available_slots_of w busy_slots rest;
      Ok (this ++ rest')%list
  end.

(** The working day of [date]: 09:00 to 17:00, Asia/Kolkata. *)
Definition working_day (date : string) : Exc (Datetime.datetime * Datetime.datetime) :=
  d ← Datetime.strptime_ymd date;
  let midnight := {| Datetime.dt_ord := d; Datetime.dt_us := 0; Datetime.dt_tz := None |} in
  let start_datetime := localize (Datetime.replace_time midnight 9 0) in
  Ok (start_datetime, Datetime.replace_time start_datetime 17 0).

(** The free/busy query of [get_available_slots]. *)
Definition query_busy (w : World) (start_datetime end_datetime : Datetime.datetime)
  : Exc (list Busy) :=
  timeMin ← Datetime.isoformat <$> Datetime.astimezone_utc (system_offset w) start_datetime;
  timeMax ← Datetime.isoformat <$> Datetime.astimezone_utc (system_offset w) end_datetime;
  freebusy_query w timeMin timeMax.

(** The body of the [try] of [get_available_slots], after the credential
    check. *)
Definition get_available_slots_body (w : World) (date : string)
    (duration_minutes : Z) : Exc (list Slot) :=
  '(start_datetime, end_datetime) ← working_day date;
  busy_slots ← query_busy w start_datetime end_datetime;
  slot_duration ← timedelta_minutes duration_minutes;
  possible ← possible_slots
               (possible_slots_bound start_datetime end_datetime slot_duration)
               start_datetime end_datetime slot_duration;
  available_slots_of w busy_slots possible.

(** [GoogleCalendarService.get_available_slots].  The function answers every
    exception with the empty list, so its [@retry] decorator never sees one
    and the body runs once. *)
Definition get_available_slots (w : World) (user_id : pyid) (date : string)
    (duration_minutes : Z) : list Slot :=
  if negb (_get_credentials w user_id) then []
  else
    match get_available_slots_body w date duration_minutes with
    | Ok available_slots => available_slots
    | Raise _ => []
    end.

(** A booking as the agent holds it: the dictionary [book_appointment]
    returns, with the keys [id], [htmlLink], [start] and [end], or empty. *)
Abbreviation Booking := (gmap string string).

(** [GoogleCalendarService.book_appointment]; here too every exception is
    answered inside, with the empty dictionary. *)
Definition book_appointment (w : World) (user_id : pyid)
    (start_time end_time : string) (summary : json) : Booking :=
  if negb (_get_credentials w user_id) then ∅
  else
    match
      start_dt ← Datetime.fromisoformat (replace "Z" "" start_time)
                   ≫= Datetime.astimezone_utc (system_offset w);
      end_dt ← Datetime.fromisoformat (replace "Z" "" end_time)
                 ≫= Datetime.astimezone_utc (system_offset w);
      events_insert w
        {| event_summary := summary;
           event_start := Datetime.isoformat start_dt;
           event_end := Datetime.isoformat end_dt;
           event_timeZone := "Asia/Kolkata" |}
    with
    | Ok event_result =>
        <["id" := result_id event_result]>
        (<["htmlLink" := result_htmlLink event_result]>
         (<["start" := result_start event_result]>
          (<["end" := result_end event_result]> ∅)))
    | Raise _ => ∅
    end.

(** ** BookingAgent: the conversation state *)

(** The dictionary kept per user id in [self.conversations].  The keys
    [suggested_slot] and [booking] are absent until they are first set. *)
Record ConversationState : Type := {
  messages : list Message;
  extracted_details : pydict;
  state : string;
  available_slots : list Slot;
  current_slot_index : nat;
  suggested_slot : option Slot;
  booking : option Booking;
}.

(** The dictionary a first turn creates. *)
Definition new_conversation : ConversationState :=
  {| messages := []; extracted_details := []; state := "awaiting_input";
     available_slots := []; current_slot_index := 0%nat;
     suggested_slot := None; booking := None |}.

Definition set_messages (ms : list Message) (cs : ConversationState) : ConversationState :=
  {| messages := ms; extracted_details := extracted_details cs; state := state cs;
     available_slots := available_slots cs;
     current_slot_index := current_slot_index cs;
     suggested_slot := suggested_slot cs; booking := booking cs |}.

(** [conversation_state["messages"].append(m)] *)
Definition append_message (m : Message) (cs : ConversationState) : ConversationState :=
  set_messages (messages cs ++ [m])%list cs.

Definition set_extracted_details (d : pydict) (cs : ConversationState) : ConversationState :=
  {| messages := messages cs; extracted_details := d; state := state cs;
     available_slots := available_slots cs;
     current_slot_index := current_slot_index cs;
     suggested_slot := suggested_slot cs; booking := booking cs |}.

Definition set_booking (b : option Booking) (cs : ConversationState) : ConversationState :=
  {| messages := messages cs; extracted_details := extracted_details cs;
     state := state cs; available_slots := available_slots cs;
     current_slot_index := current_slot_index cs;
     suggested_slot := suggested_slot cs; booking := b |}.

(** ** Text of the source's literals *)

Definition bytes (l : list nat) : string :=
  fold_right (fun n s => String (ascii_of_nat n) s) "" l.

(** The line feed. *)
Definition NL : string := bytes [10%nat].

(** The three pictographs of the replies, as the UTF-8 bytes of the
    characters the source file holds. *)
Definition MARK_CALENDAR : string :=
  bytes [195; 176; 197; 184; 226; 128; 156; 226; 128; 166]%nat.
Definition MARK_CHECK : string := bytes [195; 162; 197; 147; 226; 128; 166]%nat.
Definition MARK_LINK : string :=
  bytes [195; 176; 197; 184; 226; 128; 157; 226; 128; 148]%nat.

(** ** The regular expressions, matched by hand

    Each pattern of the source is followed the way [re] follows it: leftmost
    position first, greedy repetition, alternatives in order.  In each of
    them a shorter repetition or a later alternative cannot make the rest
    match where the first choice does not, so no backtracking is needed. *)

(** [(am|pm)?] *)
Definition match_period (s : string) : option string * string :=
  if startswith "am" s then (Some "am", drop_str 2 s)
  else if startswith "pm" s then (Some "pm", drop_str 2 s)
  else (None, s).

(** [(\d{1,2})(?::(\d{2}))?\s*(am|pm)?] at a position that holds a digit:
    groups 1, 2 and 3. *)
Definition match_time (s : string) : string * option string * option string :=
  let '(hour, r) := take_digits 2 s in
  let '(minute, r) :=
    match r with
    | String ":" r' =>
        let '(m, r'') := take_digits 2 r' in
        if (String.length m =? 2)%nat then (Some m, r'') else (None, r)
    | _ => (None, r)
    end in
  (hour, minute, fst (match_period (lstrip r))).

(** [re.search] of that pattern: it matches at the first digit. *)
Fixpoint search_time (s : string) : option (string * option string * option string) :=
  match s with
  | "" => None
  | String c s' => if is_digit c then Some (match_time s) else search_time s'
  end.

(** [(\d+)(?::(\d+))?\s*(am|pm)?]: the three groups and the rest. *)
Definition match_clock (s : string)
  : option (string * option string * option string * string) :=
  let '(hour, r) := all_digits s in
  if String.eqb hour "" then None
  else
    let '(minute, r) :=
      match r with
      | String ":" r' =>
          let '(m, r'') := all_digits r' in
          if String.eqb m "" then (None, r) else (Some m, r'')
      | _ => (None, r)
      end in
    let '(period, r) := match_period (lstrip r) in
    Some (hour, minute, period, r).

(** The six groups of the [between] pattern. *)
Abbreviation range_groups :=
  (string * option string * option string * (string * option string * option string))%type.

(** The [between ... (-|and) ...] pattern at one position. *)
Definition match_between (s : string) : option range_groups :=
  if startswith "between " s then
    '(h1, m1, p1, r) ← match_clock (drop_str 8 s);
    let r := lstrip r in
    r ← (if startswith "-" r then Some (drop_str 1 r)
         else if startswith "and" r then Some (drop_str 3 r)
         else None);
    '(h2, m2, p2, _) ← match_clock (lstrip r);
    Some (h1, m1, p1, (h2, m2, p2))
  else None.

Fixpoint search_between (s : string) : option range_groups :=
  match match_between s with
  | Some g => Some g
  | None =>
      match s with
      | "" => None
      | String _ s' => search_between s'
      end
  end.

(** The first of [alts] that [s] starts with. *)
Fixpoint first_prefix (alts : list string) (s : string) : option string :=
  match alts with
  | [] => None
  | a :: alts' => if startswith a s then Some a else first_prefix alts' s
  end.

(** [for (\d+)\s*(hour|hr|minute|min)] at one position: groups 1 and 2. *)
Definition match_duration (s : string) : option (string * string) :=
  if startswith "for " s then
    let '(num, r) := all_digits (drop_str 4 s) in
    if String.eqb num "" then None
    else
      unit ← first_prefix ["hour"; "hr"; "minute"; "min"] (lstrip r);
      Some (num, unit)
  else None.

(** [re.search] of that pattern: start of the match and the groups. *)
Fixpoint search_duration (i : nat) (s : string) : option (nat * string * string) :=
  match match_duration s with
  | Some (num, unit) => Some (i, num, unit)
  | None =>
      match s with
      | "" => None
      | String _ s' => search_duration (S i) s'
      end
  end.

(** A separator word at the front of [s] with a word boundary behind it:
    the length of the match.  The pattern's two further alternatives are
    sequences of non-ASCII characters and match no ASCII text. *)
Fixpoint match_separator (alts : list string) (s : string) : option nat :=
  match alts with
  | [] => None
  | a :: alts' =>
      if startswith a s
         && match drop_str (String.length a) s with
            | "" => true
            | String c _ => negb (is_word c)
            end
      then Some (String.length a)
      else match_separator alts' s
  end.

(** [re.sub(r"\b(to|until|through|thru|...)\b", "-", s)]; [prev_word]
    tells whether the character before [s] is a word character, [skip]
    counts the characters of a match still to be passed over. *)
Fixpoint sub_separators (prev_word : bool) (skip : nat) (s : string) : string :=
  match s with
  | "" => ""
  | String c s' =>
      match skip with
      | S k => sub_separators (is_word c) k s'
      | O =>
          match (if prev_word then None
                 else match_separator ["to"; "until"; "through"; "thru"] s) with
          | Some n => "-" +:+ sub_separators (is_word c) (n - 1) s'
          | None => String c (sub_separators (is_word c) 0 s')
          end
      end
  end.

(** ** TimeRangeNormalizer and DateNormalizer *)

Definition named_times (time_str : string) : option (string * string) :=
  if String.eqb time_str "morning" then Some ("09:00", "12:00")
  else if String.eqb time_str "afternoon" then Some ("13:00", "17:00")
  else if String.eqb time_str "evening" then Some ("17:00", "20:00")
  else if String.eqb time_str "night" then Some ("20:00", "23:00")
  else if String.eqb time_str "noon" then Some ("12:00", "13:00")
  else if String.eqb time_str "midnight" then Some ("00:00", "01:00")
  else None.

(** [BookingAgent._parse_time] on a string that is not empty. *)
Definition parse_time_str (time_str : string) : Exc (string * string) :=
  let time_str := strip (lower time_str) in
  let time_str := sub_separators false 0 time_str in
  match named_times time_str with
  | Some range => Ok range
  | None =>
      if contains "from" time_str && contains "to" time_str then
        let parts := split "to" time_str in
        let start := strip (replace "from" "" (nth 0 parts "")) in
        let end_ := strip (nth 1 parts "") in
        s ← _normalize_time start;
        e ← _normalize_time end_;
        Ok (s, e)
      else
        match search_duration 0 time_str with
        | Some (i, num, unit) =>
            let time_part := strip (take_str i time_str) in
            num ← int_group num;
            let minutes := if startswith "h" unit then num * 60 else num in
            s ← _normalize_time time_part;
            e ← _normalize_time time_part ≫= (fun t => _add_minutes t minutes);
            Ok (s, e)
        | None =>
            if contains "-" time_str then
              match split1 "-" time_str with
              | [start; end_] =>
                  s ← _normalize_time (strip start);
                  e ← _normalize_time (strip end_);
                  Ok (s, e)
              | _ => Raise ValueError
              end
            else
              normalized ← _normalize_time time_str;
              e ← _add_minutes normalized 30;
              Ok (normalized, e)
        end
  end.

(** [BookingAgent._parse_time]: the argument is whatever the details hold
    under [time]; a value that is true and not a string has no [lower]. *)
Definition _parse_time (time_str : json) : Exc (string * string) :=
  if negb (truthy time_str) then Ok ("09:00", "17:00")
  else
    match time_str with
    | JString s => parse_time_str s
    | _ => Raise AttributeError
    end.

Definition relative_keywords (date_str : string) : option Z :=
  if String.eqb date_str "today" then Some 0
  else if String.eqb date_str "tomorrow" then Some 1
  else if String.eqb date_str "day after tomorrow" then Some 2
  else if String.eqb date_str "next week" then Some 7
  else if String.eqb date_str "next month" then Some 30
  else None.

Definition weekdays : list (string * Z) :=
  [("monday", 0); ("tuesday", 1); ("wednesday", 2); ("thursday", 3);
   ("friday", 4); ("saturday", 5); ("sunday", 6)].

(** The inner loop [for day, idx in weekdays.items()] for one prefix. *)
Fixpoint find_weekday (prefix : string) (days : list (string * Z)) (date_str : string)
  : option Z :=
  match days with
  | [] => None
  | (day, idx) :: days' =>
      if contains (prefix +:+ " " +:+ day) date_str then Some idx
      else find_weekday prefix days' date_str
  end.

(** The outer loop [for prefix in ["next", "this", "coming"]]: the first
    prefix and weekday index whose phrase occurs in [date_str]. *)
Fixpoint find_weekday_phrase (prefixes : list string) (date_str : string)
  : option (string * Z) :=
  match prefixes with
  | [] => None
  | prefix :: prefixes' =>
      match find_weekday prefix weekdays date_str with
      | Some idx => Some (prefix, idx)
      | None => find_weekday_phrase prefixes' date_str
      end
  end.

(** The number of days a weekday phrase lies ahead of a day whose weekday is
    [today_weekday]. *)
Definition days_ahead (prefix : string) (idx today_weekday : Z) : Z :=
  let days_ahead :=
    (idx - today_weekday + (if negb (String.eqb prefix "this") then 7 else 0)) mod 7 in
  if (days_ahead =? 0) && negb (String.eqb prefix "this") then 7 else days_ahead.

(** [BookingAgent._parse_date] on a string that is not empty. *)
Definition parse_date_str (w : World) (date_str : string) : Exc string :=
  let date_str := strip (lower date_str) in
  match relative_keywords date_str with
  | Some days =>
      target_date ← Datetime.add_days (today w) days;
      Ok (Datetime.format_date target_date)
  | None =>
      match find_weekday_phrase ["next"; "this"; "coming"] date_str with
      | Some (prefix, idx) =>
          target_date ← Datetime.add_days (today w)
                          (days_ahead prefix idx (Datetime.weekday (today w)));
          Ok (Datetime.format_date target_date)
      | None =>
          match dateparser_parse w date_str with
          | Some parsed => Ok (Datetime.format_date parsed)
          | None => Raise ValueError
          end
      end
  end.

(** [BookingAgent._parse_date] *)
Definition _parse_date (w : World) (date_str : json) : Exc string :=
  if negb (truthy date_str) then Ok (Datetime.format_date (today w))
  else
    match date_str with
    | JString s => parse_date_str w s
    | _ => Raise AttributeError
    end.

(** [BookingAgent._format_datetime] *)
Definition _format_datetime (iso_str : string) : string :=
  match Datetime.fromisoformat (replace "Z" "" iso_str) with
  | Ok dt => Datetime.format_short dt
  | Raise _ => iso_str
  end.

(** [BookingAgent._is_time_in_range] *)
Definition _is_time_in_range (slot_time start end_ : string) : Exc bool :=
  time_part ← of_option IndexError (split "T" slot_time !! 1%nat);
  slot_hour ← int_str (nth 0 (split ":" time_part) "");
  start_hour ← int_str (nth 0 (split ":" start) "");
  end_hour ← int_str (nth 0 (split ":" end_) "");
  Ok ((start_hour <=? slot_hour) && (slot_hour <? end_hour)).

(** ** IntentExtractor and FallbackExtractor *)

(** The first of Monday to Friday that the text names. *)
Definition first_weekday_in (user_input : string) : option string :=
  List.find (fun day => contains day user_input)
    ["monday"; "tuesday"; "wednesday"; "thursday"; "friday"].

(** The 24-hour value of an hour read with an optional [am] or [pm]. *)
Definition to_24h (period : option string) (hour : Z) : Z :=
  match period with
  | Some "pm" => if hour <? 12 then hour + 12 else hour
  | Some "am" => if hour =? 12 then 0 else hour
  | _ => hour
  end.

(** [int(m.group(2) or 0)] for a group of at most two digits. *)
Definition group_or_0 (g : option string) : Z :=
  match g with
  | Some d => if String.eqb d "" then 0 else digits_val 0 d
  | None => 0
  end.

(** [int(m.group(k) or 0)] for a group that [\d+] matched, or none. *)
Definition int_group_or_0 (g : option string) : Exc Z :=
  match g with
  | Some d => if String.eqb d "" then Ok 0 else int_group d
  | None => Ok 0
  end.

(** The extracted dictionary of [_simple_extraction] for a user text.  The
    groups of the first pattern hold at most two digits; those of the
    [between] pattern are unbounded, and [int] raises on a group it
    refuses. *)
Definition simple_details (user_input : string) : Exc pydict :=
  let user_input := lower user_input in
  let date :=
    if contains "tomorrow" user_input then "tomorrow"
    else
      match first_weekday_in user_input with
      | Some day => "next " +:+ day
      | None => if contains "next week" user_input then "next week" else "today"
      end in
  let time :=
    if contains "afternoon" user_input then "14:00"
    else if contains "morning" user_input then "09:00"
    else if contains "evening" user_input then "17:00"
    else
      match search_time user_input with
      | Some (hour, minute, period) =>
          fmt02d (to_24h period (digits_val 0 hour)) +:+ ":" +:+ fmt02d (group_or_0 minute)
      | None => "12:00"
      end in
  '(time, duration) ←
    (if contains "between" user_input
        && (contains "-" user_input || contains "and" user_input)
     then
       match search_between user_input with
       | Some (h1, m1, p1, (h2, m2, p2)) =>
           start_hour ← int_group h1;
           start_min ← int_group_or_0 m1;
           end_hour ← int_group h2;
           end_min ← int_group_or_0 m2;
           let start_hour := to_24h p1 start_hour in
           let end_hour := to_24h p2 end_hour in
           Ok (fmt02d start_hour +:+ ":" +:+ fmt02d start_min +:+ "-"
               +:+ fmt02d end_hour +:+ ":" +:+ fmt02d end_min,
               (end_hour * 60 + end_min) - (start_hour * 60 + start_min))
       | None => Ok (time, 30)
       end
     else Ok (time, 30));
  Ok [("date", JString date); ("time", JString time); ("duration", JInt duration);
      ("purpose", JString "Meeting")].

(** [BookingAgent._simple_extraction]: the dictionary is stored at the end,
    so a conversion that raises leaves the conversation as it was. *)
Definition _simple_extraction (user_input : string) (cs : ConversationState)
  : Exc ConversationState :=
  details ← simple_details user_input;
  Ok (set_extracted_details details cs).

(** The text between code fences, or the outermost braces, of the LLM's
    answer. *)
Definition strip_fences (json_str : string) : string :=
  if contains "```json" json_str then
    strip (nth 0 (split "```" (nth 1 (split "```json" json_str) "")) "")
  else if contains "```" json_str then
    strip (nth 1 (split "```" json_str) "")
  else if contains "{" json_str && contains "}" json_str then
    match find "{" json_str, rfind "}" json_str with
    | Some i, Some j => take_str (j + 1 - i) (drop_str i json_str)
    | _, _ => json_str
    end
  else json_str.

(** The defaults [extract_details] fills in, and the coercion of the
    duration. *)
Definition fill_defaults (details : pydict) : Exc pydict :=
  let details := dict_set "date" (default (JString "today") (dict_get "date" details)) details in
  let details := dict_set "time" (default (JString "12:00") (dict_get "time" details)) details in
  duration ← py_int (default (JInt 30) (dict_get "duration" details));
  let details := dict_set "duration" (JInt duration) details in
  Ok (dict_set "purpose" (default (JString "Meeting") (dict_get "purpose" details)) details).

(** What the [try] block of [extract_details] comes to: the details to
    store, [None] where the inner handler of [json.JSONDecodeError] hands
    over to the fallback, or the exception that reaches the outer handler. *)
Definition llm_details (w : World) (user_input : string) : Exc (option pydict) :=
  json_str ← strip <$> chat_invoke w user_input;
  match json_loads w (strip_fences json_str) with
  | Raise JSONDecodeError => Ok None
  | Raise e => Raise e
  | Ok (JObject details) => Some <$> fill_defaults details
  | Ok _ => Raise AttributeError
  end.

(** [BookingAgent.extract_details].  [self.chat] is the client the
    constructor built, a true value, so the [else] of [if self.chat] is
    never taken.  Both handlers end in [_simple_extraction], outside any
    [try] that could answer what it raises: the outer handler answers an
    exception of the inner one by the same call on the same text, which
    raises again. *)
Definition extract_details (w : World) (user_input : string) (cs : ConversationState)
  : Exc ConversationState :=
  match llm_details w user_input with
  | Ok (Some details) => Ok (set_extracted_details details cs)
  | Ok None => _simple_extraction user_input cs
  | Raise _ => _simple_extraction user_input cs
  end.

(** ** BookingStateMachine: the nodes of the workflow

    A node receives the user id, the user's text and the conversation
    dictionary, and leaves the dictionary changed. *)

Inductive Route : Type := to_check | to_inquire | to_respond.

(** [details.get(k)] taken as a condition *)
Definition has_detail (k : string) (details : pydict) : bool :=
  match dict_get k details with
  | Some v => truthy v
  | None => false
  end.

(** [BookingAgent._decide_after_extraction]: it also drops the booking of
    the turn before. *)
Definition _decide_after_extraction (user_input : string) (cs : ConversationState)
  : Route * ConversationState :=
  let user_input := lower user_input in
  let details := extracted_details cs in
  let cs := set_booking None cs in
  let is_booking :=
    existsb (fun word => contains word user_input) ["book"; "schedule"; "set up"; "want"] in
  let is_inquiry :=
    existsb (fun word => contains word user_input) ["free"; "available"; "have time"] in
  if is_booking && has_detail "date" details && has_detail "time" details
  then (to_check, cs)
  else if is_inquiry then (to_inquire, cs)
  else if has_detail "date" details && has_detail "time" details then (to_check, cs)
  else (to_respond, cs).

(** [BookingAgent.generate_inquiry_response] *)
Definition generate_inquiry_response (w : World) (cs : ConversationState)
  : ConversationState :=
  let details := extracted_details cs in
  match
    date_str ← _parse_date w (default (JString "") (dict_get "date" details));
    date ← Datetime.strptime_ymd date_str;
    duration ← py_str w (default (JInt 30) (dict_get "duration" details));
    purpose ← py_str w (default (JString "meeting") (dict_get "purpose" details));
    Ok ("Yes, I can check availability for " +:+ Datetime.format_long_date date
        +:+ "." +:+ NL +:+ "Would you like me to find a " +:+ duration
        +:+ "-minute slot " +:+ "for a " +:+ purpose +:+ "?")
  with
  | Ok response => append_message (AIMessage response) cs
  | Raise _ =>
      append_message
        (AIMessage "Sorry, I couldn't understand the date. Please try again.") cs
  end.

(** The [try] block of [check_availability]: the filtered and the
    unfiltered list of free slots. *)
Definition check_slots (w : World) (user_id : pyid) (details : pydict)
  : Exc (list Slot * list Slot) :=
  match details with
  | [] => Raise ValueError
  | _ =>
      date_str ← dict_item "date" details ≫= _parse_date w;
      '(start_time, end_time) ← dict_item "time" details ≫= _parse_time;
      duration ← py_int (default (JInt 30) (dict_get "duration" details));
      let all_slots := get_available_slots w user_id date_str duration in
      filtered_slots ←
        filterM (fun slot => _is_time_in_range (slot_start slot) start_time end_time)
          all_slots;
      Ok (filtered_slots, all_slots)
  end.

(** [filtered_slots or all_slots] *)
Definition or_else (filtered_slots all_slots : list Slot) : list Slot :=
  match filtered_slots with
  | [] => all_slots
  | _ => filtered_slots
  end.

(** [BookingAgent.check_availability] *)
Definition check_availability (w : World) (user_id : pyid) (cs : ConversationState)
  : ConversationState :=
  if falsy_id user_id then
    append_message (AIMessage "Authentication error. Please sign in again.") cs
  else
    match check_slots w user_id (extracted_details cs) with
    | Ok (filtered_slots, all_slots) =>
        {| messages := messages cs; extracted_details := extracted_details cs;
           state := state cs;
           available_slots := or_else filtered_slots all_slots;
           current_slot_index := 0;
           suggested_slot := suggested_slot cs; booking := booking cs |}
    | Raise _ =>
        append_message
          (AIMessage "Failed to check availability. Please try again.") cs
    end.

(** The text that offers a slot. *)
Definition offer_text (slot : Slot) : string :=
  "I found an available slot:" +:+ NL
  +:+ MARK_CALENDAR +:+ " " +:+ _format_datetime (slot_start slot) +:+ " - "
  +:+ _format_datetime (slot_end slot) +:+ NL
  +:+ "Would this work for you? (Yes/No)".

(** [BookingAgent.suggest_slots].  The branch that offers a slot passes a
    new one-element list under [messages] to [update]. *)
Definition suggest_slots (cs : ConversationState) : ConversationState :=
  let idx := current_slot_index cs in
  match available_slots cs with
  | [] =>
      append_message
        (AIMessage "No available slots found for your requested time. Please try another time.")
        cs
  | _ =>
      match available_slots cs !! idx with
      | Some slot =>
          {| messages := [AIMessage (offer_text slot)];
             extracted_details := extracted_details cs; state := state cs;
             available_slots := available_slots cs;
             current_slot_index := (idx + 1)%nat;
             suggested_slot := Some slot; booking := booking cs |}
      | None =>
          append_message
            (AIMessage "No more available slots for your requested time. Please try another time.")
            cs
      end
  end.

(** [BookingAgent.finalize_booking].  [book_appointment] returns a
    dictionary whatever happens, so the [try] block always ends normally. *)
Definition finalize_booking (w : World) (user_id : pyid) (cs : ConversationState)
  : ConversationState :=
  if falsy_id user_id then
    append_message (AIMessage "Authentication error. Please sign in again.") cs
  else
    match suggested_slot cs with
    | None =>
        append_message (AIMessage "No appointment slot selected. Please start over.") cs
    | Some slot =>
        match
          Ok (book_appointment w user_id (slot_start slot) (slot_end slot)
                (default (JString "Meeting") (dict_get "purpose" (extracted_details cs))))
        with
        | Ok booking => set_booking (Some booking) cs
        | Raise _ =>
            append_message (AIMessage "Failed to book appointment. Please try again.") cs
        end
    end.

(** The text [generate_response] renders; reading a key the booking
    dictionary lacks raises [KeyError]. *)
Definition response_text (cs : ConversationState) : Exc string :=
  match booking cs with
  | Some booking =>
      start ← of_option KeyError (booking !! "start");
      end_ ← of_option KeyError (booking !! "end");
      link ← of_option KeyError (booking !! "htmlLink");
      Ok (MARK_CHECK +:+ " Appointment booked!" +:+ NL
          +:+ MARK_CALENDAR +:+ " When: " +:+ _format_datetime start +:+ " - "
          +:+ _format_datetime end_ +:+ NL
          +:+ MARK_LINK +:+ " Link: " +:+ link)
  | None =>
      match available_slots cs with
      | [] => Ok "No available slots found for your requested time."
      | _ => Ok "How would you like to proceed?"
      end
  end.

(** [BookingAgent.generate_response] *)
Definition generate_response (cs : ConversationState) : Exc ConversationState :=
  response ← response_text cs;
  Ok (if existsb (fun msg => String.eqb (content msg) response) (messages cs)
      then cs
      else append_message (AIMessage response) cs).

(** ** BookingStateMachine: the workflow and the turn *)

Inductive Node : Type := check | suggest | confirm | respond | inquire.

(** The nodes that follow [extract], along the edges of [_create_workflow]:
    [inquire → check → suggest → confirm → respond → __end__]. *)
Definition path_of (route : Route) : list Node :=
  match route with
  | to_check => [check; suggest; confirm; respond]
  | to_inquire => [inquire; check; suggest; confirm; respond]
  | to_respond => [respond]
  end.

Definition run_node (w : World) (user_id : pyid) (n : Node) (cs : ConversationState)
  : Exc ConversationState :=
  match n with
  | check => Ok (check_availability w user_id cs)
  | suggest => Ok (suggest_slots cs)
  | confirm => Ok (finalize_booking w user_id cs)
  | respond => generate_response cs
  | inquire => Ok (generate_inquiry_response w cs)
  end.

(** Runs the nodes of a path in turn.  The result lists the conversation
    dictionary after each node that returned, and the exception that stopped
    the run, if one did. *)
Fixpoint run_nodes (w : World) (user_id : pyid) (path : list Node)
    (cs : ConversationState) : list ConversationState * option exn :=
  match path with
  | [] => ([], None)
  | n :: path' =>
      match run_node w user_id n cs with
      | Raise e => ([], Some e)
      | Ok cs' =>
          let '(trace, e) := run_nodes w user_id path' cs' in
          (cs' :: trace, e)
      end
  end.

(** [self.workflow.stream(initial_state)], run to its end: the dictionary
    after [extract], after the routing function, and after each later
    node, up to the node that raised, if one did. *)
Definition workflow_stream (w : World) (user_id : pyid) (user_input : string)
    (cs : ConversationState) : list ConversationState * option exn :=
  match extract_details w user_input cs with
  | Raise e => ([], Some e)
  | Ok cs1 =>
      let '(route, cs2) := _decide_after_extraction user_input cs1 in
      let '(trace, e) := run_nodes w user_id (path_of route) cs2 in
      (cs1 :: cs2 :: trace, e)
  end.

(** The states the dictionary of a user passes through in one turn, from
    the appended user message on. *)
Definition turn_trace (w : World) (message user_id : string) (cs : ConversationState)
  : list ConversationState * option exn :=
  let cs := append_message (HumanMessage message) cs in
  let '(trace, e) := workflow_stream w (Some user_id) message cs in
  (cs :: trace, e).

Definition is_ai (m : Message) : bool :=
  match m with AIMessage _ => true | HumanMessage _ => false end.

(** The content of the last [AIMessage], or the default text. *)
Definition last_ai_message (ms : list Message) : string :=
  match List.find is_ai (rev ms) with
  | Some m => content m
  | None => "Sorry, I didn't understand that."
  end.

(** [self.conversations] *)
Abbreviation Conversations := (gmap string ConversationState).

(** [BookingAgent.process_message]: the reply and the store afterwards.
    The nodes work on the dictionary held in the store, so what they did
    before an exception stays. *)
Definition process_message (w : World) (message : string) (user_id : pyid)
    (conversations : Conversations) : string * Conversations :=
  match user_id with
  | Some (String c u) =>
      let user_id := String c u in
      let cs := default new_conversation (conversations !! user_id) in
      let '(trace, e) := turn_trace w message user_id cs in
      let conversations := <[user_id := List.last trace cs]> conversations in
      match e with
      | None =>
          (last_ai_message (messages (List.last trace cs)), conversations)
      | Some _ => ("Sorry, I encountered an error. Please try again.", conversations)
      end
  | _ => ("Authentication error. Please sign in again.", conversations)
  end.

(** ** The chat endpoint ([main.py]) *)

(** [UserMessage.sanitize_message], the validator of the message field. *)
Definition sanitize_message (v : string) : string :=
  strip (replace ">" "&gt;" (replace "<" "&lt;" v)).

(** ** Notions the properties are stated with *)

(** The instant the availability loop reads off a slot's string. *)
Definition slot_instant (w : World) (iso : string) : option Z :=
  match Datetime.fromisoformat iso ≫= Datetime.astimezone_utc (system_offset w) with
  | Ok dt => Some (Datetime.instant dt)
  | Raise _ => None
  end.

(** The instant it reads off a string of the free/busy answer. *)
Definition busy_instant (rfc3339 : string) : option Z :=
  match Datetime.fromisoformat (replace "Z" "+00:00" rfc3339) with
  | Ok dt => Some (Datetime.instant dt)
  | Raise _ => None
  end.

(** Every character of [s] satisfies [P]. *)
Fixpoint all_chars (P : ascii → bool) (s : string) : bool :=
  match s with
  | "" => true
  | String c s' => P c && all_chars P s'
  end.

(** Characters other than [c]. *)
Definition is_not (c : ascii) : ascii → bool := fun x => negb (Ascii.eqb c x).

(** Characters of a formatted integer. *)
Definition digit_or_minus (c : ascii) : bool := is_digit c || Ascii.eqb c "-".

(** Characters of the time and offset part of an ISO string. *)
Definition time_char (c : ascii) : bool :=
  is_digit c || Ascii.eqb c "-" || Ascii.eqb c "+" || Ascii.eqb c ":" || Ascii.eqb c ".".

(** The hour [_is_time_in_range] reads off a slot's start. *)
Definition start_hour_of (slot_time : string) : Exc Z :=
  time_part ← of_option IndexError (split "T" slot_time !! 1%nat);
  int_str (nth 0 (split ":" time_part) "").

(** The hour it reads off a bound of the requested window. *)
Definition window_hour (bound : string) : Exc Z :=
  int_str (nth 0 (split ":" bound) "").

(** The start hour of a slot, as [_is_time_in_range] reads it. *)
Definition slot_hour (s : Slot) : Z :=
  match start_hour_of (slot_start s) with
  | Ok h => h
  | Raise _ => 0
  end.

(** The suggested slot, when there is one, is the slot just before the
    slot pointer. *)
Definition suggested_is_last_offered (cs : ConversationState) : Prop :=
  ∀ slot, suggested_slot cs = Some slot →
    ∃ i, current_slot_index cs = S i ∧ available_slots cs !! i = Some slot.

(** [cs'] holds the slots, the slot pointer and the suggested slot of
    [cs]. *)
Definition same_slots (cs cs' : ConversationState) : Prop :=
  available_slots cs' = available_slots cs
  ∧ current_slot_index cs' = current_slot_index cs
  ∧ suggested_slot cs' = suggested_slot cs.

(** The operations of a turn on the conversation dictionary. *)
Inductive Op : Type :=
  | op_user_message
  | op_extract
  | op_route
  | op_node (n : Node).

Definition run_op (w : World) (user_id : pyid) (user_input : string) (o : Op)
    (cs : ConversationState) : Exc ConversationState :=
  match o with
  | op_user_message => Ok (append_message (HumanMessage user_input) cs)
  | op_extract => extract_details w user_input cs
  | op_route => Ok (snd (_decide_after_extraction user_input cs))
  | op_node n => run_node w user_id n cs
  end.

(** The states a user's dictionary passes through in a session: a turn is
    the world it runs in and the user's text. *)
Fixpoint session_states (turns : list (World * string)) (user_id : string)
    (cs : ConversationState) : list ConversationState :=
  match turns with
  | [] => []
  | (w, message) :: turns' =>
      let trace := fst (turn_trace w message user_id cs) in
      (trace ++ session_states turns' user_id (List.last trace cs))%list
  end.

(** [nondecreasing l]: no element of [l] is below the one before it. *)
Fixpoint nondecreasing (l : list nat) : bool :=
  match l with
  | a :: (b :: _) as l' => (a <=? b)%nat && nondecreasing l'
  | _ => true
  end.

(** The booking a conversation holds, if any, is what [book_appointment]
    answers in [w] for the suggested slot and the purpose of the details. *)
Definition booked_for (w : World) (user_id : pyid) (cs : ConversationState) : Prop :=
  match booking cs with
  | None => True
  | Some b =>
      ∃ slot, suggested_slot cs = Some slot
        ∧ b = book_appointment w user_id (slot_start slot) (slot_end slot)
                (default (JString "Meeting") (dict_get "purpose" (extracted_details cs)))
  end.

(** How a run of nodes that left [cs] ended: with [KeyError] on the empty
    booking, and normally otherwise. *)
Definition ends_well (w : World) (user_id : pyid)
    (cs : ConversationState) (e : option exn) : Prop :=
  booked_for w user_id cs
  ∧ (booking cs = Some ∅ → e = Some KeyError)
  ∧ (booking cs ≠ Some ∅ → e = None).

(** [s] is a slot the calendar service returned to the user in a turn of
    [turns]. *)
Definition from_calendar (turns : list (World * string)) (user_id : string) (s : Slot)
  : Prop :=
  ∃ w message date duration,
    (w, message) ∈ turns ∧ s ∈ get_available_slots w (Some user_id) date duration.

(** [range_all P lo p]: [P] holds of the [p] integers from [lo] on. *)
Fixpoint range_all (P : Z → bool) (lo : Z) (p : positive) : bool :=
  match p with
  | xH => P lo
  | xO q => range_all P lo q && range_all P (lo + Z.pos q) q
  | xI q => P lo && range_all P (lo + 1) q && range_all P (lo + 1 + Z.pos q) q
  end.

(** [r] is the text [expected]. *)
Definition is_text (expected : string) (r : Exc string) : bool :=
  match r with
  | Ok s => String.eqb s expected
  | Raise _ => false
  end.

(** [r] is the window from [a] to [b]. *)
Definition is_window (a b : string) (r : Exc (string * string)) : bool :=
  match r with
  | Ok (x, y) => String.eqb x a && String.eqb y b
  | Raise _ => false
  end.

(** The spellings of [am] and [pm], with whether they mean the afternoon. *)
Definition periods : list (string * bool) :=
  [("am", false); ("pm", true); ("AM", false); ("PM", true);
   ("a.m.", false); ("p.m.", true)].

(** The hour [_normalize_time] makes of an hour of the 12-hour clock. *)
Definition hour_of_period (pm : bool) (h : Z) : Z :=
  if pm && (h <? 12) then h + 12 else h.

(** [_normalize_time] on an hour of the 12-hour clock with minutes, and
    on the hour alone. *)
Definition normalizes_12_hour (sep period : string) (pm : bool) (h m : Z) : bool :=
  is_text (fmt02d (hour_of_period pm h) +:+ ":" +:+ fmt02d m)
    (_normalize_time (str_int h +:+ ":" +:+ fmt02d m +:+ sep +:+ period)).

Definition normalizes_hour (sep period : string) (pm : bool) (h : Z) : bool :=
  is_text (fmt02d (hour_of_period pm h) +:+ ":00")
    (_normalize_time (str_int h +:+ sep +:+ period)).

(** [_parse_time] and [_normalize_time] on a time of day in canonical
    form. *)
Definition parses_single_time (h m : Z) : bool :=
  is_window (fmt02d h +:+ ":" +:+ fmt02d m)
    (fmt02d ((h * 60 + m + 30) / 60) +:+ ":" +:+ fmt02d ((h * 60 + m + 30) mod 60))
    (_parse_time (JString (fmt02d h +:+ ":" +:+ fmt02d m)))
  && is_text (fmt02d h +:+ ":" +:+ fmt02d m)
       (_normalize_time (fmt02d h +:+ ":" +:+ fmt02d m)).

(** The month and the day of the month of day [n] (from 0) of a year, as
    the last part of [ord2ymd] finds them. *)
Definition month_day (leapyear : bool) (n : Z) : Z * Z :=
  let month := Z.shiftr (n + 50) 5 in
  let preceding :=
    Datetime.DAYS_BEFORE_MONTH month + (if (2 <? month) && leapyear then 1 else 0) in
  if n <? preceding then
    let month := month - 1 in
    let preceding :=
      preceding
      - ((if month =? 2 then 28
          else if (month =? 4) || (month =? 6) || (month =? 9) || (month =? 11)
               then 30 else 31)
         + (if (month =? 2) && leapyear then 1 else 0)) in
    (month, n - preceding + 1)
  else (month, n - preceding + 1).

(** [month_day] gives a month and a day of that month, [n] days into the
    year. *)
Definition month_day_ok (leapyear : bool) (n : Z) : bool :=
  let '(m, d) := month_day leapyear n in
  (1 <=? m) && (m <=? 12) && (1 <=? d)
  && (d <=? (if m =? 2 then (if leapyear then 29 else 28)
             else if (m =? 4) || (m =? 6) || (m =? 9) || (m =? 11) then 30 else 31))
  && (Datetime.DAYS_BEFORE_MONTH m + (if (2 <? m) && leapyear then 1 else 0) + d =? n + 1).

(** The days before a year of the first 400, and whether it is a leap year,
    by its centuries, its groups of four years and its single years. *)
Definition year_ok (y : Z) : bool :=
  let b := (y - 1) / 100 in
  let c := ((y - 1) mod 100) / 4 in
  let e := (y - 1) mod 4 in
  (Datetime.days_before_year y =? 36524 * b + 1461 * c + 365 * e)
  && Bool.eqb (Datetime.is_leap y) ((e =? 3) && (negb (c =? 24) || (b =? 3)))
  && ((200 <=? y)
      || (Datetime.days_before_year y + (if Datetime.is_leap y then 366 else 365)
          <? Datetime.ymd2ord 1000 1 1 - 2 * Datetime.DI400Y))
  && ((y <=? 399)
      || (Datetime.MAXORDINAL - 24 * Datetime.DI400Y <=? Datetime.days_before_year y)).

(** [s] is the two digits of [v]. *)
Definition is_two_digits (v : Z) (s : string) : bool :=
  match s with
  | String a (String b "") =>
      is_digit a && is_digit b && (10 * digit_val a + digit_val b =? v)
  | _ => false
  end.

(** [s] is the four digits of [v]. *)
Definition is_four_digits (v : Z) (s : string) : bool :=
  match s with
  | String a (String b (String c (String d ""))) =>
      is_digit a && is_digit b && is_digit c && is_digit d
      && (1000 * digit_val a + 100 * digit_val b + 10 * digit_val c + digit_val d =? v)
  | _ => false
  end.

(** The part of [isoformat] after the [T]: the time and the offset. *)
Definition iso_time (us : Z) (tz : option Z) : string :=
  let dt := {| Datetime.dt_ord := 0; Datetime.dt_us := us; Datetime.dt_tz := tz |} in
  fmt02d (Datetime.hour dt) +:+ ":" +:+ fmt02d (Datetime.minute dt) +:+ ":"
  +:+ fmt02d (Datetime.second dt)
  +:+ (if Datetime.microsecond dt =? 0 then ""
       else "." +:+ Datetime.fmt06d (Datetime.microsecond dt))
  +:+ match tz with None => "" | Some off => Datetime.format_offset off end.

(** Two UTC offsets, or their absence, are the same. *)
Definition same_offset (a b : option Z) : bool :=
  match a, b with
  | Some x, Some y => x =? y
  | None, None => true
  | _, _ => false
  end.

(** The time part written for minute [m] of a day is read back. *)
Definition iso_time_ok (tz : option Z) (m : Z) : bool :=
  let t := iso_time (m * Datetime.US_PER_MINUTE) tz in
  (2 <=? String.length t)%nat && all_chars (is_not "Z") t
  && match Datetime.parse_isoformat_time t with
     | Some (us, tz') => (us =? m * Datetime.US_PER_MINUTE) && same_offset tz' tz
     | None => false
     end.

(** Minute [m] of day [d] on the clock of Asia/Kolkata. *)
Definition ist_minute (d m : Z) : Datetime.datetime :=
  {| Datetime.dt_ord := d; Datetime.dt_us := m * Datetime.US_PER_MINUTE;
     Datetime.dt_tz := Some IST |}.

(** Minute [m] of day [d], UTC. *)
Definition utc_minute (d m : Z) : Datetime.datetime :=
  {| Datetime.dt_ord := d; Datetime.dt_us := m * Datetime.US_PER_MINUTE;
     Datetime.dt_tz := Some 0 |}.

(** The [k]-th candidate slot of day [d]: it starts [15 * k] minutes after
    09:00 and lasts [duration] minutes. *)
Definition candidate (d duration k : Z) : Slot :=
  {| slot_start := Datetime.isoformat (ist_minute d (540 + 15 * k));
     slot_end := Datetime.isoformat (ist_minute d (540 + 15 * k + duration));
     slot_display := Datetime.format_clock (ist_minute d (540 + 15 * k)) |}.

(** The number of candidates that end by 17:00. *)
Definition candidate_count (duration : Z) : Z :=
  if duration <=? 480 then (480 - duration) / 15 + 1 else 0.

(** A string of the free/busy answer that is read as an aware datetime. *)
Definition aware (rfc3339 : string) : Prop :=
  ∃ dt, Datetime.fromisoformat (replace "Z" "+00:00" rfc3339) = Ok dt
        ∧ Datetime.dt_tz dt ≠ None.

(** The busy interval [b] leaves the [k]-th candidate free. *)
Definition clear_of (d duration k : Z) (b : Busy) : bool :=
  match busy_instant (busy_start b), busy_instant (busy_end b) with
  | Some b_start, Some b_end =>
      (Datetime.instant (ist_minute d (540 + 15 * k + duration)) <=? b_start)
      || (b_end <=? Datetime.instant (ist_minute d (540 + 15 * k)))
  | _, _ => false
  end.

(** The days whose year [strftime] writes with four digits. *)
Definition four_digit_year (d : Z) : Prop :=
  Datetime.ymd2ord 1000 1 1 <= d <= Datetime.MAXORDINAL.

(** The days of the years from 1946 on that have a day of the calendar
    after them: the days on which [localize] finds Asia/Kolkata at
    UTC+05:30. *)
Definition ist_day (d : Z) : Prop :=
  Datetime.ymd2ord 1946 1 1 <= d < Datetime.MAXORDINAL.

(** A text short enough for every run of digits in it to be read by
    [int]; the chat endpoint admits 500 characters. *)
Definition short_text (s : string) : Prop :=
  Z.of_nat (String.length s) <= MAX_STR_DIGITS.

(** [n] times the digit 1. *)
Fixpoint ones (n : nat) : string :=
  match n with
  | O => ""
  | S k => String "1" (ones k)
  end.

(** Characters other than the two angle brackets. *)
Definition no_bracket (c : ascii) : bool := is_not "<" c && is_not ">" c.

(** Characters of a time of day in canonical form, and of a range of
    two. *)
Definition plain (c : ascii) : bool := is_digit c || Ascii.eqb c ":" || Ascii.eqb c "-".

(** [fmt02d h +:+ ":" +:+ fmt02d m] *)
Definition hh_mm (h m : Z) : string := fmt02d h +:+ ":" +:+ fmt02d m.

(** What the state holds after [check], [suggest], [confirm] and [respond]
    on details of the fallback extractor. *)
Definition booked_first_slot (w : World) (user_id : pyid) (details : pydict)
    (filtered_slots all_slots : list Slot) (cs : ConversationState) : Prop :=
  extracted_details cs = details
  ∧ available_slots cs = or_else filtered_slots all_slots
  ∧ ∀ slot rest, or_else filtered_slots all_slots = slot :: rest →
      current_slot_index cs = 1%nat
      ∧ suggested_slot cs = Some slot
      ∧ booking cs
        = Some (book_appointment w user_id (slot_start slot) (slot_end slot)
                  (JString "Meeting")).

(** A time of the 12-hour clock as a user writes it: the hour and the
    period, [None] for none. *)
Definition clock_text (h : Z) (period : option bool) : string :=
  str_int h +:+ match period with
                | None => ""
                | Some false => "am"
                | Some true => "pm"
                end.

(** What [_normalize_time] makes of it. *)
Definition clock_time (h : Z) (period : option bool) : string :=
  fmt02d (hour_of_period (default false period) h) +:+ ":00".

Definition clock_periods : list (option bool) := [None; Some false; Some true].

(** [_parse_time] on a range of two such times. *)
Definition parses_range (sep : string) (p1 p2 : option bool) (a b : Z) : bool :=
  is_window (clock_time a p1) (clock_time b p2)
    (_parse_time (JString (clock_text a p1 +:+ sep +:+ clock_text b p2))).

(** [_parse_time] on such a range after the word [from]. *)
Definition from_to_raises (p1 p2 : option bool) (a b : Z) : bool :=
  match _parse_time (JString ("from " +:+ clock_text a p1 +:+ " to " +:+ clock_text b p2)) with
  | Raise ValueError => true
  | _ => false
  end.

(** The spellings of the hour as a unit of a duration. *)
Definition hour_units : list string := ["hour"; "hours"; "hr"].

(** [_parse_time] on a time with a duration in hours. *)
Definition parses_duration (unit : string) (p : option bool) (h n : Z) : bool :=
  let start := hour_of_period (default false p) h in
  is_window (clock_time h p) (fmt02d (start + n) +:+ ":00")
    (_parse_time (JString (clock_text h p +:+ " for " +:+ str_int n +:+ " " +:+ unit))).

(** A busy interval that the free/busy answer gives with aware datetimes and
    that lasts at most [minutes] minutes. *)
Definition lasts_at_most (minutes : Z) (b : Busy) : Prop :=
  aware (busy_start b) ∧ aware (busy_end b)
  ∧ ∃ b_start b_end,
      busy_instant (busy_start b) = Some b_start
      ∧ busy_instant (busy_end b) = Some b_end
      ∧ b_end - b_start <= minutes * Datetime.US_PER_MINUTE.

(** ** Worlds and states of the examples *)

(** 2 January 2024, a Tuesday.  The LLM endpoint is down, the user holds
    credentials, the calendar of the day has one meeting from 10:00 to
    10:30, and events are created as asked. *)
Definition quiet_world : World :=
  {| today := 738887;
     system_offset := 0;
     chat_invoke := fun _ => Raise RuntimeError;
     json_loads := fun _ => Raise JSONDecodeError;
     dateparser_parse := fun _ => None;
     py_str_other := fun _ => Ok "";
     stored_credentials := fun _ => true;
     freebusy_query := fun _ _ =>
       Ok [{| busy_start := "2024-01-03T10:00:00+05:30";
              busy_end := "2024-01-03T10:30:00+05:30" |}];
     events_insert := fun e =>
       Ok {| result_id := "evt1"; result_htmlLink := "https://calendar.example/evt1";
             result_start := event_start e; result_end := event_end e |} |}.

(** The same, but the calendar refuses to create events. *)
Definition failing_world : World :=
  {| today := today quiet_world;
     system_offset := system_offset quiet_world;
     chat_invoke := chat_invoke quiet_world;
     json_loads := json_loads quiet_world;
     dateparser_parse := dateparser_parse quiet_world;
     py_str_other := py_str_other quiet_world;
     stored_credentials := stored_credentials quiet_world;
     freebusy_query := freebusy_query quiet_world;
     events_insert := fun _ => Raise RuntimeError |}.

(** The same as [quiet_world], but the whole working day is busy. *)
Definition booked_out_world : World :=
  {| today := today quiet_world;
     system_offset := system_offset quiet_world;
     chat_invoke := chat_invoke quiet_world;
     json_loads := json_loads quiet_world;
     dateparser_parse := dateparser_parse quiet_world;
     py_str_other := py_str_other quiet_world;
     stored_credentials := stored_credentials quiet_world;
     freebusy_query := fun _ _ =>
       Ok [{| busy_start := "2024-01-03T03:30:00Z";
              busy_end := "2024-01-03T11:30:00Z" |}];
     events_insert := events_insert quiet_world |}.

Definition booking_request : string := "book a meeting tomorrow at 10am".

(** The conversation of a first turn after the fallback extractor has read
    [booking_request]. *)
Definition requested_conversation : ConversationState :=
  set_extracted_details
    [("date", JString "tomorrow"); ("time", JString "10:00"); ("duration", JInt 30);
     ("purpose", JString "Meeting")]
    new_conversation.

(** A request for a time between two hours, the first of them written with
    4301 digits. *)
Definition long_request : string := "between " +:+ ones 4301 +:+ " and 2".

Definition second_request : string :=
  "schedule a call tomorrow between 2pm and 4pm".

(** The first slot of 3 January 2024. *)
Definition nine_o_clock : Slot :=
  {| slot_start := "2024-01-03T09:00:00+05:30";
     slot_end := "2024-01-03T09:30:00+05:30";
     slot_display := "09:00 AM" |}.

(** A conversation with free slots on offer, no booking, and the generic
    prompt two messages back. *)
Definition prompted_conversation : ConversationState :=
  {| messages := [AIMessage "How would you like to proceed?"; HumanMessage "hello"];
     extracted_details := [("date", JString ""); ("time", JString "")];
     state := "awaiting_input";
     available_slots := [nine_o_clock];
     current_slot_index := 1;
     suggested_slot := None;
     booking := None |}.

(** The double quote. *)
Definition QUOTE : string := bytes [34%nat].

(** The LLM answers every text with a fenced JSON object that names a date
    and gives the duration as a string; [json.loads] reads that object. *)
Definition answering_world : World :=
  {| today := today quiet_world;
     system_offset := system_offset quiet_world;
     chat_invoke := fun _ =>
       Ok ("```json" +:+ NL
           +:+ "{" +:+ QUOTE +:+ "date" +:+ QUOTE +:+ ": " +:+ QUOTE +:+ "tomorrow" +:+ QUOTE
           +:+ ", " +:+ QUOTE +:+ "duration" +:+ QUOTE +:+ ": " +:+ QUOTE +:+ "45" +:+ QUOTE
           +:+ ", " +:+ QUOTE +:+ "intent" +:+ QUOTE +:+ ": " +:+ QUOTE +:+ "book" +:+ QUOTE
           +:+ "}" +:+ NL +:+ "```");
     json_loads := fun s =>
       if String.eqb s
            ("{" +:+ QUOTE +:+ "date" +:+ QUOTE +:+ ": " +:+ QUOTE +:+ "tomorrow" +:+ QUOTE
             +:+ ", " +:+ QUOTE +:+ "duration" +:+ QUOTE +:+ ": " +:+ QUOTE +:+ "45" +:+ QUOTE
             +:+ ", " +:+ QUOTE +:+ "intent" +:+ QUOTE +:+ ": " +:+ QUOTE +:+ "book" +:+ QUOTE
             +:+ "}")
       then Ok (JObject [("date", JString "tomorrow"); ("duration", JString "45");
                         ("intent", JString "book")])
       else Raise JSONDecodeError;
     dateparser_parse := dateparser_parse quiet_world;
     py_str_other := py_str_other quiet_world;
     stored_credentials := stored_credentials quiet_world;
     freebusy_query := freebusy_query quiet_world;
     events_insert := events_insert quiet_world |}.

(** * Properties *)

(** ** The embedding at work *)

Example ord_2024_01_02 : Datetime.ymd2ord 2024 1 2 = 738887.
Proof. reflexivity. Qed.
Example ymd_738887 : Datetime.ord2ymd 738887 = (2024, 1, 2).
Proof. reflexivity. Qed.
Example iso_roundtrip :
  Datetime.isoformat <$> (Datetime.fromisoformat "2024-02-29T09:15:00+05:30")
  = Ok "2024-02-29T09:15:00+05:30".
Proof. vm_compute. reflexivity. Qed.
Example normalize_2pm : _normalize_time "2pm" = Ok "14:00".
Proof. reflexivity. Qed.
Example normalize_12am : _normalize_time "12am" = Ok "12:00".
Proof. reflexivity. Qed.
Example normalize_230 : _normalize_time " 2:30 PM" = Ok "14:30".
Proof. reflexivity. Qed.
Example split_ex : split "to" "from 9 to 5 tomorrow" = ["from 9 "; " 5 "; "morrow"].
Proof. reflexivity. Qed.
Example add_ex : _add_minutes "23:45" 30 = Ok "24:15".
Proof. reflexivity. Qed.
Example sub_ex : sub_separators false 0 "9 to 5 until tomorrow" = "9 - 5 - tomorrow".
Proof. reflexivity. Qed.
Example search_time_ex : search_time "call at 2:30 pm" = Some ("2", Some "30", Some "pm").
Proof. reflexivity. Qed.
Example search_between_ex :
  search_between "free between 10am and 12:30pm?"
  = Some ("10", None, Some "am", ("12", Some "30", Some "pm")).
Proof. reflexivity. Qed.
Example search_duration_ex :
  search_duration 0 "2pm for 45 min" = Some (4%nat, "45", "min").
Proof. reflexivity. Qed.
Example parse_time_afternoon : _parse_time (JString "afternoon") = Ok ("13:00", "17:00").
Proof. reflexivity. Qed.
Example parse_time_2pm : _parse_time (JString "2pm") = Ok ("14:00", "14:30").
Proof. reflexivity. Qed.
Example parse_time_range : _parse_time (JString "9am to 11:30am") = Ok ("09:00", "11:30").
Proof. reflexivity. Qed.
Example in_range_ex :
  _is_time_in_range "2024-01-03T09:15:00+05:30" "09:00" "12:00" = Ok true.
Proof. reflexivity. Qed.

(** ** Running code that may raise *)

Lemma bind_Ok {A B} (m : Exc A) (k : A → Exc B) (b : B) :
  m ≫= k = Ok b → ∃ a, m = Ok a ∧ k a = Ok b.
Proof. destruct m as [a|e]; cbn; [eauto | discriminate]. Qed.

Lemma exc_bind_Ok {A B} (a : A) (k : A → Exc B) : Ok a ≫= k = k a.
Proof. reflexivity. Qed.

(** Runs the binds whose first part is a known result. *)
Tactic Notation "exc_simpl" := cbv beta iota delta [mbind Exc_bind Py.bind].
Tactic Notation "exc_simpl" "in" hyp(H) :=
  cbv beta iota delta [mbind Exc_bind Py.bind] in H.

(** [filterM] with a predicate that never raises on the list is [filter]. *)
Lemma filterM_filter {A} (p : A → Exc bool) (q : A → bool) (l : list A) :
  (∀ x, x ∈ l → p x = Ok (q x)) → filterM p l = Ok (List.filter q l).
Proof.
  induction l as [|x l IH]; intros H; cbn; [reflexivity|].
  rewrite (H x) by left. rewrite IH by (intros y Hy; apply H; now right).
  reflexivity.
Qed.

(** ** C6: time points *)

(** C6.  [_normalize_time] strips am/pm, reads a token without a colon as a
    whole hour and adds 12 to a pm hour below 12, but it has no rule for an
    am hour of 12: the token 12am comes out as 12:00, not as 00:00, while
    the fallback extractor turns the same token into 00:00. *)
Theorem normalize_time_12am_is_noon :
  _normalize_time "12am" = Ok "12:00"
  ∧ _normalize_time "12am" ≠ Ok "00:00"
  ∧ _normalize_time "7pm" = Ok "19:00"
  ∧ _normalize_time "7" = Ok "07:00"
  ∧ dict_get "time" <$> simple_details "12am" = Ok (Some (JString "00:00")).
Proof. vm_compute. repeat split; discriminate. Qed.

(** ** C10: a turn without a user id *)

(** C10.  With a user id that is [None] or the empty string,
    [process_message] answers with the authentication error and leaves the
    store of conversations as it was, whatever the message. *)
Theorem process_message_without_user_id
    (w : World) (message : string) (user_id : pyid) (conversations : Conversations) :
  falsy_id user_id = true →
  process_message w message user_id conversations
  = ("Authentication error. Please sign in again.", conversations).
Proof.
  intros H. unfold process_message.
  destruct user_id as [[|c u]|]; [reflexivity | discriminate H | reflexivity].
Qed.

Lemma process_message_without_user_id_witness :
  falsy_id (Some "") = true
  ∧ process_message quiet_world "hello" (Some "") ∅
    = ("Authentication error. Please sign in again.", ∅).
Proof.
  split; [reflexivity|].
  apply (process_message_without_user_id quiet_world "hello" (Some "") ∅).
  reflexivity.
Defined.

(** ** C8: extraction falls back *)

Lemma length_lower (s : string) : String.length (lower s) = String.length s.
Proof. induction s as [|c s IH]; cbn; congruence. Qed.

Lemma length_lstrip (s : string) : (String.length (lstrip s) ≤ String.length s)%nat.
Proof.
  induction s as [|c s IH]; [reflexivity|]. cbn [lstrip].
  destruct (is_space c); cbn [String.length]; lia.
Qed.

Lemma length_drop_str (n : nat) (s : string) :
  (String.length (drop_str n s) ≤ String.length s)%nat.
Proof.
  revert s. induction n as [|n IH]; intros s; [reflexivity|].
  destruct s as [|c s]; [reflexivity|]. cbn [drop_str String.length].
  specialize (IH s). lia.
Qed.

(** The digits taken and the rest make up the text. *)
Lemma take_digits_length (n : nat) (s : string) :
  (String.length (fst (take_digits n s)) + String.length (snd (take_digits n s))
   = String.length s)%nat.
Proof.
  revert s. induction n as [|n IH]; intros s; [now destruct s|].
  destruct s as [|c s]; [reflexivity|]. cbn [take_digits].
  destruct (is_digit c); [|reflexivity].
  specialize (IH s). destruct (take_digits n s) as [d r].
  cbn [fst snd String.length] in *. lia.
Qed.

Lemma match_period_length (s : string) :
  (String.length (snd (match_period s)) ≤ String.length s)%nat.
Proof.
  unfold match_period.
  destruct (startswith "am" s); [apply length_drop_str|].
  destruct (startswith "pm" s); [apply length_drop_str | reflexivity].
Qed.

(** The groups of a clock time, and what follows it, are no longer than the
    text they are read from. *)
Lemma match_clock_length (s hour : string) (minute period : option string) (r : string) :
  match_clock s = Some (hour, minute, period, r) →
  (String.length hour ≤ String.length s)%nat
  ∧ (∀ d, minute = Some d → (String.length d ≤ String.length s)%nat)
  ∧ (String.length r ≤ String.length s)%nat.
Proof.
  unfold match_clock, all_digits.
  pose proof (take_digits_length (String.length s) s) as Hh.
  destruct (take_digits (String.length s) s) as [h r0]. cbn [fst snd] in Hh.
  destruct (String.eqb h ""); [discriminate|].
  assert (E : ∃ m r1,
             match r0 with
             | String ":" r' =>
                 let '(m, r'') := take_digits (String.length r') r' in
                 if String.eqb m "" then (None, r0) else (Some m, r'')
             | _ => (None, r0)
             end = (m, r1)
             ∧ (∀ d, m = Some d → (String.length d ≤ String.length r0)%nat)
             ∧ (String.length r1 ≤ String.length r0)%nat).
  { destruct r0 as [|x r'];
      [exists None, ""; split; [reflexivity | split; [discriminate | reflexivity]]|].
    destruct (Ascii.eqb_spec x ":") as [-> | Hx].
    - pose proof (take_digits_length (String.length r') r') as Hm.
      destruct (take_digits (String.length r') r') as [m r'']. cbn [fst snd] in Hm.
      destruct (String.eqb m "").
      + eexists _, _. split; [reflexivity|]. split; [discriminate | reflexivity].
      + eexists _, _. split; [reflexivity|]. cbn [String.length].
        split; [intros d [= <-]; lia | lia].
    - exists None, (String x r'). split; [|split; [discriminate | reflexivity]].
      destruct x as [[] [] [] [] [] [] [] []]; try reflexivity. now exfalso. }
  destruct E as (m & r1 & -> & Hm & Hr1).
  pose proof (match_period_length (lstrip r1)) as Hp.
  pose proof (length_lstrip r1) as Hl.
  destruct (match_period (lstrip r1)) as [p r2]. cbn [snd] in Hp.
  intros [= <- <- _ <-]. repeat split; [lia | | lia].
  intros d Hd. specialize (Hm d Hd). lia.
Qed.

(** So are the four groups of digits of the [between] pattern. *)
Lemma search_between_length (s : string) (h1 h2 : string)
    (m1 p1 m2 p2 : option string) :
  search_between s = Some (h1, m1, p1, (h2, m2, p2)) →
  (String.length h1 ≤ String.length s)%nat
  ∧ (∀ d, m1 = Some d → (String.length d ≤ String.length s)%nat)
  ∧ (String.length h2 ≤ String.length s)%nat
  ∧ (∀ d, m2 = Some d → (String.length d ≤ String.length s)%nat).
Proof.
  assert (Hm : ∀ t, match_between t = Some (h1, m1, p1, (h2, m2, p2)) →
                    (String.length h1 ≤ String.length t)%nat
                    ∧ (∀ d, m1 = Some d → (String.length d ≤ String.length t)%nat)
                    ∧ (String.length h2 ≤ String.length t)%nat
                    ∧ (∀ d, m2 = Some d → (String.length d ≤ String.length t)%nat)).
  { intros t. unfold match_between.
    destruct (startswith "between " t); [|discriminate].
    pose proof (length_drop_str 8 t) as H8.
    destruct (match_clock (drop_str 8 t)) as [[[[a b] c] r]|] eqn:E1; [|discriminate].
    cbn [mbind option_bind].
    apply match_clock_length in E1 as (Ha & Hb & Hr).
    pose proof (length_lstrip r) as Hl.
    assert (Hsep : ∀ r', (if startswith "-" (lstrip r) then Some (drop_str 1 (lstrip r))
                          else if startswith "and" (lstrip r)
                               then Some (drop_str 3 (lstrip r)) else None) = Some r' →
                         (String.length r' ≤ String.length (lstrip r))%nat).
    { intros r'. destruct (startswith "-" (lstrip r)).
      - intros H. injection H as H. rewrite <- H.
        exact (length_drop_str 1 (lstrip r)).
      - destruct (startswith "and" (lstrip r)); [|discriminate].
        intros H. injection H as H. rewrite <- H.
        exact (length_drop_str 3 (lstrip r)). }
    destruct (if startswith "-" (lstrip r) then _ else _) as [r'|]; [|discriminate].
    specialize (Hsep r' eq_refl).
    cbn [mbind option_bind].
    pose proof (length_lstrip r') as Hl'.
    destruct (match_clock (lstrip r')) as [[[[a' b'] c'] r'']|] eqn:E2; [|discriminate].
    cbn [mbind option_bind]. intros [= <- <- <- <- <- <-].
    apply match_clock_length in E2 as (Ha' & Hb' & _).
    repeat split; try lia.
    - intros d Hd. specialize (Hb d Hd). lia.
    - intros d Hd. specialize (Hb' d Hd). lia. }
  induction s as [|c s IH].
  - cbn [search_between]. destruct (match_between "") eqn:E; [|discriminate].
    intros [= ->]. now apply Hm in E.
  - cbn [search_between]. destruct (match_between (String c s)) eqn:E.
    + intros [= ->]. now apply Hm in E.
    + intros H. destruct (IH H) as (H1 & H2 & H3 & H4). cbn [String.length].
      repeat split; try lia.
      * intros d Hd. specialize (H2 d Hd). lia.
      * intros d Hd. specialize (H4 d Hd). lia.
Qed.

(** [int] reads a group of at most 4300 digits, and raises nothing but
    [ValueError]. *)
Lemma int_group_cases (d : string) :
  (Z.of_nat (String.length d) <= MAX_STR_DIGITS ∧ int_group d = Ok (digits_val 0 d))
  ∨ (MAX_STR_DIGITS < Z.of_nat (String.length d) ∧ int_group d = Raise ValueError).
Proof.
  unfold int_group.
  destruct (Z.leb_spec (Z.of_nat (String.length d)) MAX_STR_DIGITS); [left | right]; now split.
Qed.

Lemma int_group_or_0_cases (g : option string) :
  int_group_or_0 g = Ok (group_or_0 g)
  ∨ (int_group_or_0 g = Raise ValueError
     ∧ ∃ d, g = Some d ∧ MAX_STR_DIGITS < Z.of_nat (String.length d)).
Proof.
  destruct g as [d|]; [|now left]. cbn [int_group_or_0 group_or_0].
  destruct (String.eqb d ""); [now left|].
  destruct (int_group_cases d) as [[_ H] | [Hlong H]]; [now left | right; eauto].
Qed.

Lemma int_group_Ok (d : string) (z : Z) : int_group d = Ok z → z = digits_val 0 d.
Proof.
  destruct (int_group_cases d) as [[_ ->] | [_ ->]]; [now intros [= <-] | discriminate].
Qed.

Lemma int_group_or_0_Ok (g : option string) (z : Z) :
  int_group_or_0 g = Ok z → z = group_or_0 g.
Proof.
  destruct (int_group_or_0_cases g) as [-> | [-> _]]; [now intros [= <-] | discriminate].
Qed.

(** What the fallback extractor comes to: the four keys with the values it
    read, or [ValueError] on a group of more than 4300 digits of the
    [between] pattern. *)
Lemma simple_details_cases (user_input : string) :
  let text := lower user_input in
  (∃ date time duration,
     simple_details user_input
     = Ok [("date", JString date); ("time", JString time); ("duration", JInt duration);
           ("purpose", JString "Meeting")])
  ∨ (simple_details user_input = Raise ValueError
     ∧ ∃ h1 m1 p1 h2 m2 p2 d,
         search_between text = Some (h1, m1, p1, (h2, m2, p2))
         ∧ (d = h1 ∨ m1 = Some d ∨ d = h2 ∨ m2 = Some d)
         ∧ MAX_STR_DIGITS < Z.of_nat (String.length d)).
Proof.
  cbv zeta. unfold simple_details.
  destruct (contains "between" (lower user_input)
            && (contains "-" (lower user_input) || contains "and" (lower user_input)));
    [|left; eauto].
  destruct (search_between (lower user_input))
    as [[[[h1 m1] p1] [[h2 m2] p2]]|] eqn:E; [|left; eauto].
  destruct (int_group_cases h1) as [[_ ->] | [Hlong ->]];
    [|right; split; [reflexivity|]; exists h1, m1, p1, h2, m2, p2, h1;
      split; [reflexivity | split; [now left | exact Hlong]]].
  rewrite exc_bind_Ok.
  destruct (int_group_or_0_cases m1) as [-> | [-> (d & -> & Hlong)]];
    [|right; split; [reflexivity|]; exists h1, (Some d), p1, h2, m2, p2, d;
      split; [reflexivity | split; [now right; left | exact Hlong]]].
  rewrite exc_bind_Ok.
  destruct (int_group_cases h2) as [[_ ->] | [Hlong ->]];
    [|right; split; [reflexivity|]; exists h1, m1, p1, h2, m2, p2, h2;
      split; [reflexivity | split; [now right; right; left | exact Hlong]]].
  rewrite exc_bind_Ok.
  destruct (int_group_or_0_cases m2) as [-> | [-> (d & -> & Hlong)]];
    [|right; split; [reflexivity|]; exists h1, m1, p1, h2, (Some d), p2, d;
      split; [reflexivity | split; [now right; right; right | exact Hlong]]].
  left. eauto.
Qed.

(** On a text of at most 4300 characters the fallback extractor returns. *)
Lemma simple_details_short (user_input : string) :
  short_text user_input →
  ∃ date time duration,
    simple_details user_input
    = Ok [("date", JString date); ("time", JString time); ("duration", JInt duration);
          ("purpose", JString "Meeting")].
Proof.
  intros Hshort. unfold short_text in Hshort.
  destruct (simple_details_cases user_input)
    as [H | (_ & h1 & m1 & p1 & h2 & m2 & p2 & d & E & Hd & Hlong)]; [exact H|].
  exfalso. cbv zeta in E.
  apply search_between_length in E as (H1 & H2 & H3 & H4).
  rewrite length_lower in H1, H2, H3, H4.
  destruct Hd as [-> | [-> | [-> | ->]]].
  - lia.
  - specialize (H2 d eq_refl). lia.
  - lia.
  - specialize (H4 d eq_refl). lia.
Qed.

(** The details of the fallback extractor hold all four keys. *)
Lemma simple_details_keys (user_input : string) (details : pydict) :
  simple_details user_input = Ok details →
  ∃ date time duration,
    details
    = [("date", JString date); ("time", JString time); ("duration", JInt duration);
       ("purpose", JString "Meeting")].
Proof.
  intros H.
  destruct (simple_details_cases user_input) as [(date & time & duration & E) | [E _]];
    rewrite E in H; [|discriminate H].
  injection H as <-. eauto.
Qed.

(** When the LLM gives no object, [extract_details] is the fallback. *)
Lemma extract_details_is_fallback
    (w : World) (user_input : string) (cs : ConversationState) :
  (∃ e, chat_invoke w user_input = Raise e)
  ∨ (∃ answer,
       chat_invoke w user_input = Ok answer
       ∧ ((∃ e, json_loads w (strip_fences (strip answer)) = Raise e)
          ∨ (∃ v, json_loads w (strip_fences (strip answer)) = Ok v
                  ∧ ∀ d, v ≠ JObject d))) →
  extract_details w user_input cs = _simple_extraction user_input cs.
Proof.
  intros H. unfold extract_details, llm_details.
  destruct H as [[e He] | (answer & Ha & [[e He] | (v & Hv & Hobj)])].
  - rewrite He. reflexivity.
  - rewrite Ha. cbn. rewrite He. destruct e; reflexivity.
  - rewrite Ha. cbn. rewrite Hv.
    destruct v; try reflexivity. exfalso. eapply Hobj. reflexivity.
Qed.

(** Whatever [extract_details] returns is the conversation with new
    details. *)
Lemma extract_details_Ok
    (w : World) (user_input : string) (cs cs' : ConversationState) :
  extract_details w user_input cs = Ok cs' →
  ∃ details, cs' = set_extracted_details details cs.
Proof.
  unfold extract_details, _simple_extraction.
  destruct (llm_details w user_input) as [[d|]|e].
  - intros [= <-]. eauto.
  - intros H. apply bind_Ok in H as (d & _ & H). injection H as <-. eauto.
  - intros H. apply bind_Ok in H as (d & _ & H). injection H as <-. eauto.
Qed.

(** On a text of at most 4300 characters [extract_details] returns. *)
Lemma extract_details_short
    (w : World) (user_input : string) (cs : ConversationState) :
  short_text user_input → ∃ cs', extract_details w user_input cs = Ok cs'.
Proof.
  intros Hshort.
  destruct (simple_details_short user_input Hshort) as (date & time & duration & E).
  unfold extract_details, _simple_extraction. rewrite E.
  destruct (llm_details w user_input) as [[d|]|e]; eauto.
Qed.

(** C8 as stated fails.  The LLM is down and the text holds a run of 4301
    digits after [between]: [int] refuses the run, the fallback extractor
    raises [ValueError] and so does [extract_details]; the turn ends with
    the generic error reply. *)
Lemma extract_details_raises_on_long_number :
  chat_invoke quiet_world long_request = Raise RuntimeError
  ∧ _simple_extraction long_request new_conversation = Raise ValueError
  ∧ extract_details quiet_world long_request new_conversation = Raise ValueError
  ∧ fst (process_message quiet_world long_request (Some "u") ∅)
    = "Sorry, I encountered an error. Please try again.".
Proof. vm_compute. repeat split. Qed.

(** C8, amended.  When the LLM call raises, or [json.loads] raises on its
    answer, or the answer parses to something that is not an object,
    [extract_details] does to the conversation exactly what
    [_simple_extraction] does on the same text.  On a text of at most 4300
    characters, as every message of the chat endpoint is, both return
    normally and the details stored are the fallback's, with all four keys
    filled; when they raise, it is [ValueError]. *)
Theorem extract_details_falls_back
    (w : World) (user_input : string) (cs : ConversationState) :
  (∃ e, chat_invoke w user_input = Raise e)
  ∨ (∃ answer,
       chat_invoke w user_input = Ok answer
       ∧ ((∃ e, json_loads w (strip_fences (strip answer)) = Raise e)
          ∨ (∃ v, json_loads w (strip_fences (strip answer)) = Ok v
                  ∧ ∀ d, v ≠ JObject d))) →
  extract_details w user_input cs = _simple_extraction user_input cs
  ∧ (short_text user_input →
     ∃ date time duration,
       let details :=
         [("date", JString date); ("time", JString time); ("duration", JInt duration);
          ("purpose", JString "Meeting")] in
       simple_details user_input = Ok details
       ∧ extract_details w user_input cs = Ok (set_extracted_details details cs))
  ∧ (∀ e, extract_details w user_input cs = Raise e → e = ValueError).
Proof.
  intros H.
  pose proof (extract_details_is_fallback w user_input cs H) as Hfb.
  split; [exact Hfb|]. rewrite Hfb. unfold _simple_extraction. split.
  - intros Hshort.
    destruct (simple_details_short user_input Hshort) as (date & time & duration & E).
    exists date, time, duration. cbv zeta. rewrite E. now split.
  - intros e.
    destruct (simple_details_cases user_input) as [(date & time & duration & E) | [E _]];
      rewrite E; [discriminate | now intros [= <-]].
Qed.

Lemma extract_details_falls_back_witness :
  short_text booking_request
  ∧ extract_details quiet_world booking_request new_conversation
    = _simple_extraction booking_request new_conversation
  ∧ extract_details quiet_world booking_request new_conversation
    = Ok requested_conversation.
Proof.
  pose proof (extract_details_falls_back quiet_world booking_request new_conversation) as H.
  destruct H as (H1 & H2 & _).
  - left. exists RuntimeError. reflexivity.
  - assert (Hshort : short_text booking_request) by (vm_compute; discriminate).
    split; [exact Hshort|]. split; [exact H1|].
    destruct (H2 Hshort) as (date & time & duration & E & ->).
    vm_compute in E. now injection E as <- <- <-.
Defined.

(** A coercion that fails sends the turn to the fallback as well. *)
Lemma extract_details_bad_duration
    (w : World) (user_input answer : string) (d : pydict) (e : exn)
    (cs : ConversationState) :
  chat_invoke w user_input = Ok answer →
  json_loads w (strip_fences (strip answer)) = Ok (JObject d) →
  py_int (default (JInt 30) (dict_get "duration"
            (dict_set "time" (default (JString "12:00")
               (dict_get "time" (dict_set "date" (default (JString "today")
                  (dict_get "date" d)) d)))
               (dict_set "date" (default (JString "today") (dict_get "date" d)) d))))
  = Raise e →
  extract_details w user_input cs = _simple_extraction user_input cs.
Proof.
  intros Ha Hj Hd. unfold extract_details, llm_details.
  rewrite Ha. cbn. rewrite Hj. unfold fill_defaults. rewrite Hd. reflexivity.
Qed.

(** ** C9: the reply of [respond] *)

(** C9 as stated fails: the generic prompt is not the most recent message
    of [prompted_conversation], only an earlier one, and yet
    [generate_response] does not append it. *)
Lemma generate_response_skips_earlier_duplicate :
  ¬ (∀ (cs : ConversationState) (response : string),
       response_text cs = Ok response →
       (generate_response cs = Ok (append_message (AIMessage response) cs)
        ↔ content <$> last (messages cs) ≠ Some response)).
Proof.
  intros H.
  destruct (H prompted_conversation "How would you like to proceed?" eq_refl)
    as [_ H'].
  assert (Hne : content <$> last (messages prompted_conversation)
                ≠ Some "How would you like to proceed?") by (vm_compute; discriminate).
  specialize (H' Hne). vm_compute in H'. discriminate H'.
Qed.

Lemma existsb_content (response : string) (ms : list Message) :
  existsb (fun msg => String.eqb (content msg) response) ms = true
  ↔ ∃ m, m ∈ ms ∧ content m = response.
Proof.
  rewrite existsb_exists. split.
  - intros (m & Hin & Heq). exists m. split; [now apply list_elem_of_In|].
    now apply String.eqb_eq.
  - intros (m & Hin & Heq). exists m. split; [now apply list_elem_of_In|].
    now apply String.eqb_eq.
Qed.

(** C9, amended.  [generate_response] renders the booking confirmation when
    a booking is held, the no-slots text when no slots are available, and the
    generic prompt otherwise, and it appends the rendered text exactly when
    no message of the sequence, the most recent or an earlier one, has that
    text; otherwise the conversation is left as it is. *)
Theorem generate_response_appends_unless_present
    (cs : ConversationState) (response : string) :
  response_text cs = Ok response →
  (booking cs = None → available_slots cs = [] →
   response = "No available slots found for your requested time.")
  ∧ (booking cs = None → available_slots cs ≠ [] →
     response = "How would you like to proceed?")
  ∧ (∀ b, booking cs = Some b →
       ∃ start end_ link,
         b !! "start" = Some start ∧ b !! "end" = Some end_
         ∧ b !! "htmlLink" = Some link
         ∧ response
           = MARK_CHECK +:+ " Appointment booked!" +:+ NL
             +:+ MARK_CALENDAR +:+ " When: " +:+ _format_datetime start +:+ " - "
             +:+ _format_datetime end_ +:+ NL
             +:+ MARK_LINK +:+ " Link: " +:+ link)
  ∧ ((∀ m, m ∈ messages cs → content m ≠ response) →
     generate_response cs = Ok (append_message (AIMessage response) cs))
  ∧ ((∃ m, m ∈ messages cs ∧ content m = response) →
     generate_response cs = Ok cs).
Proof.
  intros Hr. repeat split.
  - intros Hb Ha. unfold response_text in Hr. rewrite Hb, Ha in Hr. congruence.
  - intros Hb Ha. unfold response_text in Hr. rewrite Hb in Hr.
    destruct (available_slots cs); congruence.
  - intros b Hb. unfold response_text in Hr. rewrite Hb in Hr.
    destruct (b !! "start") as [start|]; [|discriminate Hr].
    destruct (b !! "end") as [end_|]; [|discriminate Hr].
    destruct (b !! "htmlLink") as [link|]; [|discriminate Hr].
    cbv beta iota delta [mbind Exc_bind Py.bind of_option] in Hr.
    injection Hr as <-. exists start, end_, link. repeat split.
  - intros Hnone. unfold generate_response. rewrite Hr. cbn.
    destruct (existsb _ (messages cs)) eqn:E; [|reflexivity].
    apply existsb_content in E as (m & Hin & Heq). now destruct (Hnone m Hin).
  - intros Hsome. unfold generate_response. rewrite Hr. cbn.
    apply existsb_content in Hsome. now rewrite Hsome.
Qed.

Lemma generate_response_appends_unless_present_witness :
  generate_response prompted_conversation = Ok prompted_conversation.
Proof.
  pose proof (generate_response_appends_unless_present prompted_conversation
                "How would you like to proceed?") as H.
  destruct H as (_ & _ & _ & _ & H); [reflexivity|].
  apply H. exists (AIMessage "How would you like to proceed?").
  split; [left | reflexivity].
Defined.

(** ** C1: free slots and busy intervals *)

(** What a comparison that returns tells about the instants. *)
Lemma le_instant (a b : Datetime.datetime) (r : bool) :
  Datetime.le a b = Ok r → r = (Datetime.instant a <=? Datetime.instant b).
Proof.
  unfold Datetime.le, Datetime.instant.
  destruct (Datetime.dt_tz a), (Datetime.dt_tz b); cbn; congruence.
Qed.

(** A slot the inner loop lets through overlaps no busy interval. *)
Lemma is_available_no_overlap (slot_start slot_end : Datetime.datetime)
    (busy_slots : list Busy) :
  is_available slot_start slot_end busy_slots = Ok true →
  ∀ b, b ∈ busy_slots →
    ∃ b_start b_end,
      busy_instant (busy_start b) = Some b_start
      ∧ busy_instant (busy_end b) = Some b_end
      ∧ ¬ (Datetime.instant slot_start < b_end ∧ Datetime.instant slot_end > b_start).
Proof.
  induction busy_slots as [|busy rest IH]; intros H b Hb.
  - inversion Hb.
  - cbn [is_available] in H.
    apply bind_Ok in H as (bs & Hbs & H).
    apply bind_Ok in H as (be & Hbe & H).
    apply bind_Ok in H as (before & Hle & H).
    apply bind_Ok in H as (free & Hfree & H).
    destruct free; [|discriminate H].
    apply elem_of_cons in Hb as [-> | Hb]; [|now apply IH].
    exists (Datetime.instant bs), (Datetime.instant be).
    unfold busy_instant. rewrite Hbs, Hbe. repeat split.
    apply le_instant in Hle.
    destruct before.
    + symmetry in Hle. apply Z.leb_le in Hle. lia.
    + apply le_instant in Hfree.
      symmetry in Hfree. apply Z.leb_le in Hfree. lia.
Qed.

(** Every slot of the outer loop's result went through the inner loop. *)
Lemma available_slots_of_checked (w : World) (busy_slots : list Busy)
    (possible : list (string * string)) (result : list Slot) (s : Slot) :
  available_slots_of w busy_slots possible = Ok result → s ∈ result →
  ∃ s_start s_end,
    Datetime.fromisoformat (slot_start s) ≫= Datetime.astimezone_utc (system_offset w)
    = Ok s_start
    ∧ Datetime.fromisoformat (slot_end s) ≫= Datetime.astimezone_utc (system_offset w)
      = Ok s_end
    ∧ is_available s_start s_end busy_slots = Ok true.
Proof.
  revert result. induction possible as [|[a b] rest IH]; intros result H Hin.
  - injection H as <-. inversion Hin.
  - cbn [available_slots_of] in H.
    apply bind_Ok in H as (ss & Hss & H).
    apply bind_Ok in H as (se & Hse & H).
    apply bind_Ok in H as (free & Hfree & H).
    apply bind_Ok in H as (this & Hthis & H).
    apply bind_Ok in H as (rest' & Hrest & H).
    injection H as <-.
    apply elem_of_app in Hin as [Hin | Hin]; [|now apply (IH rest')].
    destruct free.
    + unfold available_slot in Hthis.
      apply bind_Ok in Hthis as (dt & _ & Hthis). injection Hthis as <-.
      apply list_elem_of_singleton in Hin as ->. cbn. eauto.
    + injection Hthis as <-. inversion Hin.
Qed.

(** C1.  Whatever the date, the duration and the busy intervals the
    calendar supplies, a slot that [get_available_slots] returns overlaps
    none of them: the instants [s_start], [s_end] of the slot and [b_start],
    [b_end] of a busy interval never satisfy [s_start < b_end] and
    [s_end > b_start].  With one meeting from 10:00 to 10:30, a duration of
    30 minutes and the morning otherwise free, the first slot returned starts
    at 09:00. *)
Theorem get_available_slots_no_overlap
    (w : World) (user_id : pyid) (date : string) (duration_minutes : Z) (s : Slot) :
  s ∈ get_available_slots w user_id date duration_minutes →
  (∃ start_datetime end_datetime busy_slots s_start s_end,
     working_day date = Ok (start_datetime, end_datetime)
     ∧ query_busy w start_datetime end_datetime = Ok busy_slots
     ∧ slot_instant w (slot_start s) = Some s_start
     ∧ slot_instant w (slot_end s) = Some s_end
     ∧ ∀ b, b ∈ busy_slots →
         ∃ b_start b_end,
           busy_instant (busy_start b) = Some b_start
           ∧ busy_instant (busy_end b) = Some b_end
           ∧ ¬ (s_start < b_end ∧ s_end > b_start))
  ∧ slot_start <$> head (get_available_slots quiet_world (Some "u") "2024-01-03" 30)
    = Some "2024-01-03T09:00:00+05:30".
Proof.
  intros Hin. split; [|vm_compute; reflexivity].
  unfold get_available_slots in Hin.
  destruct (_get_credentials w user_id); cbn [negb] in Hin; [|inversion Hin].
  destruct (get_available_slots_body w date duration_minutes) as [result|e] eqn:Hbody;
    [|inversion Hin].
  unfold get_available_slots_body in Hbody.
  apply bind_Ok in Hbody as ([start_datetime end_datetime] & Hday & Hbody).
  apply bind_Ok in Hbody as (busy_slots & Hbusy & Hbody).
  apply bind_Ok in Hbody as (slot_duration & _ & Hbody).
  apply bind_Ok in Hbody as (possible & _ & Hbody).
  destruct (available_slots_of_checked _ _ _ _ _ Hbody Hin)
    as (ss & se & Hss & Hse & Hfree).
  exists start_datetime, end_datetime, busy_slots,
    (Datetime.instant ss), (Datetime.instant se).
  unfold slot_instant. rewrite Hss, Hse. repeat split; [assumption..|].
  now apply is_available_no_overlap.
Qed.

Lemma get_available_slots_no_overlap_witness :
  ∃ s s_start s_end b_start b_end,
    head (get_available_slots quiet_world (Some "u") "2024-01-03" 30) = Some s
    ∧ slot_instant quiet_world (slot_start s) = Some s_start
    ∧ slot_instant quiet_world (slot_end s) = Some s_end
    ∧ busy_instant "2024-01-03T10:00:00+05:30" = Some b_start
    ∧ busy_instant "2024-01-03T10:30:00+05:30" = Some b_end
    ∧ ¬ (s_start < b_end ∧ s_end > b_start).
Proof.
  eexists.
  edestruct (get_available_slots_no_overlap quiet_world (Some "u") "2024-01-03" 30)
    as [(sd & ed & busy & ss & se & Hday & Hbusy & Hss & Hse & Hno) _].
  { vm_compute. left. }
  unfold query_busy in Hbusy.
  apply bind_Ok in Hbusy as (tmin & _ & Hbusy).
  apply bind_Ok in Hbusy as (tmax & _ & Hbusy).
  cbn in Hbusy. injection Hbusy as <-.
  destruct (Hno _ (list_elem_of_here _ _)) as (bs & be & Hbs & Hbe & H).
  exists ss, se, bs, be. split; [vm_compute; reflexivity|].
  repeat split; assumption.
Defined.

(** *** The loop over candidate slots has fuel enough *)

Lemma add_days_Ok (ord n d : Z) : Datetime.add_days ord n = Ok d → d = ord + n.
Proof.
  unfold Datetime.add_days.
  destruct ((1 <=? ord + n) && (ord + n <=? Datetime.MAXORDINAL)); congruence.
Qed.

Lemma add_days_in_range (ord n : Z) :
  1 <= ord + n <= Datetime.MAXORDINAL → Datetime.add_days ord n = Ok (ord + n).
Proof.
  intros [H1 H2]. unfold Datetime.add_days.
  apply Z.leb_le in H1, H2. now rewrite H1, H2.
Qed.

Lemma add_days_raises (ord n : Z) (e : exn) :
  Datetime.add_days ord n = Raise e → e = OverflowError.
Proof.
  unfold Datetime.add_days.
  destruct ((1 <=? ord + n) && (ord + n <=? Datetime.MAXORDINAL)); congruence.
Qed.

(** Adding a duration moves the instant by that duration. *)
Lemma add_us_instant (dt dt' : Datetime.datetime) (us : Z) :
  Datetime.add_us dt us = Ok dt' →
  Datetime.instant dt' = Datetime.instant dt + us.
Proof.
  unfold Datetime.add_us. intros H.
  apply bind_Ok in H as (d & Hd & H). injection H as <-.
  apply add_days_Ok in Hd. subst d.
  unfold Datetime.instant, Datetime.utc_us; cbn.
  pose proof (Z.div_mod (Datetime.dt_us dt + us) Datetime.US_PER_DAY) as Hdm.
  assert (Hday : Datetime.US_PER_DAY ≠ 0) by (vm_compute; discriminate).
  specialize (Hdm Hday). lia.
Qed.

Lemma add_us_raises (dt : Datetime.datetime) (us : Z) (e : exn) :
  Datetime.add_us dt us = Raise e → e = OverflowError.
Proof.
  unfold Datetime.add_us.
  destruct (Datetime.add_days _ _) as [d|e'] eqn:Hd; cbn; [discriminate|].
  intros [= <-]. eapply add_days_raises, Hd.
Qed.

Lemma le_raises (a b : Datetime.datetime) (e : exn) :
  Datetime.le a b = Raise e → e = TypeError.
Proof.
  unfold Datetime.le.
  destruct (Datetime.dt_tz a), (Datetime.dt_tz b); congruence.
Qed.

(** With at least [possible_slots_bound] iterations allowed the loop ends by
    its own test, or by an exception of the library: it never runs out of
    fuel. *)
Lemma possible_slots_fuel (n : nat)
    (current_time end_datetime : Datetime.datetime) (slot_duration : Z) :
  (possible_slots_bound current_time end_datetime slot_duration ≤ n)%nat →
  possible_slots n current_time end_datetime slot_duration ≠ Raise RuntimeError.
Proof.
  revert current_time.
  induction n as [|n IH]; intros current_time Hn.
  - unfold possible_slots_bound in Hn. lia.
  - cbn [possible_slots].
    destruct (Datetime.add_us current_time slot_duration) as [slot_end|e] eqn:Hend;
      exc_simpl; [|apply add_us_raises in Hend; congruence].
    destruct (Datetime.le slot_end end_datetime) as [continue|e] eqn:Hle;
      exc_simpl; [|apply le_raises in Hle; congruence].
    destruct continue; [|discriminate].
    destruct (Datetime.add_us current_time (15 * Datetime.US_PER_MINUTE))
      as [next|e] eqn:Hnext;
      exc_simpl; [|apply add_us_raises in Hnext; congruence].
    assert (Hrest : possible_slots n next end_datetime slot_duration ≠ Raise RuntimeError).
    { apply IH.
      apply le_instant in Hle. symmetry in Hle. apply Z.leb_le in Hle.
      apply add_us_instant in Hend, Hnext.
      unfold possible_slots_bound in *.
      set (step := 15 * Datetime.US_PER_MINUTE) in *.
      assert (Hstep : 0 < step) by (vm_compute; reflexivity).
      set (D := Datetime.instant end_datetime - Datetime.instant current_time
                - slot_duration) in *.
      replace (Datetime.instant end_datetime - Datetime.instant next - slot_duration)
        with (D + (-1) * step) by (unfold D; lia).
      rewrite Z.div_add by lia.
      assert (0 <= D / step) by (apply Z.div_pos; unfold D; lia).
      lia. }
    destruct (possible_slots n next end_datetime slot_duration); exc_simpl; congruence.
Qed.

(** So the loop of [get_available_slots] is never cut short. *)
Corollary get_available_slots_fuel
    (start_datetime end_datetime : Datetime.datetime) (slot_duration : Z) :
  possible_slots (possible_slots_bound start_datetime end_datetime slot_duration)
    start_datetime end_datetime slot_duration
  ≠ Raise RuntimeError.
Proof. now apply possible_slots_fuel. Qed.

(** ** C2: weekday phrases *)

Lemma days_ahead_range (prefix : string) (idx wd : Z) :
  0 <= days_ahead prefix idx wd <= 7.
Proof.
  unfold days_ahead.
  pose proof (Z.mod_pos_bound
                (idx - wd + (if negb (String.eqb prefix "this") then 7 else 0)) 7).
  destruct (_ && _); lia.
Qed.

(** The weekday branch of [_parse_date], for a phrase that is in none of the
    tables before it. *)
Lemma parse_date_weekday (w : World) (phrase prefix : string) (idx : Z) :
  1 <= today w → today w + 7 <= Datetime.MAXORDINAL →
  truthy (JString phrase) = true →
  relative_keywords (strip (lower phrase)) = None →
  find_weekday_phrase ["next"; "this"; "coming"] (strip (lower phrase))
  = Some (prefix, idx) →
  _parse_date w (JString phrase)
  = Ok (Datetime.format_date
          (today w + days_ahead prefix idx (Datetime.weekday (today w)))).
Proof.
  intros Hlo Hhi Ht Hrel Hfind.
  unfold _parse_date. rewrite Ht. cbn [negb].
  unfold parse_date_str. rewrite Hrel, Hfind.
  pose proof (days_ahead_range prefix idx (Datetime.weekday (today w))).
  rewrite add_days_in_range by lia. reflexivity.
Qed.

(** C2.  On any reference day, a weekday phrase with the prefix next, this
    or coming yields the date [offset] days after today, where [offset] is
    [(weekday_index - today_weekday + 7 * (prefix != this)) mod 7], made 7
    when it is 0 and the prefix is not this.  So next monday said on a
    Monday is that Monday plus 7 days, and this monday said on a Monday is
    the day itself. *)
Theorem parse_date_weekday_offset
    (w : World) (prefix day : string) (idx : Z) :
  1 <= today w → today w + 7 <= Datetime.MAXORDINAL →
  prefix ∈ ["next"; "this"; "coming"] → (day, idx) ∈ weekdays →
  let not_this := if String.eqb prefix "this" then 0 else 1 in
  let offset := (idx - Datetime.weekday (today w) + 7 * not_this) mod 7 in
  let offset := if (offset =? 0) && (not_this =? 1) then 7 else offset in
  _parse_date w (JString (prefix +:+ " " +:+ day))
  = Ok (Datetime.format_date (today w + offset))
  ∧ (Datetime.weekday (today w) = 0 →
     _parse_date w (JString "next monday") = Ok (Datetime.format_date (today w + 7))
     ∧ _parse_date w (JString "this monday") = Ok (Datetime.format_date (today w))).
Proof.
  intros Hlo Hhi Hp Hd. cbv zeta. split.
  - assert (Hgoal : _parse_date w (JString (prefix +:+ " " +:+ day))
            = Ok (Datetime.format_date
                    (today w + days_ahead prefix idx (Datetime.weekday (today w))))).
    { repeat (apply elem_of_cons in Hp as [-> | Hp]);
        [| | |inversion Hp];
        unfold weekdays in Hd;
        repeat (apply elem_of_cons in Hd as [[= -> ->] | Hd]);
        try (inversion Hd; fail);
        apply parse_date_weekday; try assumption; vm_compute; reflexivity. }
    rewrite Hgoal. unfold days_ahead.
    repeat (apply elem_of_cons in Hp as [-> | Hp]); [| | |inversion Hp];
      cbn [String.eqb Ascii.eqb Bool.eqb negb]; rewrite ?Z.mul_1_r, ?Z.mul_0_r;
      reflexivity.
  - intros Hwd.
    rewrite (parse_date_weekday w "next monday" "next" 0) by
      (try assumption; vm_compute; reflexivity).
    rewrite (parse_date_weekday w "this monday" "this" 0) by
      (try assumption; vm_compute; reflexivity).
    unfold days_ahead. rewrite Hwd. cbn. rewrite Z.add_0_r. split; reflexivity.
Qed.

Lemma parse_date_weekday_offset_witness :
  _parse_date quiet_world (JString "next friday") = Ok "2024-01-05"
  ∧ _parse_date quiet_world (JString "this tuesday") = Ok "2024-01-02"
  ∧ _parse_date quiet_world (JString "coming tuesday") = Ok "2024-01-09".
Proof.
  assert (Hlo : 1 <= today quiet_world) by (vm_compute; discriminate).
  assert (Hhi : today quiet_world + 7 <= Datetime.MAXORDINAL) by (vm_compute; discriminate).
  split; [|split].
  - destruct (parse_date_weekday_offset quiet_world "next" "friday" 4 Hlo Hhi)
      as [H _]; [set_solver | unfold weekdays; set_solver |].
    etransitivity; [exact H | vm_compute; reflexivity].
  - destruct (parse_date_weekday_offset quiet_world "this" "tuesday" 1 Hlo Hhi)
      as [H _]; [set_solver | unfold weekdays; set_solver |].
    etransitivity; [exact H | vm_compute; reflexivity].
  - destruct (parse_date_weekday_offset quiet_world "coming" "tuesday" 1 Hlo Hhi)
      as [H _]; [set_solver | unfold weekdays; set_solver |].
    etransitivity; [exact H | vm_compute; reflexivity].
Defined.

(** ** Text of numbers and of datetimes *)

Lemma append_cons (x : ascii) (a b : string) : String x a +:+ b = String x (a +:+ b).
Proof. reflexivity. Qed.

Lemma append_assoc (a b c : string) : (a +:+ b) +:+ c = a +:+ (b +:+ c).
Proof.
  induction a as [|x a IH]; [reflexivity|].
  rewrite !append_cons. f_equal. exact IH.
Qed.

Lemma append_nil_r (a : string) : a +:+ "" = a.
Proof.
  induction a as [|x a IH]; [reflexivity|].
  rewrite append_cons. f_equal. exact IH.
Qed.

Lemma all_chars_app (P : ascii → bool) (a b : string) :
  all_chars P (a +:+ b) = all_chars P a && all_chars P b.
Proof.
  induction a as [|x a IH]; [reflexivity|].
  rewrite append_cons. cbn [all_chars]. rewrite IH. now rewrite andb_assoc.
Qed.

Lemma all_chars_impl (P Q : ascii → bool) (s : string) :
  (∀ c, P c = true → Q c = true) → all_chars P s = true → all_chars Q s = true.
Proof.
  intros HPQ. induction s as [|x s IH]; cbn; [reflexivity|].
  intros H. apply andb_true_iff in H as [Hx Hs].
  rewrite (HPQ x Hx). now apply IH.
Qed.

(** The decimal text of a number is made of digits, and is not empty. *)
Lemma dec_digits (z : Z) : all_chars is_digit (dec z) = true.
Proof.
  unfold dec. generalize (N.to_uint (Z.to_N z)). intros d.
  assert (H : all_chars is_digit (NilEmpty.string_of_uint d) = true)
    by (induction d; cbn; auto).
  destruct d; [reflexivity | exact H..].
Qed.

Lemma dec_nonempty (z : Z) : dec z ≠ "".
Proof.
  unfold dec. destruct (N.to_uint (Z.to_N z)); discriminate.
Qed.

(** Reading the digits back gives the number. *)
Lemma digits_val_of_uint_acc (d : Decimal.uint) (acc : positive) :
  digits_val (Z.pos acc) (NilEmpty.string_of_uint d) = Z.pos (Pos.of_uint_acc d acc).
Proof.
  revert acc. induction d; intros acc; cbn [NilEmpty.string_of_uint digits_val Pos.of_uint_acc];
    [reflexivity
    | rewrite <- IHd; f_equal;
      match goal with |- context [digit_val ?c] =>
        let v := eval vm_compute in (digit_val c) in change (digit_val c) with v
      end; lia ..].
Qed.

Lemma digits_val_of_uint (d : Decimal.uint) :
  digits_val 0 (NilEmpty.string_of_uint d) = Z.of_N (Pos.of_uint d).
Proof.
  induction d; cbn [NilEmpty.string_of_uint digits_val Pos.of_uint];
    [reflexivity | exact IHd | apply (digits_val_of_uint_acc d _) ..].
Qed.

Lemma digits_val_dec (z : Z) : 0 <= z → digits_val 0 (dec z) = z.
Proof.
  intros Hz. unfold dec.
  pose proof (DecimalN.Unsigned.of_to (Z.to_N z)) as Hrt.
  unfold N.of_uint in Hrt.
  destruct (N.to_uint (Z.to_N z)) eqn:E;
    cbn [NilZero.string_of_uint];
    try (rewrite digits_val_of_uint, Hrt; lia).
  change (digits_val 0 "0") with 0. cbn in Hrt. lia.
Qed.

(** On a run of digits, [int] reads what [\d+] reads. *)
Lemma int_digits_digits (s : string) (acc : Z) (prev : bool) :
  all_chars is_digit s = true → s ≠ "" →
  int_digits acc prev s = Some (digits_val acc s).
Proof.
  revert acc prev. induction s as [|x s IH]; intros acc prev Hd Hne; [done|].
  cbn in Hd. apply andb_true_iff in Hd as [Hx Hs].
  cbn [int_digits digits_val]. rewrite Hx.
  destruct s as [|y s]; [reflexivity|]. now apply IH.
Qed.

Lemma rev_str_rev_str (s a b : string) :
  rev_str a (rev_str b s) = rev_str (s +:+ a) b.
Proof.
  revert a b. induction s as [|x s IH]; intros a b; [reflexivity|].
  cbn [rev_str]. rewrite IH. reflexivity.
Qed.

Lemma all_chars_rev_str (P : ascii → bool) (s acc : string) :
  all_chars P (rev_str acc s) = all_chars P s && all_chars P acc.
Proof.
  revert acc. induction s as [|x s IH]; intros acc; [reflexivity|].
  cbn [rev_str all_chars]. rewrite IH. cbn [all_chars].
  destruct (P x), (all_chars P s), (all_chars P acc); reflexivity.
Qed.

Lemma lstrip_no_space (s : string) :
  all_chars (fun c => negb (is_space c)) s = true → lstrip s = s.
Proof.
  destruct s as [|x s]; [reflexivity|]. cbn [all_chars lstrip].
  intros H. apply andb_true_iff in H as [Hx _].
  apply negb_true_iff in Hx. now rewrite Hx.
Qed.

(** [strip] leaves a text without white space as it is. *)
Lemma strip_no_space (s : string) :
  all_chars (fun c => negb (is_space c)) s = true → strip s = s.
Proof.
  intros H. unfold strip, rstrip. rewrite (lstrip_no_space s H).
  rewrite lstrip_no_space by (rewrite all_chars_rev_str, H; reflexivity).
  rewrite rev_str_rev_str. apply append_nil_r.
Qed.

Lemma digit_no_space (c : ascii) : is_digit c = true → negb (is_space c) = true.
Proof.
  destruct c as [[] [] [] [] [] [] [] []]; vm_compute; congruence.
Qed.

(** [int] of a run of digits. *)
Lemma int_str_digits (s : string) :
  all_chars is_digit s = true → s ≠ "" → int_str s = Ok (digits_val 0 s).
Proof.
  intros Hd Hne. unfold int_str.
  rewrite strip_no_space by (eapply all_chars_impl, Hd; apply digit_no_space).
  pose proof (int_digits_digits s 0 false Hd Hne) as Hi.
  destruct s as [|c rest]; [done|].
  assert (Hc : is_digit c = true)
    by (cbn [all_chars] in Hd; apply andb_true_iff in Hd; tauto).
  destruct c as [[] [] [] [] [] [] [] []];
    try (vm_compute in Hc; discriminate Hc);
    cbv beta iota; rewrite Hi; reflexivity.
Qed.

(** [int] reads back what [{:02d}] writes. *)
Lemma int_str_fmt02d (z : Z) : int_str (fmt02d z) = Ok z.
Proof.
  unfold fmt02d.
  destruct (z <? 0) eqn:Hneg; [|destruct (z <? 10) eqn:Hsmall].
  - apply Z.ltb_lt in Hneg. unfold int_str.
    assert (Hd := dec_digits (- z)).
    rewrite strip_no_space.
    + change ("-" +:+ dec (- z)) with (String "-" (dec (- z))). cbv beta iota.
      rewrite (int_digits_digits _ 0 false Hd (dec_nonempty _)).
      cbn. rewrite digits_val_dec by lia. f_equal. lia.
    + change ("-" +:+ dec (- z)) with (String "-" (dec (- z))). cbn [all_chars].
      rewrite (all_chars_impl _ _ _ digit_no_space Hd). reflexivity.
  - apply Z.ltb_ge in Hneg.
    change ("0" +:+ dec z) with (String "0" (dec z)).
    rewrite int_str_digits.
    + cbn [digits_val]. change (10 * 0 + digit_val "0") with 0.
      now rewrite digits_val_dec.
    + cbn [all_chars]. now rewrite dec_digits.
    + discriminate.
  - apply Z.ltb_ge in Hneg.
    rewrite int_str_digits; [|apply dec_digits | apply dec_nonempty].
    now rewrite digits_val_dec.
Qed.

(** *** Splitting at a character *)

Lemma split_go_no_sep (c : ascii) (cur s : string) :
  all_chars (is_not c) s = true → split_go (String c "") 0 cur s = [cur +:+ s].
Proof.
  revert cur. induction s as [|x s IH]; intros cur H.
  - cbn. now rewrite append_nil_r.
  - cbn [all_chars] in H. apply andb_true_iff in H as [Hx Hs].
    unfold is_not in Hx. apply negb_true_iff in Hx.
    cbn [split_go startswith]. rewrite Hx, (IH _ Hs), append_assoc. reflexivity.
Qed.

Lemma split_go_first (c : ascii) (cur a b : string) :
  all_chars (is_not c) a = true →
  split_go (String c "") 0 cur (a +:+ String c b)
  = (cur +:+ a) :: split_go (String c "") 0 "" b.
Proof.
  revert cur. induction a as [|x a IH]; intros cur H.
  - change ("" +:+ String c b) with (String c b).
    cbn [split_go startswith]. rewrite Ascii.eqb_refl.
    destruct b; cbn; now rewrite append_nil_r.
  - cbn [all_chars] in H. apply andb_true_iff in H as [Hx Hs].
    unfold is_not in Hx. apply negb_true_iff in Hx.
    rewrite append_cons. cbn [split_go startswith]. rewrite Hx, (IH _ Hs), append_assoc.
    reflexivity.
Qed.

(** *** The characters of formatted numbers *)

Lemma fmt02d_chars (z : Z) : all_chars digit_or_minus (fmt02d z) = true.
Proof.
  assert (Hd : ∀ n, all_chars digit_or_minus (dec n) = true).
  { intros n. eapply all_chars_impl, dec_digits.
    intros c Hc. unfold digit_or_minus. now rewrite Hc. }
  unfold fmt02d. destruct (z <? 0); [|destruct (z <? 10)];
    rewrite ?all_chars_app, ?Hd; reflexivity.
Qed.

Lemma fmt04d_chars (z : Z) : all_chars digit_or_minus (fmt04d z) = true.
Proof.
  assert (Hd : ∀ n, all_chars digit_or_minus (dec n) = true).
  { intros n. eapply all_chars_impl, dec_digits.
    intros c Hc. unfold digit_or_minus. now rewrite Hc. }
  unfold fmt04d. destruct (z <? 10); [|destruct (z <? 100); [|destruct (z <? 1000)]];
    rewrite ?all_chars_app, ?Hd; reflexivity.
Qed.

Lemma digit_or_minus_time_char (c : ascii) : digit_or_minus c = true → time_char c = true.
Proof.
  unfold digit_or_minus, time_char. intros H.
  apply orb_true_iff in H as [-> | ->]; [reflexivity|].
  now rewrite orb_true_r.
Qed.

Lemma fmt06d_chars (z : Z) : all_chars time_char (Datetime.fmt06d z) = true.
Proof.
  unfold Datetime.fmt06d. rewrite all_chars_app.
  rewrite (all_chars_impl is_digit time_char (dec z));
    [|intros c Hc; unfold time_char; now rewrite Hc|apply dec_digits].
  rewrite andb_true_r.
  destruct (6 - String.length (dec z))%nat as [|[|[|[|[|[|[|k]]]]]]]; reflexivity.
Qed.

Lemma format_offset_chars (off : Z) : all_chars time_char (Datetime.format_offset off) = true.
Proof.
  assert (H2 : ∀ z, all_chars time_char (fmt02d z) = true).
  { intros z. eapply all_chars_impl, fmt02d_chars. apply digit_or_minus_time_char. }
  unfold Datetime.format_offset.
  repeat match goal with |- context [if ?b then _ else _] => destruct b end;
    rewrite ?all_chars_app, ?H2, ?fmt06d_chars; reflexivity.
Qed.

Lemma format_date_chars (ord : Z) : all_chars digit_or_minus (Datetime.format_date ord) = true.
Proof.
  unfold Datetime.format_date. destruct (Datetime.ord2ymd ord) as [[y m] d].
  rewrite !all_chars_app, fmt04d_chars, !fmt02d_chars. reflexivity.
Qed.

(** [_is_time_in_range] reads the hour of a slot that [isoformat] wrote. *)
Lemma start_hour_of_isoformat (dt : Datetime.datetime) :
  start_hour_of (Datetime.isoformat dt) = Ok (Datetime.hour dt).
Proof.
  unfold start_hour_of, Datetime.isoformat, split.
  set (rest := fmt02d (Datetime.minute dt) +:+ _).
  change ("T" +:+ ?x) with (String "T" x).
  rewrite split_go_first.
  2:{ eapply all_chars_impl, format_date_chars.
      intros c Hc. unfold digit_or_minus in Hc. unfold is_not.
      destruct c as [[] [] [] [] [] [] [] []]; vm_compute in Hc |- *; congruence. }
  assert (Htime : all_chars time_char (fmt02d (Datetime.hour dt) +:+ ":" +:+ rest) = true).
  { subst rest.
    assert (H2 : ∀ z, all_chars time_char (fmt02d z) = true).
    { intros z. eapply all_chars_impl, fmt02d_chars. apply digit_or_minus_time_char. }
    rewrite !all_chars_app, !H2.
    destruct (Datetime.microsecond dt =? 0);
      destruct (Datetime.dt_tz dt);
      rewrite ?all_chars_app, ?fmt06d_chars, ?format_offset_chars; reflexivity. }
  rewrite split_go_no_sep.
  2:{ eapply all_chars_impl, Htime.
      intros c Hc. unfold time_char in Hc. unfold is_not.
      destruct c as [[] [] [] [] [] [] [] []]; vm_compute in Hc |- *; congruence. }
  cbn [lookup list_lookup of_option]. rewrite exc_bind_Ok.
  change (":" +:+ rest) with (String ":" rest).
  change ("" +:+ ?x) with x.
  rewrite split_go_first.
  2:{ eapply all_chars_impl, fmt02d_chars.
      intros c Hc. unfold digit_or_minus in Hc. unfold is_not.
      destruct c as [[] [] [] [] [] [] [] []]; vm_compute in Hc |- *; congruence. }
  cbn [nth]. apply int_str_fmt02d.
Qed.

(** *** The slots of the calendar service have a readable hour *)

Lemma possible_slots_iso (n : nat) (current_time end_datetime : Datetime.datetime)
    (slot_duration : Z) (l : list (string * string)) :
  possible_slots n current_time end_datetime slot_duration = Ok l →
  ∀ a b, (a, b) ∈ l → ∃ dt, a = Datetime.isoformat dt.
Proof.
  revert current_time l. induction n as [|n IH]; intros current_time l H a b Hin;
    [discriminate H|].
  cbn [possible_slots] in H.
  apply bind_Ok in H as (slot_end & _ & H).
  apply bind_Ok in H as (continue & _ & H).
  destruct continue; [|injection H as <-; inversion Hin].
  apply bind_Ok in H as (next & _ & H).
  apply bind_Ok in H as (rest & Hrest & H).
  injection H as <-.
  apply elem_of_cons in Hin as [[= -> ->] | Hin]; [eauto|].
  eapply IH; eassumption.
Qed.

Lemma available_slots_of_from (w : World) (busy_slots : list Busy)
    (possible : list (string * string)) (result : list Slot) (s : Slot) :
  available_slots_of w busy_slots possible = Ok result → s ∈ result →
  (slot_start s, slot_end s) ∈ possible.
Proof.
  revert result. induction possible as [|[a b] rest IH]; intros result H Hin.
  - injection H as <-. inversion Hin.
  - cbn [available_slots_of] in H.
    apply bind_Ok in H as (ss & _ & H).
    apply bind_Ok in H as (se & _ & H).
    apply bind_Ok in H as (free & _ & H).
    apply bind_Ok in H as (this & Hthis & H).
    apply bind_Ok in H as (rest' & Hrest & H).
    injection H as <-.
    apply elem_of_app in Hin as [Hin | Hin]; [|right; now apply (IH rest')].
    destruct free; [|injection Hthis as <-; inversion Hin].
    unfold available_slot in Hthis.
    apply bind_Ok in Hthis as (dt & _ & Hthis). injection Hthis as <-.
    apply list_elem_of_singleton in Hin as ->. left.
Qed.

(** For every slot [get_available_slots] returns, [_is_time_in_range] can
    read the hour of its start. *)
Lemma get_available_slots_hours
    (w : World) (user_id : pyid) (date : string) (duration_minutes : Z) (s : Slot) :
  s ∈ get_available_slots w user_id date duration_minutes →
  ∃ h, start_hour_of (slot_start s) = Ok h.
Proof.
  intros Hin. unfold get_available_slots in Hin.
  destruct (negb (_get_credentials w user_id)); [inversion Hin|].
  destruct (get_available_slots_body w date duration_minutes) as [result|e] eqn:Hbody;
    [|inversion Hin].
  unfold get_available_slots_body in Hbody.
  apply bind_Ok in Hbody as ([start_datetime end_datetime] & _ & Hbody).
  apply bind_Ok in Hbody as (busy_slots & _ & Hbody).
  apply bind_Ok in Hbody as (slot_duration & _ & Hbody).
  apply bind_Ok in Hbody as (possible & Hposs & Hbody).
  pose proof (available_slots_of_from _ _ _ _ _ Hbody Hin) as Hfrom.
  destruct (possible_slots_iso _ _ _ _ _ Hposs _ _ Hfrom) as [dt ->].
  eexists. apply start_hour_of_isoformat.
Qed.

(** *** The bounds of the requested window have a readable hour *)

Lemma window_hour_fmt (z : Z) (rest : string) :
  window_hour (fmt02d z +:+ ":" +:+ rest) = Ok z.
Proof.
  unfold window_hour, split.
  change (":" +:+ rest) with (String ":" rest).
  rewrite split_go_first.
  - cbn [nth]. apply int_str_fmt02d.
  - eapply all_chars_impl, fmt02d_chars.
    intros c Hc. unfold digit_or_minus in Hc. unfold is_not.
    destruct c as [[] [] [] [] [] [] [] []]; vm_compute in Hc |- *; congruence.
Qed.

Lemma normalize_time_hour (time_str t : string) :
  _normalize_time time_str = Ok t → ∃ h, window_hour t = Ok h.
Proof.
  unfold _normalize_time.
  destruct (negb (contains ":" _)).
  - intros H. apply bind_Ok in H as (hour & _ & H). injection H as <-.
    eexists. apply (window_hour_fmt _ "00").
  - destruct (split ":" _) as [|hs [|ms [|x l]]]; try discriminate.
    intros H. apply bind_Ok in H as (hour & _ & H). injection H as <-.
    eexists. apply window_hour_fmt.
Qed.

Lemma add_minutes_hour (time_str t : string) (minutes : Z) :
  _add_minutes time_str minutes = Ok t → ∃ h, window_hour t = Ok h.
Proof.
  unfold _add_minutes.
  destruct (split ":" time_str) as [|hs [|ms [|x l]]]; try discriminate.
  intros H. apply bind_Ok in H as (hour & _ & H).
  apply bind_Ok in H as (minute & _ & H). injection H as <-.
  eexists. apply window_hour_fmt.
Qed.

Lemma named_times_hours (time_str a b : string) :
  named_times time_str = Some (a, b) →
  (∃ h, window_hour a = Ok h) ∧ (∃ h, window_hour b = Ok h).
Proof.
  unfold named_times.
  repeat match goal with |- context [if ?c then _ else _] => destruct c end;
    intros [= <- <-]; split; eexists; vm_compute; reflexivity.
Qed.

(** Whatever [_parse_time] returns, the hours of both bounds can be read. *)
Lemma parse_time_hours (time_str : json) (a b : string) :
  _parse_time time_str = Ok (a, b) →
  (∃ h, window_hour a = Ok h) ∧ (∃ h, window_hour b = Ok h).
Proof.
  unfold _parse_time.
  destruct (negb (truthy time_str));
    [intros [= <- <-]; split; eexists; vm_compute; reflexivity|].
  destruct time_str as [| | | |s| |]; try discriminate.
  unfold parse_time_str.
  set (t := sub_separators false 0 (strip (lower s))).
  destruct (named_times t) as [[a' b']|] eqn:Hnamed.
  { intros [= <- <-]. eapply named_times_hours, Hnamed. }
  destruct (contains "from" t && contains "to" t).
  { intros H. apply bind_Ok in H as (x & Hx & H). apply bind_Ok in H as (y & Hy & H).
    injection H as <- <-. split; eapply normalize_time_hour; eassumption. }
  destruct (search_duration 0 t) as [[[i num] unit]|].
  { intros H. apply bind_Ok in H as (n & _ & H).
    apply bind_Ok in H as (x & Hx & H). apply bind_Ok in H as (y & Hy & H).
    injection H as <- <-. split; [eapply normalize_time_hour, Hx|].
    apply bind_Ok in Hy as (z & _ & Hy). eapply add_minutes_hour, Hy. }
  destruct (contains "-" t).
  { destruct (split1 "-" t) as [|p [|q [|r l]]]; try discriminate.
    intros H. apply bind_Ok in H as (x & Hx & H). apply bind_Ok in H as (y & Hy & H).
    injection H as <- <-. split; eapply normalize_time_hour; eassumption. }
  intros H. apply bind_Ok in H as (x & Hx & H). apply bind_Ok in H as (y & Hy & H).
  injection H as <- <-. split; [eapply normalize_time_hour, Hx | eapply add_minutes_hour, Hy].
Qed.

(** ** C7: what [check] stores *)

(** [_is_time_in_range] reads three hours and compares them. *)
Lemma is_time_in_range_hours (slot_time start end_ : string) (h sh eh : Z) :
  start_hour_of slot_time = Ok h → window_hour start = Ok sh →
  window_hour end_ = Ok eh →
  _is_time_in_range slot_time start end_ = Ok ((sh <=? h) && (h <? eh)).
Proof.
  unfold start_hour_of, window_hour, _is_time_in_range. intros Hh Hs He.
  destruct (of_option IndexError (split "T" slot_time !! 1%nat)) as [tp|e];
    [|discriminate Hh].
  exc_simpl. exc_simpl in Hh. rewrite Hh, Hs, He. reflexivity.
Qed.

(** [check] with a filter that reads every hour. *)
Lemma check_availability_filter
    (w : World) (user_id : pyid) (cs : ConversationState)
    (date_str start_time end_time : string) (duration start_hour end_hour : Z)
    (hour_of : Slot → Z) :
  falsy_id user_id = false →
  extracted_details cs ≠ [] →
  dict_item "date" (extracted_details cs) ≫= _parse_date w = Ok date_str →
  dict_item "time" (extracted_details cs) ≫= _parse_time = Ok (start_time, end_time) →
  py_int (default (JInt 30) (dict_get "duration" (extracted_details cs))) = Ok duration →
  window_hour start_time = Ok start_hour →
  window_hour end_time = Ok end_hour →
  (∀ s, s ∈ get_available_slots w user_id date_str duration →
        start_hour_of (slot_start s) = Ok (hour_of s)) →
  check_availability w user_id cs
  = {| messages := messages cs; extracted_details := extracted_details cs;
       state := state cs;
       available_slots :=
         or_else
           (List.filter
              (fun s => (start_hour <=? hour_of s) && (hour_of s <? end_hour))
              (get_available_slots w user_id date_str duration))
           (get_available_slots w user_id date_str duration);
       current_slot_index := 0;
       suggested_slot := suggested_slot cs; booking := booking cs |}.
Proof.
  intros Hid Hdet Hdate Htime Hdur Hsh Heh Hhours.
  unfold check_availability. rewrite Hid.
  unfold check_slots. destruct (extracted_details cs) as [|kv d] eqn:Hd; [done|].
  rewrite Hdate, exc_bind_Ok, Htime, exc_bind_Ok, Hdur, exc_bind_Ok.
  rewrite (filterM_filter _
             (fun s => (start_hour <=? hour_of s) && (hour_of s <? end_hour))).
  - reflexivity.
  - intros s Hs. apply is_time_in_range_hours; auto.
Qed.

(** C7.  When [check] has a user id and details whose date, time and
    duration are understood, the hours of the requested window and of every
    free slot can be read, and the filter keeps the free slots whose start
    hour [h] satisfies [start_hour <= h < end_hour]; what is stored as the
    available slots is that filtered list when it is not empty and the whole
    unfiltered list of free slots when it is, and in both cases the slot
    pointer is set to 0. *)
Theorem check_availability_stores_filtered_or_all
    (w : World) (user_id : pyid) (cs : ConversationState)
    (date_str start_time end_time : string) (duration : Z) :
  falsy_id user_id = false →
  extracted_details cs ≠ [] →
  dict_item "date" (extracted_details cs) ≫= _parse_date w = Ok date_str →
  dict_item "time" (extracted_details cs) ≫= _parse_time = Ok (start_time, end_time) →
  py_int (default (JInt 30) (dict_get "duration" (extracted_details cs))) = Ok duration →
  let all_slots := get_available_slots w user_id date_str duration in
  ∃ start_hour end_hour,
    window_hour start_time = Ok start_hour
    ∧ window_hour end_time = Ok end_hour
    ∧ (∀ s, s ∈ all_slots → start_hour_of (slot_start s) = Ok (slot_hour s))
    ∧ let filtered_slots :=
        List.filter (fun s => (start_hour <=? slot_hour s) && (slot_hour s <? end_hour))
          all_slots in
      let cs' := check_availability w user_id cs in
      (filtered_slots ≠ [] → available_slots cs' = filtered_slots)
      ∧ (filtered_slots = [] → available_slots cs' = all_slots)
      ∧ current_slot_index cs' = 0%nat.
Proof.
  intros Hid Hdet Hdate Htime Hdur all_slots.
  assert (Hwin : (∃ h, window_hour start_time = Ok h) ∧ (∃ h, window_hour end_time = Ok h)).
  { apply bind_Ok in Htime as (v & _ & Htime). eapply parse_time_hours, Htime. }
  destruct Hwin as [[start_hour Hsh] [end_hour Heh]].
  assert (Hhours : ∀ s, s ∈ all_slots → start_hour_of (slot_start s) = Ok (slot_hour s)).
  { intros s Hs. destruct (get_available_slots_hours _ _ _ _ _ Hs) as [h Hh].
    unfold slot_hour. now rewrite Hh. }
  exists start_hour, end_hour.
  split; [exact Hsh|]. split; [exact Heh|]. split; [exact Hhours|].
  cbv zeta.
  rewrite (check_availability_filter w user_id cs date_str start_time end_time
             duration start_hour end_hour slot_hour) by assumption.
  cbn [available_slots current_slot_index]. fold all_slots.
  split; [|split].
  - intros Hne. now destruct (List.filter _ all_slots).
  - now intros ->.
  - reflexivity.
Qed.

(** A conversation whose details ask for tomorrow morning. *)
Lemma check_availability_stores_filtered_or_all_witness :
  slot_start <$>
    available_slots
      (check_availability quiet_world (Some "u")
         (set_extracted_details
            [("date", JString "tomorrow"); ("time", JString "morning")]
            new_conversation))
  = ["2024-01-03T09:00:00+05:30"; "2024-01-03T09:15:00+05:30";
     "2024-01-03T09:30:00+05:30"; "2024-01-03T10:30:00+05:30";
     "2024-01-03T10:45:00+05:30"; "2024-01-03T11:00:00+05:30";
     "2024-01-03T11:15:00+05:30"; "2024-01-03T11:30:00+05:30";
     "2024-01-03T11:45:00+05:30"].
Proof.
  destruct (check_availability_stores_filtered_or_all quiet_world (Some "u")
              (set_extracted_details
                 [("date", JString "tomorrow"); ("time", JString "morning")]
                 new_conversation)
              "2024-01-03" "09:00" "12:00" 30)
    as (start_hour & end_hour & Hsh & Heh & _ & H & _ & _).
  - reflexivity.
  - discriminate.
  - vm_compute; reflexivity.
  - vm_compute; reflexivity.
  - vm_compute; reflexivity.
  - vm_compute in Hsh, Heh. injection Hsh as <-. injection Heh as <-.
    rewrite H by (vm_compute; discriminate). vm_compute. reflexivity.
Defined.

(** ** C3: a booking that fails *)

(** [finalize_booking] stores what [book_appointment] returns, whatever it
    is, and appends nothing. *)
Lemma finalize_booking_stores_result
    (w : World) (user_id : pyid) (cs : ConversationState) (slot : Slot) :
  falsy_id user_id = false → suggested_slot cs = Some slot →
  finalize_booking w user_id cs
  = set_booking
      (Some (book_appointment w user_id (slot_start slot) (slot_end slot)
               (default (JString "Meeting") (dict_get "purpose" (extracted_details cs)))))
      cs.
Proof. intros Hid Hs. unfold finalize_booking. now rewrite Hid, Hs. Qed.

(** When the calendar refuses the event, [book_appointment] returns the
    empty dictionary instead of raising. *)
Lemma book_appointment_failure
    (w : World) (user_id : pyid) (start_time end_time : string) (summary : json) :
  (∀ event, ∃ e, events_insert w event = Raise e) →
  book_appointment w user_id start_time end_time summary = ∅.
Proof.
  intros Hfail. unfold book_appointment.
  destruct (negb (_get_credentials w user_id)); [reflexivity|].
  destruct (Datetime.fromisoformat (replace "Z" "" start_time) ≫= _)
    as [start_dt|]; [|reflexivity].
  rewrite exc_bind_Ok.
  destruct (Datetime.fromisoformat (replace "Z" "" end_time) ≫= _)
    as [end_dt|]; [|reflexivity].
  rewrite exc_bind_Ok.
  destruct (Hfail {| event_summary := summary;
                     event_start := Datetime.isoformat start_dt;
                     event_end := Datetime.isoformat end_dt;
                     event_timeZone := "Asia/Kolkata" |}) as [e ->].
  reflexivity.
Qed.

(** With an empty booking held, rendering the reply raises. *)
Lemma response_text_empty_booking (cs : ConversationState) :
  booking cs = Some ∅ → generate_response cs = Raise KeyError.
Proof. intros H. unfold generate_response, response_text. now rewrite H. Qed.

(** C3, on the code.  A booking request in a world whose calendar refuses to
    create the event: the turn ends with the generic error reply; the
    conversation then holds a booking, the empty dictionary, although nothing
    was created; no apology was appended, the only message being the offer
    of the slot; and the suggested slot is still there. *)
Theorem failed_booking_is_recorded :
  let result := process_message failing_world booking_request (Some "u") ∅ in
  fst result = "Sorry, I encountered an error. Please try again."
  ∧ booking <$> (snd result !! "u") = Some (Some ∅)
  ∧ messages <$> (snd result !! "u") = Some [AIMessage (offer_text nine_o_clock)]
  ∧ suggested_slot <$> (snd result !! "u") = Some (Some nine_o_clock).
Proof. vm_compute. repeat split. Qed.

(** ** C5: the messages of a session *)

(** The branch of [suggest_slots] that offers a slot leaves that offer as
    the only message. *)
Lemma suggest_slots_offer (cs : ConversationState) (slot : Slot) :
  available_slots cs !! current_slot_index cs = Some slot →
  suggest_slots cs
  = {| messages := [AIMessage (offer_text slot)];
       extracted_details := extracted_details cs; state := state cs;
       available_slots := available_slots cs;
       current_slot_index := S (current_slot_index cs);
       suggested_slot := Some slot; booking := booking cs |}.
Proof.
  intros H. unfold suggest_slots. rewrite H.
  destruct (available_slots cs); [discriminate H|].
  now rewrite Nat.add_1_r.
Qed.

(** C5, on the code.  Two turns of one user, one after the other: after the
    first the user's message is no longer in the sequence, and after the
    second neither user message is, nor any message the first turn had left;
    only the two assistant messages of the second turn remain. *)
Theorem offered_slot_drops_messages :
  let store1 := snd (process_message quiet_world booking_request (Some "u") ∅) in
  let store2 := snd (process_message quiet_world second_request (Some "u") store1) in
  ∃ cs1 cs2,
    store1 !! "u" = Some cs1 ∧ store2 !! "u" = Some cs2
    ∧ (HumanMessage booking_request ∉ messages cs1)
    ∧ (HumanMessage booking_request ∉ messages cs2)
    ∧ (HumanMessage second_request ∉ messages cs2)
    ∧ (∀ m, m ∈ messages cs1 → m ∉ messages cs2)
    ∧ is_ai <$> messages cs2 = [true; true].
Proof.
  cbv zeta.
  set (store1 := snd (process_message quiet_world booking_request (Some "u") ∅)).
  set (store2 := snd (process_message quiet_world second_request (Some "u") store1)).
  exists (default new_conversation (store1 !! "u")),
         (default new_conversation (store2 !! "u")).
  split; [vm_compute; reflexivity|]. split; [vm_compute; reflexivity|].
  assert (H1 : ∃ a b, messages (default new_conversation (store1 !! "u"))
                      = [AIMessage a; AIMessage b])
    by (vm_compute; eauto).
  assert (H2 : ∃ a b, messages (default new_conversation (store2 !! "u"))
                      = [AIMessage a; AIMessage b]
                      ∧ (AIMessage a ∉ messages (default new_conversation (store1 !! "u")))
                      ∧ (AIMessage b ∉ messages (default new_conversation (store1 !! "u")))).
  { vm_compute. do 2 eexists. split; [reflexivity|].
    split; intros H;
      repeat (apply elem_of_cons in H as [H|H]; [discriminate H|]); inversion H. }
  destruct H1 as (a1 & b1 & E1), H2 as (a2 & b2 & E2 & Ha & Hb).
  rewrite E2. rewrite E1 in *.
  repeat split.
  - intros H. repeat (apply elem_of_cons in H as [H|H]; [discriminate H|]). inversion H.
  - intros H. repeat (apply elem_of_cons in H as [H|H]; [discriminate H|]). inversion H.
  - intros H. repeat (apply elem_of_cons in H as [H|H]; [discriminate H|]). inversion H.
  - intros m Hm H.
    apply elem_of_cons in H as [-> | H]; [contradiction|].
    apply elem_of_cons in H as [-> | H]; [contradiction|]. inversion H.
Qed.

(** ** C4: the slot pointer and the suggested slot *)

(** C4 as stated fails.  Two booking requests of one user, the second on a
    day that is booked out: along the session the slot pointer falls from 1
    back to 0, and the session ends with a suggested slot, the one of the
    first turn, while no slot is available and the pointer is 0. *)
Lemma slot_pointer_reset_by_check :
  let states :=
    session_states
      [(quiet_world, booking_request); (booked_out_world, booking_request)]
      "u" new_conversation in
  nondecreasing (current_slot_index <$> states) = false
  ∧ ∃ cs, last states = Some cs
          ∧ suggested_slot cs = Some nine_o_clock
          ∧ available_slots cs = []
          ∧ ¬ suggested_is_last_offered cs.
Proof.
  cbv zeta. split; [vm_compute; reflexivity|].
  set (states := session_states _ _ _).
  exists (default new_conversation (last states)).
  assert (Hs : suggested_slot (default new_conversation (last states))
               = Some nine_o_clock) by (vm_compute; reflexivity).
  assert (Hi : current_slot_index (default new_conversation (last states)) = 0%nat)
    by (vm_compute; reflexivity).
  split; [vm_compute; reflexivity|]. split; [exact Hs|].
  split; [vm_compute; reflexivity|].
  intros H. destruct (H _ Hs) as (i & Hidx & _). congruence.
Qed.

Lemma same_slots_extract (w : World) (user_input : string) (cs cs' : ConversationState) :
  extract_details w user_input cs = Ok cs' → same_slots cs cs'.
Proof.
  intros H. apply extract_details_Ok in H as [d ->]. repeat split.
Qed.

Lemma same_slots_route (user_input : string) (cs : ConversationState) :
  same_slots cs (snd (_decide_after_extraction user_input cs)).
Proof.
  unfold _decide_after_extraction.
  repeat match goal with |- context [if ?b then _ else _] => destruct b end;
    repeat split.
Qed.

Lemma same_slots_inquire (w : World) (cs : ConversationState) :
  same_slots cs (generate_inquiry_response w cs).
Proof.
  unfold generate_inquiry_response.
  match goal with |- context [match ?m with Ok _ => _ | Raise _ => _ end] =>
    destruct m end; repeat split.
Qed.

Lemma same_slots_confirm (w : World) (user_id : pyid) (cs : ConversationState) :
  same_slots cs (finalize_booking w user_id cs).
Proof.
  unfold finalize_booking.
  destruct (falsy_id user_id); [repeat split|].
  destruct (suggested_slot cs) eqn:E; repeat split; cbn; congruence.
Qed.

Lemma same_slots_respond (cs cs' : ConversationState) :
  generate_response cs = Ok cs' → same_slots cs cs'.
Proof.
  unfold generate_response. intros H.
  apply bind_Ok in H as (response & _ & H). injection H as <-.
  destruct (existsb _ _); repeat split.
Qed.

(** [suggest_slots] either offers the slot under the pointer, or leaves
    slots, pointer and suggestion alone. *)
Lemma suggest_slots_cases (cs : ConversationState) :
  (∃ slot, available_slots cs !! current_slot_index cs = Some slot
           ∧ available_slots (suggest_slots cs) = available_slots cs
           ∧ current_slot_index (suggest_slots cs) = S (current_slot_index cs)
           ∧ suggested_slot (suggest_slots cs) = Some slot)
  ∨ (available_slots cs !! current_slot_index cs = None
     ∧ same_slots cs (suggest_slots cs)).
Proof.
  destruct (available_slots cs !! current_slot_index cs) as [slot|] eqn:E.
  - left. exists slot. rewrite (suggest_slots_offer cs slot E). repeat split.
  - right. split; [reflexivity|]. unfold suggest_slots. rewrite E.
    destruct (available_slots cs); repeat split.
Qed.

Lemma same_slots_invariant (cs cs' : ConversationState) :
  same_slots cs cs' →
  (current_slot_index cs ≤ current_slot_index cs')%nat
  ∧ (suggested_is_last_offered cs → suggested_is_last_offered cs').
Proof.
  intros (Ha & Hi & Hs). split; [lia|].
  unfold suggested_is_last_offered. now rewrite Ha, Hi, Hs.
Qed.

(** C4, amended.  Across every operation of a turn other than [check] the
    slot pointer does not decrease, and the equation between the suggested
    slot and the slot just before the pointer is kept.  When [suggest] offers
    a slot it moves the pointer up by one and makes that slot the suggested
    one, so that the equation holds afterwards.  [check] sets the pointer to
    0 when it has a user id and its [try] block returns, and stores the
    slots it found; when it fails, for want of a user id or by an exception,
    it leaves the slots, the pointer and the suggested slot as they were. *)
Theorem slot_pointer_outside_check
    (w : World) (user_id : pyid) (user_input : string) (o : Op)
    (cs cs' : ConversationState) :
  run_op w user_id user_input o cs = Ok cs' →
  (o ≠ op_node check →
   (current_slot_index cs ≤ current_slot_index cs')%nat
   ∧ (suggested_is_last_offered cs → suggested_is_last_offered cs'))
  ∧ (o = op_node suggest →
     ∀ slot, available_slots cs !! current_slot_index cs = Some slot →
       current_slot_index cs' = S (current_slot_index cs)
       ∧ suggested_slot cs' = Some slot
       ∧ suggested_is_last_offered cs')
  ∧ (o = op_node check →
     (∀ filtered_slots all_slots,
        falsy_id user_id = false →
        check_slots w user_id (extracted_details cs) = Ok (filtered_slots, all_slots) →
        current_slot_index cs' = 0%nat
        ∧ available_slots cs' = or_else filtered_slots all_slots)
     ∧ (falsy_id user_id = true
        ∨ (∃ e, check_slots w user_id (extracted_details cs) = Raise e) →
        same_slots cs cs')).
Proof.
  intros Hrun. split; [|split].
  - intros Hne. destruct o as [| | |n]; cbn in Hrun.
    + injection Hrun as <-. apply same_slots_invariant. repeat split.
    + eapply same_slots_invariant, same_slots_extract, Hrun.
    + injection Hrun as <-. apply same_slots_invariant, same_slots_route.
    + destruct n; cbn in Hrun.
      * congruence.
      * injection Hrun as <-.
        destruct (suggest_slots_cases cs) as [(slot & E & Ha & Hi & Hs) | [_ H]];
          [|now apply same_slots_invariant].
        split; [lia|]. intros _ slot' Hslot'. exists (current_slot_index cs).
        rewrite Ha, Hi. split; [reflexivity|]. congruence.
      * injection Hrun as <-. apply same_slots_invariant, same_slots_confirm.
      * now apply same_slots_invariant, same_slots_respond.
      * injection Hrun as <-. apply same_slots_invariant, same_slots_inquire.
  - intros -> slot E. cbn in Hrun. injection Hrun as <-.
    rewrite (suggest_slots_offer cs slot E). cbn. repeat split.
    intros slot' [= <-]. exists (current_slot_index cs). now split.
  - intros ->. cbn in Hrun. injection Hrun as <-.
    unfold check_availability. split.
    + intros f a Hid Hcheck. rewrite Hid, Hcheck. now split.
    + intros [Hid | [e Hcheck]].
      * rewrite Hid. repeat split.
      * destruct (falsy_id user_id); [repeat split|].
        rewrite Hcheck. repeat split.
Qed.

Lemma slot_pointer_outside_check_witness :
  current_slot_index (suggest_slots (check_availability quiet_world (Some "u")
     requested_conversation)) = 1%nat
  ∧ suggested_is_last_offered
      (suggest_slots (check_availability quiet_world (Some "u")
         requested_conversation)).
Proof.
  set (cs := check_availability quiet_world (Some "u") requested_conversation).
  destruct (slot_pointer_outside_check quiet_world (Some "u") booking_request
              (op_node suggest) cs (suggest_slots cs) eq_refl) as (_ & H & _).
  destruct (H eq_refl nine_o_clock) as (Hi & _ & Hinv).
  - vm_compute. reflexivity.
  - split; [rewrite Hi; vm_compute; reflexivity | exact Hinv].
Defined.

(** ** The states of a turn are steps of its operations *)

(** Along a path, each state is the result of running a node on the state
    before it. *)
Lemma run_nodes_steps (w : World) (user_id : pyid) (path : list Node)
    (cs : ConversationState) (i : nat) (a b : ConversationState) :
  (cs :: fst (run_nodes w user_id path cs)) !! i = Some a →
  fst (run_nodes w user_id path cs) !! i = Some b →
  ∃ n, run_node w user_id n a = Ok b.
Proof.
  revert cs i. induction path as [|n path IH]; intros cs i Ha Hb.
  - destruct i; discriminate Hb.
  - cbn [run_nodes] in Ha, Hb.
    destruct (run_node w user_id n cs) as [cs'|e] eqn:Hn;
      [|destruct i; discriminate Hb].
    destruct (run_nodes w user_id path cs') as [trace e] eqn:Hrest.
    cbn [fst] in Ha, Hb.
    destruct i as [|i].
    + injection Ha as <-. injection Hb as <-. eauto.
    + apply (IH cs' i); rewrite ?Hrest; assumption.
Qed.

(** Each state of a turn is the result of one operation on the state
    before it. *)
Lemma turn_trace_steps (w : World) (message user_id : string)
    (cs : ConversationState) (i : nat) (a b : ConversationState) :
  (cs :: fst (turn_trace w message user_id cs)) !! i = Some a →
  fst (turn_trace w message user_id cs) !! i = Some b →
  ∃ o, run_op w (Some user_id) message o a = Ok b.
Proof.
  unfold turn_trace, workflow_stream.
  destruct (extract_details w message (append_message (HumanMessage message) cs))
    as [cs1|e0] eqn:Hextract.
  - destruct (_decide_after_extraction message cs1) as [route cs2] eqn:Hroute.
    destruct (run_nodes w (Some user_id) (path_of route) cs2) as [trace e] eqn:Hnodes.
    cbn [fst]. intros Ha Hb.
    destruct i as [|[|[|i]]]; cbn in Ha, Hb.
    + injection Ha as <-. injection Hb as <-. now exists op_user_message.
    + injection Ha as <-. injection Hb as <-. now exists op_extract.
    + injection Ha as <-. injection Hb as <-. exists op_route. cbn.
      now rewrite Hroute.
    + destruct (run_nodes_steps w (Some user_id) (path_of route) cs2 i a b)
        as [n Hn]; rewrite ?Hnodes; try assumption.
      now exists (op_node n).
  - cbn [fst]. intros Ha Hb.
    destruct i as [|i]; cbn in Ha, Hb; [|discriminate Hb].
    injection Ha as <-. injection Hb as <-. now exists op_user_message.
Qed.

(** X10.  Every operation of a turn appends to the message sequence, or
    leaves it as it is, except [suggest] when it offers a slot. *)
Lemma messages_appended (w : World) (user_id : pyid) (user_input : string) (o : Op)
    (cs cs' : ConversationState) :
  run_op w user_id user_input o cs = Ok cs' →
  (o = op_node suggest → available_slots cs !! current_slot_index cs = None) →
  ∃ more, messages cs' = (messages cs ++ more)%list.
Proof.
  intros Hrun Hoffer.
  destruct o as [| | |n]; cbn in Hrun.
  - injection Hrun as <-. now exists [HumanMessage user_input].
  - apply extract_details_Ok in Hrun as [d ->]. exists []. now rewrite app_nil_r.
  - injection Hrun as <-. exists []. rewrite app_nil_r.
    unfold _decide_after_extraction.
    now repeat match goal with |- context [if ?b then _ else _] => destruct b end.
  - destruct n; cbn in Hrun.
    + injection Hrun as <-. unfold check_availability.
      destruct (falsy_id user_id); [eexists; reflexivity|].
      destruct (check_slots _ _ _) as [[f a]|e]; [|eexists; reflexivity].
      exists []. now rewrite app_nil_r.
    + injection Hrun as <-. unfold suggest_slots.
      rewrite (Hoffer eq_refl).
      destruct (available_slots cs); eexists; reflexivity.
    + injection Hrun as <-. unfold finalize_booking.
      destruct (falsy_id user_id); [eexists; reflexivity|].
      destruct (suggested_slot cs); [|eexists; reflexivity].
      exists []. now rewrite app_nil_r.
    + unfold generate_response in Hrun.
      apply bind_Ok in Hrun as (response & _ & Hrun). injection Hrun as <-.
      destruct (existsb _ _); [|eexists; reflexivity].
      exists []. now rewrite app_nil_r.
    + injection Hrun as <-. unfold generate_inquiry_response.
      match goal with |- context [match ?m with Ok _ => _ | Raise _ => _ end] =>
        destruct m end; eexists; reflexivity.
Qed.

Lemma messages_appended_witness :
  ∃ more, messages (suggest_slots prompted_conversation)
          = (messages prompted_conversation ++ more)%list.
Proof.
  apply (messages_appended quiet_world (Some "u") "no" (op_node suggest));
    [reflexivity | intros _; reflexivity].
Defined.

(** ** The store of conversations *)

(** What a turn makes of the sender's own session. *)
Lemma process_message_own (w : World) (message user_id : string) (c : ascii)
    (conversations : Conversations) :
  let u := String c user_id in
  let cs := default new_conversation (conversations !! u) in
  snd (process_message w message (Some u) conversations)
  = <[u := List.last (fst (turn_trace w message u cs)) cs]> conversations.
Proof.
  cbv zeta. unfold process_message.
  destruct (turn_trace w message (String c user_id) _) as [trace [e|]]; reflexivity.
Qed.

(** The reply depends on the store through the sender's session only. *)
Lemma process_message_reply_own (w : World) (message user_id : string) (c : ascii)
    (s1 s2 : Conversations) :
  s1 !! String c user_id = s2 !! String c user_id →
  fst (process_message w message (Some (String c user_id)) s1)
  = fst (process_message w message (Some (String c user_id)) s2).
Proof.
  intros H. unfold process_message. rewrite H.
  destruct (turn_trace w message (String c user_id) _) as [trace [e|]]; reflexivity.
Qed.

(** X1.  A turn leaves the session of every other user as it was, and when
    the sender has a user id the store holds a session for it afterwards,
    whether the turn ended normally or not. *)
Theorem process_message_frame
    (w : World) (message : string) (user_id : pyid) (conversations : Conversations) :
  (∀ other, user_id ≠ Some other →
     snd (process_message w message user_id conversations) !! other
     = conversations !! other)
  ∧ (∀ u, user_id = Some u → falsy_id user_id = false →
       is_Some (snd (process_message w message user_id conversations) !! u)).
Proof.
  split.
  - intros other Hne. destruct user_id as [[|c u]|]; try reflexivity.
    rewrite process_message_own. apply lookup_insert_ne. congruence.
  - intros u -> Hf. destruct u as [|c u]; [discriminate Hf|].
    rewrite process_message_own. rewrite lookup_insert_eq. eauto.
Qed.

Lemma process_message_frame_witness :
  snd (process_message quiet_world booking_request (Some "u")
         {["v" := prompted_conversation]}) !! "v"
  = Some prompted_conversation
  ∧ is_Some (snd (process_message quiet_world booking_request (Some "u")
                    {["v" := prompted_conversation]}) !! "u").
Proof.
  destruct (process_message_frame quiet_world booking_request (Some "u")
              {["v" := prompted_conversation]}) as [Hother Hown].
  split.
  - rewrite (Hother "v") by discriminate. reflexivity.
  - apply (Hown "u"); reflexivity.
Defined.

(** X2.  Turns of two different users commute: whichever of the two
    messages is handled first, each user gets the same reply and the store
    ends up the same. *)
Theorem process_message_commute
    (w1 w2 : World) (m1 m2 : string) (u1 u2 : pyid) (conversations : Conversations) :
  u1 ≠ u2 →
  let r1 := process_message w1 m1 u1 conversations in
  let r12 := process_message w2 m2 u2 (snd r1) in
  let r2 := process_message w2 m2 u2 conversations in
  let r21 := process_message w1 m1 u1 (snd r2) in
  fst r1 = fst r21 ∧ fst r12 = fst r2 ∧ snd r12 = snd r21.
Proof.
  intros Hne. cbv zeta.
  destruct u1 as [[|c1 u1]|], u2 as [[|c2 u2]|]; try (repeat split; reflexivity).
  assert (Hk : String c1 u1 ≠ String c2 u2) by congruence.
  repeat split.
  - apply process_message_reply_own.
    rewrite process_message_own. symmetry. now apply lookup_insert_ne.
  - apply process_message_reply_own.
    rewrite process_message_own. now apply lookup_insert_ne.
  - rewrite !process_message_own.
    rewrite !lookup_insert_ne by congruence.
    now apply insert_insert_ne.
Qed.

Lemma process_message_commute_witness :
  snd (process_message quiet_world second_request (Some "v")
         (snd (process_message quiet_world booking_request (Some "u") ∅)))
  = snd (process_message quiet_world booking_request (Some "u")
           (snd (process_message quiet_world second_request (Some "v") ∅))).
Proof.
  apply (process_message_commute quiet_world quiet_world booking_request second_request
           (Some "u") (Some "v") ∅).
  discriminate.
Defined.

(** ** Routing after the fallback extractor *)

Lemma append_not_empty (a : string) (c : ascii) (b : string) : a +:+ String c b ≠ "".
Proof. destruct a; discriminate. Qed.

Lemma eqb_append_colon (a b : string) : String.eqb (a +:+ ":" +:+ b) "" = false.
Proof. apply String.eqb_neq, append_not_empty. Qed.

(** The fallback extractor, when it returns, has filled in a date and a
    time. *)
Lemma simple_details_date_time (user_input : string) (details : pydict) :
  simple_details user_input = Ok details →
  has_detail "date" details = true ∧ has_detail "time" details = true.
Proof.
  unfold simple_details.
  set (ui := lower user_input).
  set (date := if contains "tomorrow" ui then _ else _).
  set (time := if contains "afternoon" ui then _ else _).
  assert (Hd : negb (String.eqb date "") = true).
  { subst date. destruct (contains "tomorrow" ui); [reflexivity|].
    unfold first_weekday_in. cbn [List.find].
    repeat match goal with |- context [if ?b then _ else _] => destruct b end;
      reflexivity. }
  assert (Ht : negb (String.eqb time "") = true).
  { subst time.
    repeat match goal with |- context [if contains ?a ?b then _ else _] =>
      destruct (contains a b) end; try reflexivity.
    destruct (search_time ui) as [[[h m] p]|]; [|reflexivity].
    now rewrite eqb_append_colon. }
  intros H. apply bind_Ok in H as ([time' duration] & Hr & H). injection H as <-.
  unfold has_detail. cbn [dict_get String.eqb Ascii.eqb Bool.eqb truthy].
  split; [exact Hd|].
  destruct (contains "between" ui && (contains "-" ui || contains "and" ui)).
  - destruct (search_between ui) as [[[[h1 m1] p1] [[h2 m2] p2]]|].
    + apply bind_Ok in Hr as (start_hour & _ & Hr).
      apply bind_Ok in Hr as (start_min & _ & Hr).
      apply bind_Ok in Hr as (end_hour & _ & Hr).
      apply bind_Ok in Hr as (end_min & _ & Hr).
      injection Hr as <- _. now rewrite eqb_append_colon.
    + injection Hr as <- _. exact Ht.
  - injection Hr as <- _. exact Ht.
Qed.

(** X3.  After the fallback extractor has returned, the routing function
    never chooses [respond]: it chooses [inquire] when the text holds an
    inquiry word and no booking word, and [check] in every other case,
    whatever the text says.  Either way the turn runs [check], [suggest],
    [confirm] and [respond]. *)
Theorem fallback_routes_to_booking (user_input : string) (cs cs1 : ConversationState) :
  _simple_extraction user_input cs = Ok cs1 →
  let text := lower user_input in
  let is_booking :=
    existsb (fun word => contains word text) ["book"; "schedule"; "set up"; "want"] in
  let is_inquiry :=
    existsb (fun word => contains word text) ["free"; "available"; "have time"] in
  let route := fst (_decide_after_extraction user_input cs1) in
  route = (if negb is_booking && is_inquiry then to_inquire else to_check)
  ∧ route ≠ to_respond
  ∧ ∃ before, path_of route = (before ++ [check; suggest; confirm; respond])%list.
Proof.
  intros H. cbv zeta. unfold _simple_extraction in H.
  apply bind_Ok in H as (details & Hdetails & H). injection H as <-.
  destruct (simple_details_date_time user_input details Hdetails) as [Hd Ht].
  unfold _decide_after_extraction.
  cbn [extracted_details set_extracted_details].
  rewrite Hd, Ht, !andb_true_r.
  destruct (existsb _ ["book"; "schedule"; "set up"; "want"]);
    [|destruct (existsb _ ["free"; "available"; "have time"])]; cbn.
  - split; [reflexivity|]. split; [discriminate|]. now exists [].
  - split; [reflexivity|]. split; [discriminate|]. now exists [inquire].
  - split; [reflexivity|]. split; [discriminate|]. now exists [].
Qed.

Lemma fallback_routes_to_booking_witness :
  _simple_extraction booking_request new_conversation = Ok requested_conversation
  ∧ fst (_decide_after_extraction booking_request requested_conversation) = to_check.
Proof.
  assert (H : _simple_extraction booking_request new_conversation
              = Ok requested_conversation) by (vm_compute; reflexivity).
  split; [exact H|].
  destruct (fallback_routes_to_booking booking_request new_conversation
              requested_conversation H) as (Hr & _ & _).
  rewrite Hr. vm_compute. reflexivity.
Defined.

(** ** A slot is offered and booked in one turn *)

(** X4.  When [check] succeeds with at least one slot to store, the three
    nodes [check], [suggest] and [confirm] together offer the first stored
    slot and book it: afterwards that slot is the suggested one, the pointer
    is 1, the offer is the only message, and the booking is what
    [book_appointment] answers for that slot.  No answer of the user comes
    in between. *)
Theorem checked_slot_is_booked_at_once
    (w : World) (user_id : pyid) (cs : ConversationState)
    (filtered_slots all_slots rest : list Slot) (slot : Slot) :
  falsy_id user_id = false →
  check_slots w user_id (extracted_details cs) = Ok (filtered_slots, all_slots) →
  or_else filtered_slots all_slots = slot :: rest →
  let cs' := finalize_booking w user_id (suggest_slots (check_availability w user_id cs)) in
  fst (run_nodes w user_id [check; suggest; confirm] cs)
  = [check_availability w user_id cs; suggest_slots (check_availability w user_id cs); cs']
  ∧ available_slots cs' = slot :: rest
  ∧ current_slot_index cs' = 1%nat
  ∧ suggested_slot cs' = Some slot
  ∧ messages cs' = [AIMessage (offer_text slot)]
  ∧ booking cs'
    = Some (book_appointment w user_id (slot_start slot) (slot_end slot)
              (default (JString "Meeting") (dict_get "purpose" (extracted_details cs)))).
Proof.
  intros Hid Hcheck Hslots. cbv zeta.
  split; [reflexivity|].
  unfold check_availability. rewrite Hid, Hcheck, Hslots.
  rewrite (suggest_slots_offer _ slot) by reflexivity.
  cbn [available_slots current_slot_index extracted_details messages state
       suggested_slot booking].
  rewrite (finalize_booking_stores_result _ _ _ slot) by (assumption || reflexivity).
  repeat split.
Qed.

Lemma checked_slot_is_booked_at_once_witness :
  let cs := requested_conversation in
  let cs' := finalize_booking quiet_world (Some "u")
               (suggest_slots (check_availability quiet_world (Some "u") cs)) in
  suggested_slot cs' = Some nine_o_clock
  ∧ messages cs' = [AIMessage (offer_text nine_o_clock)]
  ∧ booking cs'
    = Some (book_appointment quiet_world (Some "u") (slot_start nine_o_clock)
              (slot_end nine_o_clock) (JString "Meeting")).
Proof.
  cbv zeta.
  set (cs := requested_conversation).
  destruct (check_slots quiet_world (Some "u") (extracted_details cs))
    as [[filtered_slots all_slots]|e] eqn:E; [|vm_compute in E; discriminate E].
  destruct (or_else filtered_slots all_slots) as [|slot rest] eqn:E';
    [vm_compute in E; injection E as <- <-; discriminate E'|].
  destruct (checked_slot_is_booked_at_once quiet_world (Some "u") cs
              filtered_slots all_slots rest slot eq_refl E E')
    as (_ & _ & _ & Hs & Hm & Hb).
  assert (slot = nine_o_clock) as ->.
  { vm_compute in E. injection E as <- <-. now injection E' as <- _. }
  repeat split; assumption.
Defined.

(** X5.  When [check] fails while slots of an earlier request are still
    stored and the pointer is inside them, the failure notice it appends is
    dropped by [suggest], which offers the stored slot under the pointer,
    and [confirm] books that slot. *)
Theorem failed_check_books_earlier_slot
    (w : World) (user_id : pyid) (cs : ConversationState) (e : exn) (slot : Slot) :
  falsy_id user_id = false →
  check_slots w user_id (extracted_details cs) = Raise e →
  available_slots cs !! current_slot_index cs = Some slot →
  let cs' := finalize_booking w user_id (suggest_slots (check_availability w user_id cs)) in
  messages (check_availability w user_id cs)
  = (messages cs ++ [AIMessage "Failed to check availability. Please try again."])%list
  ∧ messages cs' = [AIMessage (offer_text slot)]
  ∧ available_slots cs' = available_slots cs
  ∧ current_slot_index cs' = S (current_slot_index cs)
  ∧ suggested_slot cs' = Some slot
  ∧ booking cs'
    = Some (book_appointment w user_id (slot_start slot) (slot_end slot)
              (default (JString "Meeting") (dict_get "purpose" (extracted_details cs)))).
Proof.
  intros Hid Hcheck Hslot. cbv zeta.
  unfold check_availability. rewrite Hid, Hcheck.
  split; [reflexivity|].
  rewrite (suggest_slots_offer _ slot) by exact Hslot.
  cbn [available_slots current_slot_index extracted_details messages state
       suggested_slot booking append_message set_messages].
  rewrite (finalize_booking_stores_result _ _ _ slot) by (assumption || reflexivity).
  repeat split.
Qed.

(** Details whose date no parser understands, with a slot still stored. *)
Lemma failed_check_books_earlier_slot_witness :
  let cs := {| messages := [HumanMessage "someday"];
               extracted_details := [("date", JString "someday")];
               state := "awaiting_input";
               available_slots := [nine_o_clock];
               current_slot_index := 0;
               suggested_slot := None; booking := None |} in
  let cs' := finalize_booking quiet_world (Some "u")
               (suggest_slots (check_availability quiet_world (Some "u") cs)) in
  messages cs' = [AIMessage (offer_text nine_o_clock)]
  ∧ booking cs'
    = Some (book_appointment quiet_world (Some "u") (slot_start nine_o_clock)
              (slot_end nine_o_clock) (JString "Meeting")).
Proof.
  cbv zeta.
  destruct (failed_check_books_earlier_slot quiet_world (Some "u")
              {| messages := [HumanMessage "someday"];
                 extracted_details := [("date", JString "someday")];
                 state := "awaiting_input";
                 available_slots := [nine_o_clock];
                 current_slot_index := 0;
                 suggested_slot := None; booking := None |}
              ValueError nine_o_clock eq_refl)
    as (_ & Hm & _ & _ & _ & Hb).
  - vm_compute. reflexivity.
  - reflexivity.
  - split; [exact Hm | exact Hb].
Defined.

(** ** The end of a turn *)

(** [book_appointment] answers the empty dictionary or one with all four
    keys. *)
Lemma book_appointment_cases
    (w : World) (user_id : pyid) (start_time end_time : string) (summary : json) :
  book_appointment w user_id start_time end_time summary = ∅
  ∨ ∃ r : EventResult,
      book_appointment w user_id start_time end_time summary
      = <["id" := result_id r]>
        (<["htmlLink" := result_htmlLink r]>
         (<["start" := result_start r]> (<["end" := result_end r]> ∅))).
Proof.
  unfold book_appointment.
  destruct (negb (_get_credentials w user_id)); [now left|].
  match goal with |- context [match ?m with Ok _ => _ | Raise _ => _ end] =>
    destruct m as [r|e] end; [right; now exists r | now left].
Qed.

(** Rendering the reply raises exactly on the empty booking. *)
Lemma generate_response_booking (cs : ConversationState) (b : Booking) :
  booking cs = Some b →
  (∃ start_time end_time summary w user_id,
     b = book_appointment w user_id start_time end_time summary) →
  (b = ∅ ∧ generate_response cs = Raise KeyError)
  ∨ (b ≠ ∅ ∧ ∃ cs', generate_response cs = Ok cs').
Proof.
  intros Hb (s & e & summ & w & u & ->).
  destruct (book_appointment_cases w u s e summ) as [E | [r E]].
  - left. split; [exact E|]. apply response_text_empty_booking. now rewrite Hb, E.
  - right. split.
    + rewrite E. intros H. apply (f_equal (lookup "id")) in H.
      rewrite lookup_insert_eq, lookup_empty in H. discriminate H.
    + unfold generate_response, response_text. rewrite Hb, E.
      repeat (rewrite lookup_insert_eq || rewrite lookup_insert_ne by done).
      eexists. reflexivity.
Qed.

Lemma generate_response_keeps (cs cs' : ConversationState) :
  generate_response cs = Ok cs' →
  booking cs' = booking cs ∧ suggested_slot cs' = suggested_slot cs
  ∧ extracted_details cs' = extracted_details cs.
Proof.
  unfold generate_response. intros H.
  apply bind_Ok in H as (response & _ & H). injection H as <-.
  destruct (existsb _ _); repeat split.
Qed.

Lemma generate_response_no_booking (cs : ConversationState) :
  booking cs = None → ∃ cs', generate_response cs = Ok cs'.
Proof.
  intros H. unfold generate_response, response_text. rewrite H.
  destruct (available_slots cs); eexists; reflexivity.
Qed.

Lemma check_availability_keeps (w : World) (user_id : pyid) (cs : ConversationState) :
  booking (check_availability w user_id cs) = booking cs
  ∧ extracted_details (check_availability w user_id cs) = extracted_details cs.
Proof.
  unfold check_availability. destruct (falsy_id user_id); [now split|].
  destruct (check_slots _ _ _) as [[f a]|e]; now split.
Qed.

Lemma suggest_slots_keeps (cs : ConversationState) :
  booking (suggest_slots cs) = booking cs
  ∧ extracted_details (suggest_slots cs) = extracted_details cs.
Proof.
  unfold suggest_slots. destruct (available_slots cs); [now split|].
  destruct (_ !! _); now split.
Qed.

Lemma generate_inquiry_response_keeps (w : World) (cs : ConversationState) :
  booking (generate_inquiry_response w cs) = booking cs
  ∧ extracted_details (generate_inquiry_response w cs) = extracted_details cs.
Proof.
  unfold generate_inquiry_response.
  match goal with |- context [match ?m with Ok _ => _ | Raise _ => _ end] =>
    destruct m end; now split.
Qed.

Lemma decide_after_extraction_booking (user_input : string) (cs : ConversationState) :
  booking (snd (_decide_after_extraction user_input cs)) = None.
Proof.
  unfold _decide_after_extraction.
  now repeat match goal with |- context [if ?b then _ else _] => destruct b end.
Qed.

Lemma run_respond (w : World) (user_id : pyid) (cs : ConversationState) :
  booked_for w user_id cs →
  ends_well w user_id (List.last (fst (run_nodes w user_id [respond] cs)) cs)
    (snd (run_nodes w user_id [respond] cs)).
Proof.
  intros Hb. cbn [run_nodes run_node].
  destruct (booking cs) as [b|] eqn:E.
  - assert (Hfrom : ∃ start_time end_time summary w user_id,
               b = book_appointment w user_id start_time end_time summary).
    { unfold booked_for in Hb. rewrite E in Hb. destruct Hb as (slot & _ & ->).
      eauto 10. }
    destruct (generate_response_booking cs b E Hfrom) as [[-> Hr] | [Hne [cs' Hr]]].
    + rewrite Hr. cbn. split; [exact Hb|]. split; [reflexivity|]. congruence.
    + rewrite Hr. cbn. destruct (generate_response_keeps _ _ Hr) as (H1 & H2 & H3).
      split; [|split].
      * unfold booked_for in Hb |- *. now rewrite H1, H2, H3.
      * rewrite H1, E. congruence.
      * reflexivity.
  - destruct (generate_response_no_booking cs E) as [cs' Hr]. rewrite Hr. cbn.
    destruct (generate_response_keeps _ _ Hr) as (H1 & H2 & H3).
    split; [|split].
    + unfold booked_for. now rewrite H1, E.
    + rewrite H1, E. discriminate.
    + reflexivity.
Qed.

Lemma finalize_booking_booked (w : World) (user_id : pyid) (cs : ConversationState) :
  falsy_id user_id = false → booking cs = None →
  booked_for w user_id (finalize_booking w user_id cs).
Proof.
  intros Hid Hb. unfold finalize_booking, booked_for. rewrite Hid.
  destruct (suggested_slot cs) as [slot|] eqn:E; cbn.
  - exists slot. now split.
  - now rewrite Hb.
Qed.

Lemma last_cons_default {A} (l : list A) (a d : A) :
  List.last (a :: l) d = List.last l a.
Proof.
  revert a d. induction l as [|b l IH]; intros a d; [reflexivity|].
  change (List.last (a :: b :: l) d) with (List.last (b :: l) d).
  now rewrite (IH b d), (IH b a).
Qed.

Lemma run_check_path (w : World) (user_id : pyid) (cs : ConversationState) :
  falsy_id user_id = false → booking cs = None →
  ends_well w user_id
    (List.last (fst (run_nodes w user_id [check; suggest; confirm; respond] cs)) cs)
    (snd (run_nodes w user_id [check; suggest; confirm; respond] cs)).
Proof.
  intros Hid Hb.
  set (c3 := finalize_booking w user_id (suggest_slots (check_availability w user_id cs))).
  assert (H3 : booked_for w user_id c3).
  { apply finalize_booking_booked; [exact Hid|].
    rewrite (proj1 (suggest_slots_keeps _)), (proj1 (check_availability_keeps _ _ _)).
    exact Hb. }
  pose proof (run_respond w user_id c3 H3) as H.
  cbn [run_nodes run_node] in H |- *. fold c3.
  destruct (generate_response c3) as [c4|e]; cbn in H |- *; exact H.
Qed.

Lemma turn_ends_well (w : World) (message user_id : string) (c : ascii)
    (cs cs1 : ConversationState) :
  extract_details w message (append_message (HumanMessage message) cs) = Ok cs1 →
  ends_well w (Some (String c user_id))
    (List.last (fst (turn_trace w message (String c user_id) cs)) cs)
    (snd (turn_trace w message (String c user_id) cs)).
Proof.
  intros Hextract. unfold turn_trace, workflow_stream. rewrite Hextract.
  pose proof (decide_after_extraction_booking message cs1) as Hb.
  destruct (_decide_after_extraction message cs1) as [route cs2]. cbn [snd] in Hb.
  assert (H : ends_well w (Some (String c user_id))
                (List.last (fst (run_nodes w (Some (String c user_id)) (path_of route) cs2))
                   cs2)
                (snd (run_nodes w (Some (String c user_id)) (path_of route) cs2))).
  { destruct route; cbn [path_of].
    - now apply run_check_path.
    - set (ci := generate_inquiry_response w cs2).
      assert (Hi : booking ci = None)
        by (subst ci; now rewrite (proj1 (generate_inquiry_response_keeps _ _))).
      pose proof (run_check_path w (Some (String c user_id)) ci eq_refl Hi) as H.
      cbn [run_nodes run_node] in H |- *. fold ci.
      destruct (generate_response _) as [c4|e]; cbn in H |- *; exact H.
    - apply run_respond. unfold booked_for. now rewrite Hb. }
  destruct (run_nodes _ _ _ cs2) as [trace e]. cbn [fst snd] in H |- *.
  now rewrite !last_cons_default.
Qed.

(** The session and the reply of a turn, read off its trace. *)
Lemma process_message_session (w : World) (message user_id : string) (c : ascii)
    (conversations : Conversations) :
  let u := String c user_id in
  let cs := default new_conversation (conversations !! u) in
  let cs' := List.last (fst (turn_trace w message u cs)) cs in
  snd (process_message w message (Some u) conversations) !! u = Some cs'
  ∧ fst (process_message w message (Some u) conversations)
    = match snd (turn_trace w message u cs) with
      | None => last_ai_message (messages cs')
      | Some _ => "Sorry, I encountered an error. Please try again."
      end.
Proof.
  cbv zeta. unfold process_message.
  destruct (turn_trace w message (String c user_id) _) as [trace [e|]];
    cbn [fst snd]; now rewrite lookup_insert_eq.
Qed.

(** X6.  At the end of a turn of a user with an id, on a message of at
    most 4300 characters, the generic error reply is given when the stored
    conversation holds the empty booking, and in every other case the reply
    is the content of the last assistant message of the stored
    conversation. *)
Theorem error_reply_iff_empty_booking
    (w : World) (message user_id : string) (c : ascii) (conversations : Conversations) :
  short_text message →
  let u := String c user_id in
  let result := process_message w message (Some u) conversations in
  ∃ cs', snd result !! u = Some cs'
    ∧ (booking cs' = Some ∅
       → fst result = "Sorry, I encountered an error. Please try again.")
    ∧ (booking cs' ≠ Some ∅ → fst result = last_ai_message (messages cs')).
Proof.
  intros Hshort. cbv zeta.
  destruct (process_message_session w message user_id c conversations) as [Hs Hr].
  eexists. split; [exact Hs|]. rewrite Hr.
  destruct (extract_details_short w message
              (append_message (HumanMessage message)
                 (default new_conversation (conversations !! String c user_id)))
              Hshort) as [cs1 Hextract].
  destruct (turn_ends_well w message user_id c _ cs1 Hextract) as (_ & He & Hn).
  split; intros H.
  - now rewrite (He H).
  - now rewrite (Hn H).
Qed.

Lemma error_reply_iff_empty_booking_witness :
  fst (process_message failing_world booking_request (Some "u") ∅)
  = "Sorry, I encountered an error. Please try again.".
Proof.
  destruct (error_reply_iff_empty_booking failing_world booking_request "" "u" ∅)
    as (cs' & Hs & He & _).
  - vm_compute. discriminate.
  - apply He. vm_compute in Hs. injection Hs as <-. reflexivity.
Defined.

(** X7.  A booking that the stored conversation holds at the end of a turn
    on a message of at most 4300 characters was made in that turn: it is
    what [book_appointment] answers, in the world of the turn, for the
    suggested slot and the purpose of the details.  A booking of an earlier
    turn is not carried over. *)
Theorem stored_booking_is_of_the_turn
    (w : World) (message user_id : string) (c : ascii) (conversations : Conversations) :
  short_text message →
  let u := String c user_id in
  ∃ cs', snd (process_message w message (Some u) conversations) !! u = Some cs'
    ∧ ∀ b, booking cs' = Some b →
        ∃ slot, suggested_slot cs' = Some slot
          ∧ b = book_appointment w (Some u) (slot_start slot) (slot_end slot)
                  (default (JString "Meeting")
                     (dict_get "purpose" (extracted_details cs'))).
Proof.
  intros Hshort. cbv zeta.
  destruct (process_message_session w message user_id c conversations) as [Hs _].
  eexists. split; [exact Hs|].
  destruct (extract_details_short w message
              (append_message (HumanMessage message)
                 (default new_conversation (conversations !! String c user_id)))
              Hshort) as [cs1 Hextract].
  destruct (turn_ends_well w message user_id c _ cs1 Hextract) as (Hb & _ & _).
  intros b E. unfold booked_for in Hb. now rewrite E in Hb.
Qed.

Lemma stored_booking_is_of_the_turn_witness :
  ∃ cs', snd (process_message quiet_world booking_request (Some "u") ∅) !! "u" = Some cs'
    ∧ suggested_slot cs' = Some nine_o_clock
    ∧ booking cs'
      = Some (book_appointment quiet_world (Some "u") (slot_start nine_o_clock)
                (slot_end nine_o_clock) (JString "Meeting")).
Proof.
  destruct (stored_booking_is_of_the_turn quiet_world booking_request "" "u" ∅)
    as (cs' & Hs & Hb).
  - vm_compute. discriminate.
  - exists cs'. split; [exact Hs|].
    destruct (booking cs') as [b|] eqn:E;
      [|vm_compute in Hs; injection Hs as <-; discriminate E].
    destruct (Hb b eq_refl) as (slot & Hslot & ->).
    vm_compute in Hs. injection Hs as <-.
    injection Hslot as <-. split; reflexivity.
Defined.

(** ** Invariants of a session *)

Lemma turn_trace_invariant (P : ConversationState → Prop)
    (w : World) (message user_id : string) (cs : ConversationState) :
  P cs →
  (∀ o a b, P a → run_op w (Some user_id) message o a = Ok b → P b) →
  Forall P (fst (turn_trace w message user_id cs)).
Proof.
  intros H0 Hstep. apply Forall_lookup. intros i.
  induction i as [|i IH]; intros b Hb.
  - destruct (turn_trace_steps w message user_id cs 0 cs b eq_refl Hb) as [o Ho].
    eapply Hstep; eauto.
  - destruct (fst (turn_trace w message user_id cs) !! i) as [a|] eqn:Ha.
    + destruct (turn_trace_steps w message user_id cs (S i) a b Ha Hb) as [o Ho].
      eapply Hstep; [|exact Ho]. now apply IH.
    + apply lookup_ge_None in Ha. apply lookup_lt_Some in Hb. lia.
Qed.

Lemma last_Forall {A} (P : A → Prop) (l : list A) (d : A) :
  P d → Forall P l → P (List.last l d).
Proof.
  intros Hd Hl. induction Hl as [|a l Ha Hl IH]; [exact Hd|].
  destruct l; [exact Ha | exact IH].
Qed.

Lemma session_invariant (P : ConversationState → Prop)
    (turns : list (World * string)) (user_id : string) (cs : ConversationState) :
  P cs →
  (∀ w message o a b, (w, message) ∈ turns → P a →
     run_op w (Some user_id) message o a = Ok b → P b) →
  Forall P (session_states turns user_id cs).
Proof.
  revert cs. induction turns as [|[w message] turns IH]; intros cs H0 Hstep.
  - constructor.
  - cbn [session_states].
    assert (Ht : Forall P (fst (turn_trace w message user_id cs))).
    { apply turn_trace_invariant; [exact H0|].
      intros o a b. apply Hstep. left. }
    apply Forall_app. split; [exact Ht|].
    apply IH.
    + now apply last_Forall.
    + intros w' m' o a b Hin. apply Hstep. now right.
Qed.

Lemma filterM_subset {A} (p : A → Exc bool) (l l' : list A) :
  filterM p l = Ok l' → ∀ x, x ∈ l' → x ∈ l.
Proof.
  revert l'. induction l as [|a l IH]; intros l' H x Hx.
  - cbn in H. injection H as <-. exact Hx.
  - cbn [filterM] in H.
    apply bind_Ok in H as (keep & _ & H).
    apply bind_Ok in H as (rest & Hrest & H). injection H as <-.
    destruct keep.
    + apply elem_of_cons in Hx as [-> | Hx]; [left | right; eauto].
    + right; eauto.
Qed.

Lemma check_availability_cases (w : World) (user_id : pyid) (cs : ConversationState) :
  same_slots cs (check_availability w user_id cs)
  ∨ (∃ date duration,
       current_slot_index (check_availability w user_id cs) = 0%nat
       ∧ suggested_slot (check_availability w user_id cs) = suggested_slot cs
       ∧ ∀ s, s ∈ available_slots (check_availability w user_id cs) →
              s ∈ get_available_slots w user_id date duration).
Proof.
  unfold check_availability. destruct (falsy_id user_id); [left; repeat split|].
  destruct (check_slots w user_id (extracted_details cs)) as [[f a]|e] eqn:E;
    [|left; repeat split].
  right. unfold check_slots in E.
  destruct (extracted_details cs) as [|kv d]; [discriminate E|].
  apply bind_Ok in E as (date_str & _ & E).
  apply bind_Ok in E as ([start_time end_time] & _ & E).
  apply bind_Ok in E as (duration & _ & E).
  apply bind_Ok in E as (filtered & Hf & E). injection E as <- <-.
  exists date_str, duration. repeat split.
  cbn [available_slots]. intros s Hs.
  destruct filtered as [|s0 filtered]; [exact Hs|].
  eapply filterM_subset; eauto.
Qed.

(** An operation keeps the slots, the pointer and the suggestion, unless it
    is [check] or [suggest]. *)
Lemma run_op_slots (w : World) (user_id : pyid) (user_input : string) (o : Op)
    (cs cs' : ConversationState) :
  run_op w user_id user_input o cs = Ok cs' →
  same_slots cs cs' ∨ cs' = check_availability w user_id cs ∨ cs' = suggest_slots cs.
Proof.
  intros Hrun. destruct o as [| | |n]; cbn in Hrun.
  - injection Hrun as <-. left. repeat split.
  - left. eapply same_slots_extract, Hrun.
  - injection Hrun as <-. left. apply same_slots_route.
  - destruct n; cbn in Hrun.
    + injection Hrun as <-. right. now left.
    + injection Hrun as <-. right. now right.
    + injection Hrun as <-. left. apply same_slots_confirm.
    + left. now apply same_slots_respond.
    + injection Hrun as <-. left. apply same_slots_inquire.
Qed.

(** X8.  In every state of a session that starts with a new conversation
    the slot pointer is at most the number of stored slots. *)
Theorem slot_pointer_within_slots (turns : list (World * string)) (user_id : string) :
  Forall (fun cs => (current_slot_index cs ≤ length (available_slots cs))%nat)
    (session_states turns user_id new_conversation).
Proof.
  apply session_invariant; [cbn; lia|].
  intros w message o a b _ Ha Hrun.
  destruct (run_op_slots _ _ _ _ _ _ Hrun) as [(H1 & H2 & _) | [-> | ->]].
  - rewrite H1, H2. exact Ha.
  - destruct (check_availability_cases w (Some user_id) a)
      as [(H1 & H2 & _) | (d & n & H1 & _)]; [rewrite H1, H2; exact Ha | lia].
  - destruct (suggest_slots_cases a) as [(slot & E & H1 & H2 & _) | [_ (H1 & H2 & _)]].
    + rewrite H1, H2. apply lookup_lt_Some in E. lia.
    + rewrite H1, H2. exact Ha.
Qed.

(** X9.  In every state of a session that starts with a new conversation,
    each stored slot and the suggested slot were returned by
    [get_available_slots] for this user in one of the turns of the
    session. *)
Theorem offered_slots_come_from_calendar
    (turns : list (World * string)) (user_id : string) :
  Forall (fun cs =>
            (∀ s, s ∈ available_slots cs → from_calendar turns user_id s)
            ∧ (∀ s, suggested_slot cs = Some s → from_calendar turns user_id s))
    (session_states turns user_id new_conversation).
Proof.
  apply session_invariant.
  - split; [intros s Hs; inversion Hs | discriminate].
  - intros w message o a b Hin [Ha Hsug] Hrun.
    destruct (run_op_slots _ _ _ _ _ _ Hrun) as [(H1 & _ & H3) | [-> | ->]].
    + rewrite H1, H3. now split.
    + destruct (check_availability_cases w (Some user_id) a)
        as [(H1 & _ & H3) | (d & n & _ & H3 & H4)].
      * rewrite H1, H3. now split.
      * rewrite H3. split; [|exact Hsug].
        intros s Hs. exists w, message, d, n. split; [exact Hin | now apply H4].
    + destruct (suggest_slots_cases a) as [(slot & E & H1 & _ & H3) | [_ (H1 & _ & H3)]].
      * rewrite H1, H3. split; [exact Ha|].
        intros s [= <-]. apply Ha. eapply list_elem_of_lookup_2, E.
      * rewrite H1, H3. now split.
Qed.

(** ** The details the LLM gives *)

Lemma dict_get_set_eq (k : string) (v : json) (d : pydict) :
  dict_get k (dict_set k v d) = Some v.
Proof.
  induction d as [|[k' v'] d IH]; cbn.
  - now rewrite String.eqb_refl.
  - destruct (String.eqb k k') eqn:E; cbn; [now rewrite String.eqb_refl|].
    now rewrite E.
Qed.

Lemma dict_get_set_ne (k k' : string) (v : json) (d : pydict) :
  k ≠ k' → dict_get k (dict_set k' v d) = dict_get k d.
Proof.
  intros Hne. induction d as [|[k'' v''] d IH]; cbn.
  - apply String.eqb_neq in Hne. now rewrite Hne.
  - destruct (String.eqb k' k'') eqn:E; cbn.
    + apply String.eqb_eq in E. subst k''.
      apply String.eqb_neq in Hne. now rewrite Hne.
    + now rewrite IH.
Qed.

Lemma fill_defaults_lookup (d d' : pydict) :
  fill_defaults d = Ok d' →
  dict_get "date" d' = Some (default (JString "today") (dict_get "date" d))
  ∧ dict_get "time" d' = Some (default (JString "12:00") (dict_get "time" d))
  ∧ (∃ n, py_int (default (JInt 30) (dict_get "duration" d)) = Ok n
          ∧ dict_get "duration" d' = Some (JInt n))
  ∧ dict_get "purpose" d' = Some (default (JString "Meeting") (dict_get "purpose" d))
  ∧ ∀ k, k ∉ ["date"; "time"; "duration"; "purpose"] → dict_get k d' = dict_get k d.
Proof.
  unfold fill_defaults. intros H.
  apply bind_Ok in H as (n & Hn & H). injection H as <-.
  rewrite !dict_get_set_ne in Hn by discriminate.
  repeat (rewrite ?dict_get_set_eq; rewrite ?dict_get_set_ne by discriminate).
  split; [reflexivity|]. split; [reflexivity|]. split; [eauto|].
  split; [reflexivity|].
  intros k Hk.
  rewrite !dict_get_set_ne; [reflexivity| | | |];
    intros ->; apply Hk; set_solver.
Qed.

(** X11.  When the LLM answers with a JSON object whose duration [int]
    accepts, [extract_details] stores that object with the four keys filled:
    a value the object gives is kept, also [null], a missing one gets its
    default, the duration becomes an integer, and every other key of the
    object stays.  Nothing else of the conversation changes. *)
Theorem extract_details_stores_llm_details
    (w : World) (user_input answer : string) (d : pydict) (n : Z)
    (cs : ConversationState) :
  chat_invoke w user_input = Ok answer →
  json_loads w (strip_fences (strip answer)) = Ok (JObject d) →
  py_int (default (JInt 30) (dict_get "duration" d)) = Ok n →
  ∃ cs',
  extract_details w user_input cs = Ok cs'
  ∧ dict_get "date" (extracted_details cs')
    = Some (default (JString "today") (dict_get "date" d))
  ∧ dict_get "time" (extracted_details cs')
    = Some (default (JString "12:00") (dict_get "time" d))
  ∧ dict_get "duration" (extracted_details cs') = Some (JInt n)
  ∧ dict_get "purpose" (extracted_details cs')
    = Some (default (JString "Meeting") (dict_get "purpose" d))
  ∧ (∀ k, k ∉ ["date"; "time"; "duration"; "purpose"] →
       dict_get k (extracted_details cs') = dict_get k d)
  ∧ cs' = set_extracted_details (extracted_details cs') cs.
Proof.
  intros Ha Hj Hn.
  unfold extract_details, llm_details. rewrite Ha. cbn [fmap Exc_fmap].
  rewrite exc_bind_Ok, Hj.
  destruct (fill_defaults d) as [d'|e] eqn:E.
  - destruct (fill_defaults_lookup d d' E) as (H1 & H2 & (n' & Hn' & H3) & H4 & H5).
    cbn. rewrite Hn in Hn'. injection Hn' as <-.
    eexists. split; [reflexivity|]. repeat split; assumption.
  - exfalso. unfold fill_defaults in E.
    rewrite !dict_get_set_ne in E by discriminate. rewrite Hn in E. discriminate E.
Qed.

Lemma extract_details_stores_llm_details_witness :
  ∃ cs',
    extract_details answering_world booking_request new_conversation = Ok cs'
    ∧ dict_get "date" (extracted_details cs') = Some (JString "tomorrow")
    ∧ dict_get "time" (extracted_details cs') = Some (JString "12:00")
    ∧ dict_get "duration" (extracted_details cs') = Some (JInt 45)
    ∧ dict_get "purpose" (extracted_details cs') = Some (JString "Meeting")
    ∧ dict_get "intent" (extracted_details cs') = Some (JString "book").
Proof.
  destruct (extract_details_stores_llm_details answering_world booking_request
              ("```json" +:+ NL
               +:+ "{" +:+ QUOTE +:+ "date" +:+ QUOTE +:+ ": " +:+ QUOTE +:+ "tomorrow" +:+ QUOTE
               +:+ ", " +:+ QUOTE +:+ "duration" +:+ QUOTE +:+ ": " +:+ QUOTE +:+ "45" +:+ QUOTE
               +:+ ", " +:+ QUOTE +:+ "intent" +:+ QUOTE +:+ ": " +:+ QUOTE +:+ "book" +:+ QUOTE
               +:+ "}" +:+ NL +:+ "```")
              [("date", JString "tomorrow"); ("duration", JString "45");
               ("intent", JString "book")]
              45 new_conversation) as (cs' & Hcs' & H1 & H2 & H3 & H4 & H5 & _).
  - reflexivity.
  - vm_compute. reflexivity.
  - vm_compute. reflexivity.
  - exists cs'. split; [exact Hcs'|]. rewrite H1, H2, H3, H4, (H5 "intent").
    + repeat split.
    + intros H. repeat (apply elem_of_cons in H as [H|H]; [discriminate H|]).
      inversion H.
Defined.

Lemma range_all_spec (P : Z → bool) (lo : Z) (p : positive) :
  range_all P lo p = true → ∀ z, lo <= z < lo + Z.pos p → P z = true.
Proof.
  revert lo. induction p as [q IH | q IH |]; intros lo H z Hz; cbn [range_all] in H.
  - apply andb_true_iff in H as [H H2]. apply andb_true_iff in H as [H0 H1].
    destruct (Z.eq_dec z lo) as [-> | Hne]; [exact H0|].
    destruct (Z_lt_ge_dec z (lo + 1 + Z.pos q)).
    + apply (IH (lo + 1) H1). lia.
    + apply (IH (lo + 1 + Z.pos q) H2). lia.
  - apply andb_true_iff in H as [H1 H2].
    destruct (Z_lt_ge_dec z (lo + Z.pos q)).
    + apply (IH lo H1). lia.
    + apply (IH (lo + Z.pos q) H2). lia.
  - assert (z = lo) as -> by lia. exact H.
Qed.

Lemma is_text_spec (expected : string) (r : Exc string) :
  is_text expected r = true → r = Ok expected.
Proof.
  destruct r as [s|e]; [|discriminate]. cbn. intros H.
  apply String.eqb_eq in H. now subst.
Qed.

Lemma is_window_spec (a b : string) (r : Exc (string * string)) :
  is_window a b r = true → r = Ok (a, b).
Proof.
  destruct r as [[x y]|e]; [|discriminate]. cbn. intros H.
  apply andb_true_iff in H as [Hx Hy].
  apply String.eqb_eq in Hx, Hy. now subst.
Qed.

(** ** Arithmetic on times of day *)

Lemma fmt02d_no_colon (z : Z) : all_chars (is_not ":") (fmt02d z) = true.
Proof.
  eapply all_chars_impl, fmt02d_chars.
  intros c Hc. unfold digit_or_minus in Hc. unfold is_not.
  destruct c as [[] [] [] [] [] [] [] []]; vm_compute in Hc |- *; congruence.
Qed.

Lemma split_colon_fmt (h m : Z) :
  split ":" (fmt02d h +:+ ":" +:+ fmt02d m) = [fmt02d h; fmt02d m].
Proof.
  unfold split. change (":" +:+ fmt02d m) with (String ":" (fmt02d m)).
  rewrite split_go_first by apply fmt02d_no_colon.
  rewrite split_go_no_sep by apply fmt02d_no_colon.
  reflexivity.
Qed.

Lemma add_minutes_canonical (h m n : Z) :
  _add_minutes (fmt02d h +:+ ":" +:+ fmt02d m) n
  = Ok (fmt02d ((h * 60 + m + n) / 60) +:+ ":" +:+ fmt02d ((h * 60 + m + n) mod 60)).
Proof.
  unfold _add_minutes. rewrite split_colon_fmt.
  rewrite !int_str_fmt02d, !exc_bind_Ok. reflexivity.
Qed.

(** X12.  Adding minutes in two steps gives what adding their sum gives:
    [_add_minutes] never wraps around at midnight and never loses minutes
    between the hours and the minutes it writes. *)
Theorem add_minutes_compose (time_str t : string) (a b : Z) :
  _add_minutes time_str a = Ok t →
  _add_minutes t b = _add_minutes time_str (a + b).
Proof.
  intros H. unfold _add_minutes in H |- * at 2.
  destruct (split ":" time_str) as [|hs [|ms [|x l]]]; try discriminate H.
  apply bind_Ok in H as (hour & Hh & H).
  apply bind_Ok in H as (minute & Hm & H). injection H as <-.
  rewrite add_minutes_canonical, Hh, exc_bind_Ok, Hm, exc_bind_Ok.
  replace ((hour * 60 + minute + a) / 60 * 60 + (hour * 60 + minute + a) mod 60 + b)
    with (hour * 60 + minute + (a + b)); [reflexivity|].
  pose proof (Z.div_mod (hour * 60 + minute + a) 60 ltac:(lia)). lia.
Qed.

Lemma add_minutes_compose_witness :
  _add_minutes "23:45" 30 = Ok "24:15"
  ∧ _add_minutes "24:15" 30 = _add_minutes "23:45" 60.
Proof.
  split; [reflexivity|].
  apply (add_minutes_compose "23:45" "24:15" 30 30). reflexivity.
Defined.

Lemma normalizes_12_hour_all :
  forallb (fun sep =>
    forallb (fun p =>
      range_all (fun h => normalizes_hour sep (fst p) (snd p) h
                          && range_all (normalizes_12_hour sep (fst p) (snd p) h) 0 60)
        1 12)
      periods)
    [""; " "] = true.
Proof. vm_compute. reflexivity. Qed.

(** X13.  On a time of the 12-hour clock, written with or without minutes,
    with or without a blank before the period, and with the period spelled
    [am], [AM], [a.m.] or the like, [_normalize_time] adds 12 to the hours 1
    to 11 of the afternoon and leaves every other hour as it is, 12 included,
    whichever the period; the minutes are kept. *)
Theorem normalize_time_12_hour_clock (h m : Z) (sep period : string) (pm : bool) :
  1 <= h <= 12 → 0 <= m <= 59 → sep ∈ [""; " "] → (period, pm) ∈ periods →
  _normalize_time (str_int h +:+ ":" +:+ fmt02d m +:+ sep +:+ period)
  = Ok (fmt02d (if pm && (h <? 12) then h + 12 else h) +:+ ":" +:+ fmt02d m)
  ∧ _normalize_time (str_int h +:+ sep +:+ period)
    = Ok (fmt02d (if pm && (h <? 12) then h + 12 else h) +:+ ":00").
Proof.
  intros Hh Hm Hsep Hp.
  pose proof normalizes_12_hour_all as H.
  rewrite forallb_forall in H.
  apply list_elem_of_In, H in Hsep. rewrite forallb_forall in Hsep.
  apply list_elem_of_In, Hsep in Hp. cbn [fst snd] in Hp.
  pose proof (range_all_spec _ _ _ Hp h ltac:(lia)) as Hr. cbv beta in Hr.
  apply andb_true_iff in Hr as [H2 Hr].
  pose proof (range_all_spec _ _ _ Hr m ltac:(lia)) as H1.
  split; [exact (is_text_spec _ _ H1) | exact (is_text_spec _ _ H2)].
Qed.

Lemma normalize_time_12_hour_clock_witness :
  _normalize_time "11:05 p.m." = Ok "23:05" ∧ _normalize_time "11 p.m." = Ok "23:00".
Proof.
  apply (normalize_time_12_hour_clock 11 5 " " "p.m." true); [lia | lia | |];
    repeat constructor.
Defined.

Lemma parses_single_time_all :
  range_all (fun h => range_all (parses_single_time h) 0 60) 0 24 = true.
Proof. vm_compute. reflexivity. Qed.

Lemma parse_time_single (h m : Z) :
  0 <= h <= 23 → 0 <= m <= 59 →
  _parse_time (JString (fmt02d h +:+ ":" +:+ fmt02d m))
  = Ok (fmt02d h +:+ ":" +:+ fmt02d m,
        fmt02d ((h * 60 + m + 30) / 60) +:+ ":" +:+ fmt02d ((h * 60 + m + 30) mod 60))
  ∧ _normalize_time (fmt02d h +:+ ":" +:+ fmt02d m) = Ok (fmt02d h +:+ ":" +:+ fmt02d m).
Proof.
  intros Hh Hm.
  pose proof (range_all_spec _ _ _ parses_single_time_all h ltac:(lia)) as Hr.
  pose proof (range_all_spec _ _ _ Hr m ltac:(lia)) as Hb.
  unfold parses_single_time in Hb. apply andb_true_iff in Hb as [H1 H2].
  split; [exact (is_window_spec _ _ _ H1) | exact (is_text_spec _ _ H2)].
Qed.

(** ** A request for a single time *)

Lemma filter_none {A} (p : A → bool) (l : list A) :
  (∀ x, p x = false) → List.filter p l = [].
Proof. intros H. induction l as [|a l IH]; cbn; [reflexivity|]. now rewrite H. Qed.

(** X14.  When the details hold a single time [HH:MM] with the minutes
    below 30, the window [_parse_time] makes of it starts and ends in the
    same hour, no slot passes the filter, and [check] stores every free slot
    of the day, from the first one on. *)
Theorem single_time_does_not_filter
    (w : World) (user_id : pyid) (cs : ConversationState) (date_str : string)
    (duration h m : Z) :
  falsy_id user_id = false →
  0 <= h <= 23 → 0 <= m <= 29 →
  dict_get "time" (extracted_details cs) = Some (JString (fmt02d h +:+ ":" +:+ fmt02d m)) →
  dict_item "date" (extracted_details cs) ≫= _parse_date w = Ok date_str →
  py_int (default (JInt 30) (dict_get "duration" (extracted_details cs))) = Ok duration →
  _parse_time (JString (fmt02d h +:+ ":" +:+ fmt02d m))
  = Ok (fmt02d h +:+ ":" +:+ fmt02d m, fmt02d h +:+ ":" +:+ fmt02d (m + 30))
  ∧ available_slots (check_availability w user_id cs)
    = get_available_slots w user_id date_str duration
  ∧ current_slot_index (check_availability w user_id cs) = 0%nat.
Proof.
  intros Hid Hh Hm Htime Hdate Hdur.
  destruct (parse_time_single h m ltac:(lia) ltac:(lia)) as [Hp _].
  replace ((h * 60 + m + 30) / 60) with h in Hp
    by (apply Z.div_unique with (r := m + 30); lia).
  replace ((h * 60 + m + 30) mod 60) with (m + 30) in Hp
    by (apply Z.mod_unique with (q := h); lia).
  split; [exact Hp|].
  rewrite (check_availability_filter w user_id cs date_str
             (fmt02d h +:+ ":" +:+ fmt02d m) (fmt02d h +:+ ":" +:+ fmt02d (m + 30))
             duration h h slot_hour).
  - cbn [available_slots current_slot_index]. split; [|reflexivity].
    rewrite filter_none; [reflexivity|].
    intros s. apply andb_false_iff.
    destruct (Z.leb_spec h (slot_hour s)); [right | left; reflexivity].
    apply Z.ltb_ge. assumption.
  - exact Hid.
  - intros E. rewrite E in Htime. discriminate Htime.
  - exact Hdate.
  - unfold dict_item. rewrite Htime. cbn [of_option]. rewrite exc_bind_Ok. exact Hp.
  - exact Hdur.
  - apply window_hour_fmt.
  - apply window_hour_fmt.
  - intros s Hs. destruct (get_available_slots_hours _ _ _ _ _ Hs) as [x Hx].
    unfold slot_hour. now rewrite Hx.
Qed.

(** The request for tomorrow at 10am: the whole day's free slots are stored,
    the first of them at 09:00. *)
Lemma single_time_does_not_filter_witness :
  let cs := requested_conversation in
  dict_get "time" (extracted_details cs) = Some (JString "10:00")
  ∧ available_slots (check_availability quiet_world (Some "u") cs)
    = get_available_slots quiet_world (Some "u") "2024-01-03" 30
  ∧ head (available_slots (check_availability quiet_world (Some "u") cs))
    = Some nine_o_clock.
Proof.
  cbv zeta.
  destruct (single_time_does_not_filter quiet_world (Some "u")
              requested_conversation
              "2024-01-03" 30 10 0) as (_ & H & _).
  - reflexivity.
  - lia.
  - lia.
  - vm_compute. reflexivity.
  - vm_compute. reflexivity.
  - vm_compute. reflexivity.
  - split; [vm_compute; reflexivity|]. split; [exact H|].
    rewrite H. vm_compute. reflexivity.
Defined.

(** ** Dates and their ordinals *)

Lemma month_day_all (leapyear : bool) : range_all (month_day_ok leapyear) 0 365 = true.
Proof. destruct leapyear; vm_compute; reflexivity. Qed.

Lemma year_all : range_all year_ok 1 400 = true.
Proof. vm_compute. reflexivity. Qed.

Lemma ord2ymd_parts (n : Z) :
  let n400 := (n - 1) / Datetime.DI400Y in
  let r := (n - 1) mod Datetime.DI400Y in
  let n100 := r / Datetime.DI100Y in
  let r1 := r mod Datetime.DI100Y in
  let n4 := r1 / Datetime.DI4Y in
  let r2 := r1 mod Datetime.DI4Y in
  let n1 := r2 / 365 in
  let year := n400 * 400 + 1 + n100 * 100 + n4 * 4 + n1 in
  let leapyear := (n1 =? 3) && (negb (n4 =? 24) || (n100 =? 3)) in
  Datetime.ord2ymd n
  = if (n1 =? 4) || (n100 =? 4) then (year - 1, 12, 31)
    else (year, fst (month_day leapyear (r2 mod 365)),
          snd (month_day leapyear (r2 mod 365))).
Proof.
  cbv zeta. unfold Datetime.ord2ymd, month_day. cbv zeta.
  repeat match goal with |- context [if ?b then _ else _] => destruct b end;
    reflexivity.
Qed.

Lemma days_in_month_leap (y m : Z) :
  Datetime.days_in_month y m
  = if m =? 2 then (if Datetime.is_leap y then 29 else 28)
    else if (m =? 4) || (m =? 6) || (m =? 9) || (m =? 11) then 30 else 31.
Proof. reflexivity. Qed.

(** The days of the first 400 years. *)
Lemma ord2ymd_first_cycle (r : Z) :
  0 <= r < 146097 →
  ∃ y m d,
    Datetime.ord2ymd (r + 1) = (y, m, d)
    ∧ Datetime.ymd2ord y m d = r + 1
    ∧ 1 <= y <= 400 ∧ 1 <= m <= 12 ∧ 1 <= d <= Datetime.days_in_month y m
    ∧ (Datetime.ymd2ord 1000 1 1 - 2 * Datetime.DI400Y <= r + 1 → 200 <= y)
    ∧ (r + 1 <= Datetime.MAXORDINAL - 24 * Datetime.DI400Y → y <= 399).
Proof.
  intros Hr.
  pose proof (ord2ymd_parts (r + 1)) as Hp. cbv zeta in Hp.
  replace (r + 1 - 1) with r in Hp by lia.
  change Datetime.DI400Y with 146097 in Hp.
  change Datetime.DI100Y with 36524 in Hp.
  change Datetime.DI4Y with 1461 in Hp.
  rewrite (Z.div_small r 146097), (Z.mod_small r 146097) in Hp by lia.
  set (b := r / 36524) in *.
  set (r1 := r mod 36524) in *.
  set (c := r1 / 1461) in *.
  set (r2 := r1 mod 1461) in *.
  set (e := r2 / 365) in *.
  set (doy := r2 mod 365) in *.
  assert (Hb : r = 36524 * b + r1 ∧ 0 <= r1 < 36524)
    by (split; [apply Z.div_mod; lia | apply Z.mod_pos_bound; lia]).
  assert (Hc : r1 = 1461 * c + r2 ∧ 0 <= r2 < 1461)
    by (split; [apply Z.div_mod; lia | apply Z.mod_pos_bound; lia]).
  assert (He : r2 = 365 * e + doy ∧ 0 <= doy < 365)
    by (split; [apply Z.div_mod; lia | apply Z.mod_pos_bound; lia]).
  assert (Hb0 : 0 <= b) by (apply Z.div_pos; lia).
  assert (Hc0 : 0 <= c) by (apply Z.div_pos; lia).
  assert (He0 : 0 <= e) by (apply Z.div_pos; lia).
  clearbody b r1 c r2 e doy.
  destruct Hb as [Hb Hr1], Hc as [Hc Hr2], He as [He Hdoy].
  assert (Hb4 : b <= 4) by lia.
  assert (Hc24 : c <= 24) by lia.
  assert (He4 : e <= 4) by lia.
  destruct (Z.eq_dec b 4) as [-> | Hb'].
  { (* the last day of the 400 years *)
    assert (r1 = 0 ∧ c = 0 ∧ e = 0) as (-> & -> & ->) by lia.
    assert (r = 146096) as -> by lia.
    exists 400, 12, 31. split; [exact Hp|].
    split; [reflexivity|]. change (Datetime.days_in_month 400 12) with 31.
    change (Datetime.ymd2ord 1000 1 1 - 2 * Datetime.DI400Y) with 72684.
    change (Datetime.MAXORDINAL - 24 * Datetime.DI400Y) with 145731.
    lia. }
  destruct ((e =? 4) || (b =? 4)) eqn:Hlast.
  - (* the last day of four years *)
    apply orb_true_iff in Hlast. rewrite !Z.eqb_eq in Hlast.
    assert (e = 4) as -> by lia. clear Hlast.
    assert (doy = 0) by lia. subst doy.
    assert (Hc23 : c <= 23) by lia.
    assert (Hy : 1 <= 0 * 400 + 1 + b * 100 + c * 4 + 4 - 1 <= 400) by lia.
    pose proof (range_all_spec _ _ _ year_all
                  (0 * 400 + 1 + b * 100 + c * 4 + 4 - 1) ltac:(lia)) as Hyear.
    unfold year_ok in Hyear. cbv zeta in Hyear.
    set (y := 0 * 400 + 1 + b * 100 + c * 4 + 4 - 1) in *.
    apply andb_true_iff in Hyear as [Hyear Hhi].
    apply andb_true_iff in Hyear as [Hyear Hlo].
    apply andb_true_iff in Hyear as [Hdby Hleap].
    apply Z.eqb_eq in Hdby. apply Bool.eqb_prop in Hleap.
    apply orb_true_iff in Hlo, Hhi.
    rewrite Z.leb_le, Z.ltb_lt in Hlo. rewrite !Z.leb_le in Hhi.
    change (Datetime.ymd2ord 1000 1 1 - 2 * Datetime.DI400Y) with 72684 in *.
    change (Datetime.MAXORDINAL - 24 * Datetime.DI400Y) with 145731 in *.
    replace ((y - 1) / 100) with b in Hdby, Hleap
      by (apply Z.div_unique with (r := 4 * c + 3); subst y; lia).
    replace ((y - 1) mod 100) with (4 * c + 3) in Hdby, Hleap
      by (apply Z.mod_unique with (q := b); subst y; lia).
    replace ((4 * c + 3) / 4) with c in Hdby, Hleap
      by (apply Z.div_unique with (r := 3); lia).
    replace ((y - 1) mod 4) with 3 in Hdby, Hleap
      by (apply Z.mod_unique with (q := 25 * b + c); subst y; lia).
    change (3 =? 3) with true in Hleap.
    replace (c =? 24) with false in Hleap by (symmetry; apply Z.eqb_neq; lia).
    cbn [andb orb negb] in Hleap.
    exists y, 12, 31. split; [exact Hp|].
    unfold Datetime.ymd2ord, Datetime.days_before_month.
    rewrite days_in_month_leap. rewrite Hleap in *. rewrite Hdby in *.
    change (Datetime.DAYS_BEFORE_MONTH 12) with 334.
    change (2 <? 12) with true. change (12 =? 2) with false.
    change (12 =? 4) with false. change (12 =? 6) with false.
    change (12 =? 9) with false. change (12 =? 11) with false.
    cbn [andb orb].
    repeat split; try lia.
  - apply orb_false_iff in Hlast as [He' _].
    apply Z.eqb_neq in He'.
    assert (Hy : 1 <= 0 * 400 + 1 + b * 100 + c * 4 + e <= 400) by lia.
    pose proof (range_all_spec _ _ _ year_all
                  (0 * 400 + 1 + b * 100 + c * 4 + e) ltac:(lia)) as Hyear.
    unfold year_ok in Hyear. cbv zeta in Hyear.
    set (y := 0 * 400 + 1 + b * 100 + c * 4 + e) in *.
    apply andb_true_iff in Hyear as [Hyear Hhi].
    apply andb_true_iff in Hyear as [Hyear Hlo].
    apply andb_true_iff in Hyear as [Hdby Hleap].
    apply Z.eqb_eq in Hdby. apply Bool.eqb_prop in Hleap.
    apply orb_true_iff in Hlo, Hhi.
    rewrite Z.leb_le, Z.ltb_lt in Hlo. rewrite !Z.leb_le in Hhi.
    change (Datetime.ymd2ord 1000 1 1 - 2 * Datetime.DI400Y) with 72684 in *.
    change (Datetime.MAXORDINAL - 24 * Datetime.DI400Y) with 145731 in *.
    replace ((y - 1) / 100) with b in Hdby, Hleap
      by (apply Z.div_unique with (r := 4 * c + e); subst y; lia).
    replace ((y - 1) mod 100) with (4 * c + e) in Hdby, Hleap
      by (apply Z.mod_unique with (q := b); subst y; lia).
    replace ((4 * c + e) / 4) with c in Hdby, Hleap
      by (apply Z.div_unique with (r := e); lia).
    replace ((y - 1) mod 4) with e in Hdby, Hleap
      by (apply Z.mod_unique with (q := 25 * b + c); subst y; lia).
    set (leapyear := (e =? 3) && (negb (c =? 24) || (b =? 3))) in *.
    pose proof (range_all_spec _ _ _ (month_day_all leapyear) doy ltac:(lia)) as Hmd.
    unfold month_day_ok in Hmd.
    destruct (month_day leapyear doy) as [m d].
    repeat (apply andb_true_iff in Hmd as [Hmd ?]).
    repeat match goal with
           | H : (_ <=? _) = true |- _ => apply Z.leb_le in H
           | H : (_ =? _) = true |- _ => apply Z.eqb_eq in H
           end.
    exists y, m, d. split; [exact Hp|].
    unfold Datetime.ymd2ord, Datetime.days_before_month.
    rewrite days_in_month_leap. rewrite Hleap in *. rewrite Hdby in *.
    repeat split; try lia.
    all: destruct leapyear; lia.
Qed.

Lemma is_leap_400 (y q : Z) : Datetime.is_leap (y + 400 * q) = Datetime.is_leap y.
Proof.
  unfold Datetime.is_leap.
  replace ((y + 400 * q) mod 4) with (y mod 4)
    by (replace (y + 400 * q) with (y + (100 * q) * 4) by lia; now rewrite Z_mod_plus_full).
  replace ((y + 400 * q) mod 100) with (y mod 100)
    by (replace (y + 400 * q) with (y + (4 * q) * 100) by lia; now rewrite Z_mod_plus_full).
  replace ((y + 400 * q) mod 400) with (y mod 400)
    by (replace (y + 400 * q) with (y + q * 400) by lia; now rewrite Z_mod_plus_full).
  reflexivity.
Qed.

Lemma days_in_month_400 (y q m : Z) :
  Datetime.days_in_month (y + 400 * q) m = Datetime.days_in_month y m.
Proof. unfold Datetime.days_in_month. now rewrite is_leap_400. Qed.

Lemma ymd2ord_400 (y q m d : Z) :
  Datetime.ymd2ord (y + 400 * q) m d = Datetime.ymd2ord y m d + Datetime.DI400Y * q.
Proof.
  unfold Datetime.ymd2ord, Datetime.days_before_month, Datetime.days_before_year,
    Datetime.DI400Y.
  rewrite is_leap_400. cbv zeta.
  replace (y + 400 * q - 1) with (y - 1 + 400 * q) by lia.
  replace ((y - 1 + 400 * q) / 4) with ((y - 1) / 4 + 100 * q)
    by (replace (y - 1 + 400 * q) with (y - 1 + (100 * q) * 4) by lia;
        now rewrite Z.div_add by lia).
  replace ((y - 1 + 400 * q) / 100) with ((y - 1) / 100 + 4 * q)
    by (replace (y - 1 + 400 * q) with (y - 1 + (4 * q) * 100) by lia;
        now rewrite Z.div_add by lia).
  replace ((y - 1 + 400 * q) / 400) with ((y - 1) / 400 + q)
    by (replace (y - 1 + 400 * q) with (y - 1 + q * 400) by lia;
        now rewrite Z.div_add by lia).
  lia.
Qed.

Lemma ord2ymd_400 (n q r : Z) :
  n - 1 = Datetime.DI400Y * q + r → 0 <= r < Datetime.DI400Y →
  Datetime.ord2ymd n
  = let '(y, m, d) := Datetime.ord2ymd (r + 1) in (y + 400 * q, m, d).
Proof.
  intros Hn Hr. unfold Datetime.ord2ymd. cbv zeta.
  replace (r + 1 - 1) with r by lia.
  rewrite Hn.
  replace ((Datetime.DI400Y * q + r) / Datetime.DI400Y) with q
    by (apply Z.div_unique with (r := r); lia).
  replace ((Datetime.DI400Y * q + r) mod Datetime.DI400Y) with r
    by (apply Z.mod_unique with (q := q); lia).
  rewrite (Z.div_small r Datetime.DI400Y) by lia.
  rewrite (Z.mod_small r Datetime.DI400Y) by lia.
  repeat match goal with |- context [if ?b then _ else _] => destruct b end;
    f_equal; try f_equal; lia.
Qed.

(** [ord2ymd] gives a date of the calendar, and [ymd2ord] leads back. *)
Lemma ord2ymd_civil (n : Z) :
  1 <= n →
  ∃ y m d,
    Datetime.ord2ymd n = (y, m, d)
    ∧ Datetime.ymd2ord y m d = n
    ∧ 1 <= y ∧ 1 <= m <= 12 ∧ 1 <= d <= Datetime.days_in_month y m
    ∧ (Datetime.ymd2ord 1000 1 1 <= n → 1000 <= y)
    ∧ (n <= Datetime.MAXORDINAL → y <= 9999).
Proof.
  intros Hn.
  set (q := (n - 1) / Datetime.DI400Y).
  set (r := (n - 1) mod Datetime.DI400Y).
  assert (HD : Datetime.DI400Y = 146097) by reflexivity.
  assert (Hqr : n - 1 = Datetime.DI400Y * q + r) by (apply Z.div_mod; discriminate).
  assert (Hr : 0 <= r < Datetime.DI400Y) by (apply Z.mod_pos_bound; reflexivity).
  assert (Hq : 0 <= q) by (apply Z.div_pos; [lia | reflexivity]).
  clearbody q r.
  destruct (ord2ymd_first_cycle r ltac:(rewrite HD in Hr; exact Hr))
    as (y & m & d & Hymd & Hord & Hy & Hm & Hd & Hlo & Hhi).
  rewrite (ord2ymd_400 n q r Hqr Hr), Hymd.
  exists (y + 400 * q), m, d.
  rewrite ymd2ord_400, days_in_month_400, Hord.
  change (Datetime.ymd2ord 1000 1 1) with 364878 in *.
  change Datetime.MAXORDINAL with 3652059 in *.
  rewrite HD in *.
  repeat split; try lia.
Qed.

(** ** Dates and their text *)

Lemma fmt02d_two_digits : range_all (fun v => is_two_digits v (fmt02d v)) 0 100 = true.
Proof. vm_compute. reflexivity. Qed.

Lemma fmt04d_four_digits : range_all (fun v => is_four_digits v (fmt04d v)) 0 10000 = true.
Proof. vm_compute. reflexivity. Qed.

Lemma two_digits_shape (v : Z) (s : string) :
  is_two_digits v s = true →
  ∃ a b, s = String a (String b "") ∧ is_digit a = true ∧ is_digit b = true
         ∧ 10 * digit_val a + digit_val b = v.
Proof.
  destruct s as [|a [|b [|c s]]]; try discriminate. cbn [is_two_digits]. intros H.
  apply andb_true_iff in H as [H Hv]. apply andb_true_iff in H as [Ha Hb].
  apply Z.eqb_eq in Hv. exists a, b. repeat split; assumption.
Qed.

Lemma four_digits_shape (v : Z) (s : string) :
  is_four_digits v s = true →
  ∃ a b c d, s = String a (String b (String c (String d "")))
             ∧ is_digit a = true ∧ is_digit b = true ∧ is_digit c = true
             ∧ is_digit d = true
             ∧ 1000 * digit_val a + 100 * digit_val b + 10 * digit_val c + digit_val d = v.
Proof.
  destruct s as [|a [|b [|c [|d [|x s]]]]]; try discriminate.
  cbn [is_four_digits]. intros H.
  apply andb_true_iff in H as [H Hv]. apply andb_true_iff in H as [H Hd].
  apply andb_true_iff in H as [H Hc]. apply andb_true_iff in H as [Ha Hb].
  apply Z.eqb_eq in Hv.
  exists a, b, c, d. repeat split; assumption.
Qed.

Lemma digit_not_dash (c : ascii) : is_digit c = true → Ascii.eqb "-" c = false.
Proof. destruct c as [[] [] [] [] [] [] [] []]; vm_compute; congruence. Qed.

(** The text of a date of the years 1 to 9999: four digits, two digits and
    two digits, with dashes between. *)
Lemma format_date_shape (n : Z) :
  1 <= n <= Datetime.MAXORDINAL →
  ∃ y m d y1 y2 y3 y4 m1 m2 d1 d2,
    Datetime.ord2ymd n = (y, m, d)
    ∧ Datetime.ymd2ord y m d = n
    ∧ 1 <= y <= 9999 ∧ 1 <= m <= 12 ∧ 1 <= d <= Datetime.days_in_month y m
    ∧ Datetime.format_date n
      = String y1 (String y2 (String y3 (String y4 (String "-"
          (String m1 (String m2 (String "-" (String d1 (String d2 "")))))))))
    ∧ is_digit y1 = true ∧ is_digit y2 = true ∧ is_digit y3 = true ∧ is_digit y4 = true
    ∧ is_digit m1 = true ∧ is_digit m2 = true ∧ is_digit d1 = true ∧ is_digit d2 = true
    ∧ 1000 * digit_val y1 + 100 * digit_val y2 + 10 * digit_val y3 + digit_val y4 = y
    ∧ 10 * digit_val m1 + digit_val m2 = m
    ∧ 10 * digit_val d1 + digit_val d2 = d.
Proof.
  intros [Hlo Hhi].
  destruct (ord2ymd_civil n Hlo) as (y & m & d & Hymd & Hord & Hy & Hm & Hd & _ & Hy').
  specialize (Hy' Hhi).
  assert (Hd31 : d <= 31).
  { pose proof (days_in_month_leap y m) as E.
    repeat match type of E with context [if ?b then _ else _] => destruct b end; lia. }
  pose proof (range_all_spec _ _ _ fmt04d_four_digits y ltac:(lia)) as H4.
  pose proof (range_all_spec _ _ _ fmt02d_two_digits m ltac:(lia)) as H2m.
  pose proof (range_all_spec _ _ _ fmt02d_two_digits d ltac:(lia)) as H2d.
  cbv beta in H4, H2m, H2d.
  apply four_digits_shape in H4 as (y1 & y2 & y3 & y4 & Ey & ? & ? & ? & ? & ?).
  apply two_digits_shape in H2m as (m1 & m2 & Em & ? & ? & ?).
  apply two_digits_shape in H2d as (d1 & d2 & Ed & ? & ? & ?).
  exists y, m, d, y1, y2, y3, y4, m1, m2, d1, d2.
  unfold Datetime.format_date. rewrite Hymd, Ey, Em, Ed.
  repeat split; try assumption; try lia.
Qed.

Lemma digit_is_not_dash (s : string) :
  all_chars is_digit s = true → all_chars (is_not "-") s = true.
Proof.
  apply all_chars_impl. intros c Hc. unfold is_not. now rewrite digit_not_dash.
Qed.

Lemma split_dash3 (a b c : string) :
  all_chars is_digit a = true → all_chars is_digit b = true →
  all_chars is_digit c = true →
  split "-" (a +:+ "-" +:+ b +:+ "-" +:+ c) = [a; b; c].
Proof.
  intros Ha Hb Hc. unfold split.
  change ("-" +:+ b +:+ "-" +:+ c) with (String "-" (b +:+ "-" +:+ c)).
  rewrite split_go_first by now apply digit_is_not_dash.
  change ("-" +:+ c) with (String "-" c).
  rewrite split_go_first by now apply digit_is_not_dash.
  rewrite split_go_no_sep by now apply digit_is_not_dash.
  reflexivity.
Qed.

Lemma fixed_digits_4 (a b c d : ascii) :
  is_digit a = true → is_digit b = true → is_digit c = true → is_digit d = true →
  Datetime.fixed_digits 4 (String a (String b (String c (String d ""))))
  = Some (1000 * digit_val a + 100 * digit_val b + 10 * digit_val c + digit_val d).
Proof.
  intros Ha Hb Hc Hd. unfold Datetime.fixed_digits. cbn [take_digits].
  rewrite Ha, Hb, Hc, Hd. cbn [String.length Nat.eqb andb digits_val].
  f_equal; try lia.
Qed.

Lemma fixed_digits_2 (a b : ascii) :
  is_digit a = true → is_digit b = true →
  Datetime.fixed_digits 2 (String a (String b "")) = Some (10 * digit_val a + digit_val b).
Proof.
  intros Ha Hb. unfold Datetime.fixed_digits. cbn [take_digits].
  rewrite Ha, Hb. cbn [String.length Nat.eqb andb digits_val].
  f_equal; try lia.
Qed.

Lemma strptime_field_2 (lead : bool) (a b : ascii) (lo hi : Z) :
  is_digit a = true → is_digit b = true →
  1 <= 10 * digit_val a + digit_val b <= hi →
  Datetime.strptime_field lead (String a (String b "")) lo hi
  = Some (10 * digit_val a + digit_val b).
Proof.
  intros Ha Hb Hv. unfold Datetime.strptime_field. rewrite Ha, Hb.
  cbn [andb digits_val].
  replace (10 * (10 * 0 + digit_val a) + digit_val b)
    with (10 * digit_val a + digit_val b) by lia.
  replace ((1 <=? 10 * digit_val a + digit_val b) && (10 * digit_val a + digit_val b <=? hi))
    with true by (symmetry; apply andb_true_iff; split; apply Z.leb_le; lia).
  reflexivity.
Qed.

Lemma days_in_month_31 (y m : Z) : Datetime.days_in_month y m <= 31.
Proof.
  rewrite days_in_month_leap.
  repeat match goal with |- context [if ?b then _ else _] => destruct b end; lia.
Qed.

(** [strptime] reads back the date [format_date] writes. *)
Lemma strptime_format_date (n : Z) :
  1 <= n <= Datetime.MAXORDINAL →
  Datetime.strptime_ymd (Datetime.format_date n) = Ok n.
Proof.
  intros Hn.
  destruct (format_date_shape n Hn)
    as (y & m & d & y1 & y2 & y3 & y4 & m1 & m2 & d1 & d2 & Hymd & Hord & Hy & Hm & Hd
        & -> & Hy1 & Hy2 & Hy3 & Hy4 & Hm1 & Hm2 & Hd1 & Hd2 & Ey & Em & Ed).
  pose proof (days_in_month_31 y m) as Hd31.
  unfold Datetime.strptime_ymd.
  change (String y1 (String y2 (String y3 (String y4 (String "-"
            (String m1 (String m2 (String "-" (String d1 (String d2 ""))))))))))
    with (String y1 (String y2 (String y3 (String y4 "")))
          +:+ "-" +:+ String m1 (String m2 "") +:+ "-" +:+ String d1 (String d2 "")).
  rewrite split_dash3
    by (cbn [all_chars]; rewrite ?Hy1, ?Hy2, ?Hy3, ?Hy4, ?Hm1, ?Hm2, ?Hd1, ?Hd2;
        reflexivity).
  rewrite fixed_digits_4, Ey by assumption. cbn [mbind option_bind].
  rewrite (strptime_field_2 false m1 m2 1 12), Em by (assumption || lia).
  cbn [mbind option_bind].
  rewrite (strptime_field_2 true d1 d2 1 31), Ed by (assumption || lia).
  cbn [mbind option_bind].
  replace ((1 <=? y) && (d <=? Datetime.days_in_month y m)) with true
    by (symmetry; apply andb_true_iff; split; apply Z.leb_le; lia).
  cbn [of_option]. now rewrite Hord.
Qed.

(** ** Datetimes and their text *)

Lemma isoformat_parts (dt : Datetime.datetime) :
  Datetime.isoformat dt
  = Datetime.format_date (Datetime.dt_ord dt) +:+ "T"
    +:+ iso_time (Datetime.dt_us dt) (Datetime.dt_tz dt).
Proof. reflexivity. Qed.

Lemma iso_time_all_ist : range_all (iso_time_ok (Some IST)) 0 1440 = true.
Proof. vm_compute. reflexivity. Qed.

Lemma iso_time_all_utc : range_all (iso_time_ok (Some 0)) 0 1440 = true.
Proof. vm_compute. reflexivity. Qed.

Lemma same_offset_eq (a b : option Z) : same_offset a b = true → a = b.
Proof.
  destruct a, b; cbn; try discriminate; try reflexivity.
  intros H. apply Z.eqb_eq in H. now subst.
Qed.

Lemma iso_time_read_back (tz : option Z) (m : Z) :
  iso_time_ok tz m = true →
  ∃ c t, iso_time (m * Datetime.US_PER_MINUTE) tz = String c t
    ∧ (String.length (String c t) <? 2)%nat = false
    ∧ all_chars (is_not "Z") (String c t) = true
    ∧ Datetime.parse_isoformat_time (String c t)
      = Some (m * Datetime.US_PER_MINUTE, tz).
Proof.
  unfold iso_time_ok. cbv zeta.
  destruct (iso_time (m * Datetime.US_PER_MINUTE) tz) as [|c t] eqn:E; [discriminate|].
  intros H. apply andb_true_iff in H as [H Hp]. apply andb_true_iff in H as [Hl Hz].
  exists c, t. split; [reflexivity|].
  split; [apply Nat.ltb_ge; now apply Nat.leb_le in Hl|].
  split; [exact Hz|].
  destruct (Datetime.parse_isoformat_time (String c t)) as [[us tz']|]; [|discriminate].
  apply andb_true_iff in Hp as [Hus Htz].
  apply Z.eqb_eq in Hus. apply same_offset_eq in Htz. now subst.
Qed.

(** The date part of an ISO string is read back. *)
Lemma parse_isoformat_date_format (n : Z) (rest : string) :
  1 <= n <= Datetime.MAXORDINAL →
  Datetime.parse_isoformat_date (take_str 10 (Datetime.format_date n +:+ rest)) = Some n
  ∧ drop_str 10 (Datetime.format_date n +:+ rest) = rest
  ∧ all_chars (is_not "Z") (Datetime.format_date n) = true.
Proof.
  intros Hn.
  destruct (format_date_shape n Hn)
    as (y & m & d & y1 & y2 & y3 & y4 & m1 & m2 & d1 & d2 & Hymd & Hord & Hy & Hm & Hd
        & -> & Hy1 & Hy2 & Hy3 & Hy4 & Hm1 & Hm2 & Hd1 & Hd2 & Ey & Em & Ed).
  rewrite !append_cons. change ("" +:+ rest) with rest.
  split; [|split].
  - cbn [take_str]. unfold Datetime.parse_isoformat_date.
    cbn [take_str drop_str].
    rewrite fixed_digits_4, Ey by assumption.
    rewrite (fixed_digits_2 m1 m2), Em by assumption.
    rewrite (fixed_digits_2 d1 d2), Ed by assumption.
    cbn [mbind option_bind].
    cbn [startswith]. rewrite Ascii.eqb_refl. cbn [andb].
    replace ((1 <=? y) && (1 <=? m) && (m <=? 12) && (1 <=? d)
             && (d <=? Datetime.days_in_month y m)) with true; [now rewrite Hord|].
    symmetry. repeat (apply andb_true_iff; split); apply Z.leb_le; lia.
  - reflexivity.
  - cbn [all_chars].
    assert (Hz : ∀ c, is_digit c = true → is_not "Z" c = true).
    { intros c Hc. destruct c as [[] [] [] [] [] [] [] []];
        vm_compute in Hc |- *; congruence. }
    rewrite (Hz y1), (Hz y2), (Hz y3), (Hz y4), (Hz m1), (Hz m2), (Hz d1), (Hz d2)
      by assumption.
    reflexivity.
Qed.

Lemma replace_go_absent (c : ascii) (new s : string) :
  all_chars (is_not c) s = true → replace_go (String c "") new 0 s = s.
Proof.
  induction s as [|x s IH]; [reflexivity|]. cbn [all_chars]. intros H.
  apply andb_true_iff in H as [Hx Hs]. unfold is_not in Hx. apply negb_true_iff in Hx.
  cbn [replace_go startswith]. rewrite Hx, (IH Hs). reflexivity.
Qed.

(** A datetime on a whole minute with one of the offsets [tz], for which
    the time part is read back, is read back from its ISO string; and the
    string holds no [Z]. *)
Lemma fromisoformat_isoformat (d m : Z) (tz : option Z) :
  1 <= d <= Datetime.MAXORDINAL →
  iso_time_ok tz m = true →
  let dt := {| Datetime.dt_ord := d; Datetime.dt_us := m * Datetime.US_PER_MINUTE;
               Datetime.dt_tz := tz |} in
  Datetime.fromisoformat (Datetime.isoformat dt) = Ok dt
  ∧ replace "Z" "" (Datetime.isoformat dt) = Datetime.isoformat dt.
Proof.
  intros Hd Hm. cbv zeta.
  rewrite isoformat_parts. cbn [Datetime.dt_ord Datetime.dt_us Datetime.dt_tz].
  destruct (iso_time_read_back tz m Hm) as (c & t & -> & Hlen & Hz & Hparse).
  destruct (parse_isoformat_date_format d ("T" +:+ String c t) Hd) as (Hdate & Hdrop & Hdz).
  split.
  - unfold Datetime.fromisoformat. rewrite Hdate, Hdrop.
    cbn [mbind option_bind]. change ("T" +:+ String c t) with (String "T" (String c t)).
    cbv beta iota. rewrite Hlen, Hparse. reflexivity.
  - unfold replace. apply replace_go_absent.
    rewrite all_chars_app, Hdz.
    change (all_chars (is_not "Z") ("T" +:+ String c t))
      with (is_not "Z" "T" && all_chars (is_not "Z") (String c t)).
    rewrite Hz. reflexivity.
Qed.

(** ** The slots of a working day *)

Lemma minute_in_day (m : Z) :
  0 <= m < 1440 →
  (m * Datetime.US_PER_MINUTE) / Datetime.US_PER_DAY = 0
  ∧ (m * Datetime.US_PER_MINUTE) mod Datetime.US_PER_DAY = m * Datetime.US_PER_MINUTE.
Proof.
  intros Hm.
  change Datetime.US_PER_MINUTE with 60000000. change Datetime.US_PER_DAY with 86400000000.
  split; [apply Z.div_small | apply Z.mod_small]; lia.
Qed.

Lemma working_day_format_date (d : Z) :
  1 <= d <= Datetime.MAXORDINAL →
  working_day (Datetime.format_date d) = Ok (ist_minute d 540, ist_minute d 1020).
Proof.
  intros Hd. unfold working_day. rewrite (strptime_format_date d Hd), exc_bind_Ok.
  reflexivity.
Qed.

Lemma add_us_ist_minute (d m n : Z) :
  1 <= d <= Datetime.MAXORDINAL → 0 <= m + n < 1440 →
  Datetime.add_us (ist_minute d m) (n * Datetime.US_PER_MINUTE)
  = Ok (ist_minute d (m + n)).
Proof.
  intros Hd Hm. unfold Datetime.add_us, ist_minute.
  cbn [Datetime.dt_ord Datetime.dt_us Datetime.dt_tz].
  replace (m * Datetime.US_PER_MINUTE + n * Datetime.US_PER_MINUTE)
    with ((m + n) * Datetime.US_PER_MINUTE) by lia.
  destruct (minute_in_day (m + n) Hm) as [-> ->].
  rewrite add_days_in_range by lia. rewrite exc_bind_Ok.
  do 2 f_equal. lia.
Qed.

Lemma instant_ist_minute (d m : Z) :
  Datetime.instant (ist_minute d m)
  = d * Datetime.US_PER_DAY + (m - 330) * Datetime.US_PER_MINUTE.
Proof.
  unfold Datetime.instant, Datetime.utc_us, ist_minute, IST.
  cbn [Datetime.dt_ord Datetime.dt_us Datetime.dt_tz default].
  change Datetime.US_PER_HOUR with 3600000000.
  change Datetime.US_PER_MINUTE with 60000000. unfold id. lia.
Qed.

Lemma le_ist_minute (d a b : Z) :
  Datetime.le (ist_minute d a) (ist_minute d b) = Ok (a <=? b).
Proof.
  unfold Datetime.le, Datetime.utc_us, ist_minute.
  cbn [Datetime.dt_ord Datetime.dt_us Datetime.dt_tz].
  f_equal. change Datetime.US_PER_MINUTE with 60000000.
  destruct (Z.leb_spec a b); [apply Z.leb_le | apply Z.leb_gt]; lia.
Qed.

Lemma astimezone_utc_ist_minute (off d m : Z) :
  1 <= d <= Datetime.MAXORDINAL → 330 <= m < 1440 →
  Datetime.astimezone_utc off (ist_minute d m) = Ok (utc_minute d (m - 330)).
Proof.
  intros Hd Hm. unfold Datetime.astimezone_utc.
  change (default off (Datetime.dt_tz (ist_minute d m))) with IST.
  change (Datetime.utc_us (ist_minute d m) IST) with (Datetime.instant (ist_minute d m)).
  rewrite instant_ist_minute.
  destruct (minute_in_day (m - 330) ltac:(lia)) as [Hq Hr].
  replace ((d * Datetime.US_PER_DAY + (m - 330) * Datetime.US_PER_MINUTE)
           / Datetime.US_PER_DAY) with d
    by (rewrite Z.add_comm, Z.div_add, Hq by discriminate; lia).
  replace ((d * Datetime.US_PER_DAY + (m - 330) * Datetime.US_PER_MINUTE)
           mod Datetime.US_PER_DAY) with ((m - 330) * Datetime.US_PER_MINUTE)
    by (rewrite Z.add_comm, Z_mod_plus_full, Hr; reflexivity).
  rewrite add_days_in_range by lia. reflexivity.
Qed.

Lemma instant_utc_minute (d m : Z) :
  Datetime.instant (utc_minute d (m - 330)) = Datetime.instant (ist_minute d m).
Proof.
  rewrite instant_ist_minute.
  unfold Datetime.instant, Datetime.utc_us, utc_minute.
  cbn [Datetime.dt_ord Datetime.dt_us Datetime.dt_tz default]. unfold id. lia.
Qed.

Lemma candidate_count_spec (duration k : Z) :
  -210 <= duration <= 480 → 0 <= k →
  0 < candidate_count duration
  ∧ (k < candidate_count duration ↔ 540 + 15 * k + duration <= 1020).
Proof.
  intros Hd Hk. unfold candidate_count.
  replace (duration <=? 480) with true by (symmetry; apply Z.leb_le; lia).
  pose proof (Z.div_mod (480 - duration) 15 ltac:(lia)) as E.
  pose proof (Z.mod_pos_bound (480 - duration) 15 ltac:(lia)) as B.
  assert (0 <= (480 - duration) / 15) by (apply Z.div_pos; lia).
  lia.
Qed.

(** The candidates the loop lists, from the [k]-th on. *)
Lemma possible_slots_candidates (fuel : nat) (d duration k : Z) :
  1 <= d <= Datetime.MAXORDINAL → -210 <= duration <= 480 →
  0 <= k <= candidate_count duration →
  candidate_count duration - k < Z.of_nat fuel →
  possible_slots fuel (ist_minute d (540 + 15 * k)) (ist_minute d 1020)
    (duration * Datetime.US_PER_MINUTE)
  = Ok ((fun k => (slot_start (candidate d duration k), slot_end (candidate d duration k)))
          <$> seqZ k (candidate_count duration - k)).
Proof.
  intros Hd Hdur. revert k. induction fuel as [|fuel IH]; intros k Hk Hfuel; [lia|].
  destruct (candidate_count_spec duration k Hdur ltac:(lia)) as [Hpos Hiff].
  pose proof (Z.div_mod (480 - duration) 15 ltac:(lia)) as E.
  pose proof (Z.mod_pos_bound (480 - duration) 15 ltac:(lia)) as B.
  assert (Hn : candidate_count duration = (480 - duration) / 15 + 1).
  { unfold candidate_count.
    now replace (duration <=? 480) with true by (symmetry; apply Z.leb_le; lia). }
  cbn [possible_slots].
  rewrite (add_us_ist_minute d (540 + 15 * k) duration) by lia. rewrite exc_bind_Ok.
  rewrite le_ist_minute, exc_bind_Ok.
  destruct (Z.leb_spec (540 + 15 * k + duration) 1020) as [Hle | Hgt].
  - assert (Hlt : k < candidate_count duration) by (apply Hiff; lia).
    rewrite (add_us_ist_minute d (540 + 15 * k) 15) by lia. rewrite exc_bind_Ok.
    replace (540 + 15 * k + 15) with (540 + 15 * (k + 1)) by lia.
    rewrite IH by lia. rewrite exc_bind_Ok.
    rewrite (seqZ_cons k) by lia. cbn [fmap list_fmap].
    replace (Z.succ k) with (k + 1) by lia.
    replace (Z.pred (candidate_count duration - k))
      with (candidate_count duration - (k + 1)) by lia.
    reflexivity.
  - assert (Hge : ¬ k < candidate_count duration) by (rewrite Hiff; lia).
    rewrite seqZ_nil by lia. reflexivity.
Qed.

Lemma possible_slots_bound_working_day (d duration : Z) :
  -210 <= duration <= 480 →
  candidate_count duration
  < Z.of_nat (possible_slots_bound (ist_minute d 540) (ist_minute d 1020)
                (duration * Datetime.US_PER_MINUTE)).
Proof.
  intros Hdur. unfold possible_slots_bound. rewrite !instant_ist_minute.
  replace (d * Datetime.US_PER_DAY + (1020 - 330) * Datetime.US_PER_MINUTE
           - (d * Datetime.US_PER_DAY + (540 - 330) * Datetime.US_PER_MINUTE)
           - duration * Datetime.US_PER_MINUTE)
    with ((480 - duration) * Datetime.US_PER_MINUTE) by lia.
  rewrite Z.div_mul_cancel_r by discriminate.
  unfold candidate_count.
  replace (duration <=? 480) with true by (symmetry; apply Z.leb_le; lia).
  assert (0 <= (480 - duration) / 15) by (apply Z.div_pos; lia).
  lia.
Qed.

Lemma le_aware (a b : Datetime.datetime) :
  Datetime.dt_tz a ≠ None → Datetime.dt_tz b ≠ None →
  Datetime.le a b = Ok (Datetime.instant a <=? Datetime.instant b).
Proof.
  unfold Datetime.le, Datetime.instant.
  destruct (Datetime.dt_tz a), (Datetime.dt_tz b); try congruence. reflexivity.
Qed.

(** With a free/busy answer of aware datetimes the inner loop computes
    whether every busy interval leaves the slot free. *)
Lemma is_available_clear (s e : Datetime.datetime) (busy_slots : list Busy) :
  Datetime.dt_tz s ≠ None → Datetime.dt_tz e ≠ None →
  Forall (fun b => aware (busy_start b) ∧ aware (busy_end b)) busy_slots →
  is_available s e busy_slots
  = Ok (forallb
          (fun b =>
             match busy_instant (busy_start b), busy_instant (busy_end b) with
             | Some b_start, Some b_end =>
                 (Datetime.instant e <=? b_start) || (b_end <=? Datetime.instant s)
             | _, _ => false
             end)
          busy_slots).
Proof.
  intros Hs He Hbusy. induction Hbusy as [|b rest [(bs & Hbs & Hbs') (be & Hbe & Hbe')] _ IH].
  - reflexivity.
  - cbn [is_available forallb]. unfold busy_instant.
    rewrite Hbs, Hbe, !exc_bind_Ok.
    rewrite (le_aware e bs) by assumption. rewrite exc_bind_Ok.
    destruct (Datetime.instant e <=? Datetime.instant bs).
    + rewrite exc_bind_Ok. exact IH.
    + unfold Datetime.ge. rewrite (le_aware be s) by assumption. rewrite exc_bind_Ok.
      destruct (Datetime.instant be <=? Datetime.instant s); [exact IH | reflexivity].
Qed.

Lemma iso_time_ist (m : Z) : 0 <= m < 1440 → iso_time_ok (Some IST) m = true.
Proof. intros Hm. apply (range_all_spec _ _ _ iso_time_all_ist). lia. Qed.

Lemma iso_time_utc (m : Z) : 0 <= m < 1440 → iso_time_ok (Some 0) m = true.
Proof. intros Hm. apply (range_all_spec _ _ _ iso_time_all_utc). lia. Qed.

Lemma fromisoformat_ist_minute (d m : Z) :
  1 <= d <= Datetime.MAXORDINAL → 0 <= m < 1440 →
  Datetime.fromisoformat (Datetime.isoformat (ist_minute d m)) = Ok (ist_minute d m)
  ∧ replace "Z" "" (Datetime.isoformat (ist_minute d m))
    = Datetime.isoformat (ist_minute d m).
Proof.
  intros Hd Hm. exact (fromisoformat_isoformat d m (Some IST) Hd (iso_time_ist m Hm)).
Qed.

Lemma available_slots_of_cons (w : World) (busy_slots : list Busy)
    (s_start s_end : string) (rest : list (string * string)) :
  available_slots_of w busy_slots ((s_start, s_end) :: rest)
  = (slot_start ← Datetime.fromisoformat s_start
                    ≫= Datetime.astimezone_utc (system_offset w);
     slot_end ← Datetime.fromisoformat s_end
                  ≫= Datetime.astimezone_utc (system_offset w);
     free ← is_available slot_start slot_end busy_slots;
     this ← (if free : bool then available_slot s_start s_end else Ok []);
     rest' ← available_slots_of w busy_slots rest;
     Ok (this ++ rest')%list).
Proof. reflexivity. Qed.

(** The outer loop on candidates of the working day. *)
Lemma available_slots_of_candidates
    (w : World) (busy_slots : list Busy) (d duration : Z) (ks : list Z) :
  1 <= d <= Datetime.MAXORDINAL → -210 <= duration <= 480 →
  Forall (fun k => 0 <= k < candidate_count duration) ks →
  Forall (fun b => aware (busy_start b) ∧ aware (busy_end b)) busy_slots →
  available_slots_of w busy_slots
    ((fun k => (slot_start (candidate d duration k), slot_end (candidate d duration k)))
       <$> ks)
  = Ok (candidate d duration
          <$> List.filter (fun k => forallb (clear_of d duration k) busy_slots) ks).
Proof.
  intros Hd Hdur Hks Hbusy. induction Hks as [|k ks Hk _ IH]; [reflexivity|].
  destruct (candidate_count_spec duration k Hdur ltac:(lia)) as [_ Hiff].
  assert (Hend : 540 + 15 * k + duration <= 1020) by (apply Hiff; lia).
  rewrite fmap_cons, available_slots_of_cons, IH.
  cbn [candidate slot_start slot_end List.filter].
  destruct (fromisoformat_ist_minute d (540 + 15 * k) Hd ltac:(lia)) as [Hs _].
  destruct (fromisoformat_ist_minute d (540 + 15 * k + duration) Hd ltac:(lia)) as [He _].
  rewrite Hs, He, !exc_bind_Ok.
  rewrite !astimezone_utc_ist_minute by lia. rewrite !exc_bind_Ok.
  assert (Ha : is_available (utc_minute d (540 + 15 * k - 330))
                 (utc_minute d (540 + 15 * k + duration - 330)) busy_slots
               = Ok (forallb (clear_of d duration k) busy_slots)).
  { rewrite is_available_clear by (assumption || discriminate).
    rewrite !instant_utc_minute. reflexivity. }
  rewrite Ha, exc_bind_Ok.
  destruct (forallb (clear_of d duration k) busy_slots).
  - unfold available_slot. rewrite Hs, !exc_bind_Ok. reflexivity.
  - rewrite !exc_bind_Ok. reflexivity.
Qed.

Lemma add_us_tz (dt dt' : Datetime.datetime) (us : Z) :
  Datetime.add_us dt us = Ok dt' → Datetime.dt_tz dt' = Datetime.dt_tz dt.
Proof.
  unfold Datetime.add_us. intros H.
  apply bind_Ok in H as (x & _ & H). now injection H as <-.
Qed.

(** A duration that does not fit into the working day: no candidate. *)
Lemma possible_slots_too_long (fuel : nat) (d : Z) (us : Z) (l : list (string * string)) :
  480 * Datetime.US_PER_MINUTE < us →
  possible_slots fuel (ist_minute d 540) (ist_minute d 1020) us = Ok l → l = [].
Proof.
  intros Hus. destruct fuel as [|fuel]; [discriminate|].
  cbn [possible_slots]. intros H.
  apply bind_Ok in H as (slot_end & Hend & H).
  apply bind_Ok in H as (continue & Hle & H).
  rewrite le_aware in Hle
    by (rewrite ?(add_us_tz _ _ _ Hend); discriminate).
  apply add_us_instant in Hend. rewrite Hend, !instant_ist_minute in Hle.
  injection Hle as <-.
  replace (_ <=? _) with false in H; [now injection H as <-|].
  symmetry. apply Z.leb_gt.
  change Datetime.US_PER_MINUTE with 60000000 in *. lia.
Qed.

Lemma query_busy_working_day (w : World) (d : Z) :
  1 <= d <= Datetime.MAXORDINAL →
  query_busy w (ist_minute d 540) (ist_minute d 1020)
  = freebusy_query w (Datetime.isoformat (utc_minute d 210))
      (Datetime.isoformat (utc_minute d 690)).
Proof.
  intros Hd. unfold query_busy.
  rewrite !astimezone_utc_ist_minute by lia. reflexivity.
Qed.

(** The slots of a day are the candidates that every busy interval leaves
    free. *)
Lemma get_available_slots_filter
    (w : World) (user_id : pyid) (d duration : Z) (busy_slots : list Busy) :
  _get_credentials w user_id = true →
  1 <= d <= Datetime.MAXORDINAL → -210 <= duration →
  freebusy_query w (Datetime.isoformat (utc_minute d 210))
    (Datetime.isoformat (utc_minute d 690)) = Ok busy_slots →
  Forall (fun b => aware (busy_start b) ∧ aware (busy_end b)) busy_slots →
  get_available_slots w user_id (Datetime.format_date d) duration
  = candidate d duration
      <$> List.filter (fun k => forallb (clear_of d duration k) busy_slots)
            (seqZ 0 (candidate_count duration)).
Proof.
  intros Hcreds Hd Hdur Hquery Hbusy.
  unfold get_available_slots. rewrite Hcreds. cbn [negb].
  unfold get_available_slots_body.
  rewrite (working_day_format_date d Hd), exc_bind_Ok.
  rewrite (query_busy_working_day w d Hd), Hquery, exc_bind_Ok.
  destruct (Z_le_gt_dec duration 480) as [Hle | Hgt].
  - assert (Htd : timedelta_minutes duration = Ok (duration * Datetime.US_PER_MINUTE)).
    { unfold timedelta_minutes. cbv zeta.
      replace (_ && _) with true; [reflexivity|].
      symmetry. apply andb_true_iff.
      change Datetime.US_PER_MINUTE with 60000000.
      change Datetime.US_PER_DAY with 86400000000.
      split; [apply Z.leb_le | apply Z.ltb_lt]; lia. }
    rewrite Htd, exc_bind_Ok.
    destruct (candidate_count_spec duration 0 ltac:(lia) ltac:(lia)) as [Hpos _].
    pose proof (possible_slots_candidates
                  (possible_slots_bound (ist_minute d 540) (ist_minute d 1020)
                     (duration * Datetime.US_PER_MINUTE))
                  d duration 0 Hd ltac:(lia) ltac:(lia)) as Hposs.
    replace (540 + 15 * 0) with 540 in Hposs by lia.
    replace (candidate_count duration - 0) with (candidate_count duration) in Hposs by lia.
    rewrite Hposs by (pose proof (possible_slots_bound_working_day d duration); lia).
    rewrite exc_bind_Ok.
    rewrite (available_slots_of_candidates w busy_slots d duration) by
      (try assumption; try lia;
       apply Forall_forall; intros k Hk; apply elem_of_seqZ in Hk; lia).
    reflexivity.
  - assert (Hnone : candidate_count duration = 0).
    { unfold candidate_count.
      now replace (duration <=? 480) with false by (symmetry; apply Z.leb_gt; lia). }
    rewrite Hnone, seqZ_nil by lia. cbn [List.filter fmap list_fmap].
    destruct (timedelta_minutes duration) as [us|e] eqn:Htd; [|reflexivity].
    rewrite exc_bind_Ok.
    assert (Hus : 480 * Datetime.US_PER_MINUTE < us).
    { unfold timedelta_minutes in Htd. cbv zeta in Htd.
      destruct (_ && _); [|discriminate Htd]. injection Htd as <-.
      change Datetime.US_PER_MINUTE with 60000000. lia. }
    destruct (possible_slots _ _ _ us) as [l|e] eqn:Hposs; [|reflexivity].
    apply possible_slots_too_long in Hposs; [|exact Hus]. subst l. reflexivity.
Qed.

Lemma ist_day_range (d : Z) :
  ist_day d → 1 <= d <= Datetime.MAXORDINAL ∧ four_digit_year d.
Proof.
  unfold ist_day, four_digit_year, Datetime.MAXORDINAL.
  change (Datetime.ymd2ord 1946 1 1) with 710397.
  change (Datetime.ymd2ord 1000 1 1) with 364878. lia.
Qed.

(** X15.  For a user with credentials, a day of the years from 1946 on
    that is not the last of the calendar, when the zone is at UTC+05:30, a
    duration that is not negative and a free/busy answer whose strings are
    read as aware datetimes, [get_available_slots] returns, in order,
    exactly the candidates that every busy interval leaves free: the
    candidates start every 15 minutes from 09:00 Asia/Kolkata and end by
    17:00, so there are [(480 - duration) / 15 + 1] of them, and none when
    the duration exceeds 480 minutes.  The query asks for 03:30 to 11:30 UTC
    of that day. *)
Theorem get_available_slots_exact
    (w : World) (user_id : pyid) (d duration : Z) (busy_slots : list Busy) :
  _get_credentials w user_id = true →
  ist_day d → 0 <= duration →
  freebusy_query w (Datetime.isoformat (utc_minute d 210))
    (Datetime.isoformat (utc_minute d 690)) = Ok busy_slots →
  Forall (fun b => aware (busy_start b) ∧ aware (busy_end b)) busy_slots →
  get_available_slots w user_id (Datetime.format_date d) duration
  = candidate d duration
      <$> List.filter (fun k => forallb (clear_of d duration k) busy_slots)
            (seqZ 0 (candidate_count duration)).
Proof.
  intros Hcreds Hd Hdur Hquery Hbusy.
  apply get_available_slots_filter; try assumption; [|lia].
  now apply ist_day_range.
Qed.

Lemma get_available_slots_exact_witness :
  get_available_slots quiet_world (Some "u") "2024-01-03" 30
  = candidate 738888 30
      <$> List.filter
            (fun k => forallb (clear_of 738888 30 k)
                        [{| busy_start := "2024-01-03T10:00:00+05:30";
                            busy_end := "2024-01-03T10:30:00+05:30" |}])
            (seqZ 0 31)
  ∧ length (get_available_slots quiet_world (Some "u") "2024-01-03" 30) = 28%nat.
Proof.
  pose proof (get_available_slots_exact quiet_world (Some "u") 738888 30
                [{| busy_start := "2024-01-03T10:00:00+05:30";
                    busy_end := "2024-01-03T10:30:00+05:30" |}]) as H.
  change (Datetime.format_date 738888) with "2024-01-03" in H.
  change (candidate_count 30) with 31 in H.
  split.
  - apply H.
    + reflexivity.
    + vm_compute. split; [discriminate | reflexivity].
    + lia.
    + reflexivity.
    + repeat constructor; eexists; (split; [vm_compute; reflexivity | discriminate]).
  - vm_compute. reflexivity.
Defined.

(** ** How a slot is shown and booked *)

(** X16.  [_format_datetime] shows a start or end of a slot of the
    calendar service with the date and the clock time that the string itself
    holds, the time of Asia/Kolkata. *)
Theorem format_datetime_of_slot (d m : Z) :
  1 <= d <= Datetime.MAXORDINAL → 0 <= m < 1440 →
  _format_datetime (Datetime.isoformat (ist_minute d m))
  = Datetime.format_short (ist_minute d m).
Proof.
  intros Hd Hm. unfold _format_datetime.
  destruct (fromisoformat_ist_minute d m Hd Hm) as [Hs Hz].
  now rewrite Hz, Hs.
Qed.

Lemma format_datetime_of_slot_witness :
  _format_datetime (slot_start nine_o_clock) = "Wed Jan 03, 09:00 AM".
Proof.
  change (slot_start nine_o_clock) with (Datetime.isoformat (ist_minute 738888 540)).
  rewrite (format_datetime_of_slot 738888 540).
  - reflexivity.
  - vm_compute. split; discriminate.
  - lia.
Defined.

(** X17.  For a slot of the calendar service that ends on its day,
    [book_appointment] asks for an event whose start and end are the
    instants of the slot, written in UTC, in the time zone Asia/Kolkata, and
    returns the four fields of the created event, or the empty dictionary
    when the calendar raises. *)
Theorem book_appointment_event
    (w : World) (user_id : pyid) (d duration k : Z) (summary : json) :
  _get_credentials w user_id = true →
  1 <= d <= Datetime.MAXORDINAL → 0 <= k → 0 <= duration →
  540 + 15 * k + duration < 1440 →
  let event :=
    {| event_summary := summary;
       event_start := Datetime.isoformat (utc_minute d (210 + 15 * k));
       event_end := Datetime.isoformat (utc_minute d (210 + 15 * k + duration));
       event_timeZone := "Asia/Kolkata" |} in
  book_appointment w user_id (slot_start (candidate d duration k))
    (slot_end (candidate d duration k)) summary
  = match events_insert w event with
    | Ok r =>
        <["id" := result_id r]>
        (<["htmlLink" := result_htmlLink r]>
         (<["start" := result_start r]> (<["end" := result_end r]> ∅)))
    | Raise _ => ∅
    end
  ∧ Datetime.instant (utc_minute d (210 + 15 * k))
    = Datetime.instant (ist_minute d (540 + 15 * k))
  ∧ Datetime.instant (utc_minute d (210 + 15 * k + duration))
    = Datetime.instant (ist_minute d (540 + 15 * k + duration)).
Proof.
  intros Hcreds Hd Hk Hdur Hend. cbv zeta.
  split; [|split].
  - unfold book_appointment. rewrite Hcreds. cbn [negb candidate slot_start slot_end].
    destruct (fromisoformat_ist_minute d (540 + 15 * k) Hd ltac:(lia)) as [Hs Hsz].
    destruct (fromisoformat_ist_minute d (540 + 15 * k + duration) Hd ltac:(lia))
      as [He Hez].
    rewrite Hsz, Hez, Hs, He, !exc_bind_Ok.
    rewrite !astimezone_utc_ist_minute by lia. rewrite !exc_bind_Ok.
    replace (540 + 15 * k - 330) with (210 + 15 * k) by lia.
    replace (540 + 15 * k + duration - 330) with (210 + 15 * k + duration) by lia.
    reflexivity.
  - rewrite <- instant_utc_minute. f_equal. f_equal. lia.
  - rewrite <- instant_utc_minute. f_equal. f_equal. lia.
Qed.

Lemma book_appointment_event_witness :
  book_appointment quiet_world (Some "u") (slot_start nine_o_clock)
    (slot_end nine_o_clock) (JString "Meeting") !! "start"
  = Some "2024-01-03T03:30:00+00:00".
Proof.
  destruct (book_appointment_event quiet_world (Some "u") 738888 30 0 (JString "Meeting"))
    as (H & _ & _).
  - reflexivity.
  - vm_compute. split; discriminate.
  - lia.
  - lia.
  - lia.
  - change (slot_start (candidate 738888 30 0)) with (slot_start nine_o_clock) in H.
    change (slot_end (candidate 738888 30 0)) with (slot_end nine_o_clock) in H.
    rewrite H. vm_compute. reflexivity.
Defined.

(** ** The date the agent hands to the calendar service *)

Lemma relative_keywords_nonneg (s : string) (n : Z) :
  relative_keywords s = Some n → 0 <= n.
Proof.
  unfold relative_keywords.
  repeat match goal with |- context [if ?b then _ else _] => destruct b end;
    intros [= <-]; lia.
Qed.

(** Whatever [_parse_date] returns is the text of a day. *)
Lemma parse_date_is_format_date (w : World) (v : json) (date_str : string) :
  four_digit_year (today w) →
  (∀ s p, dateparser_parse w s = Some p → four_digit_year p) →
  _parse_date w v = Ok date_str →
  ∃ d, four_digit_year d ∧ date_str = Datetime.format_date d.
Proof.
  unfold four_digit_year. change (Datetime.ymd2ord 1000 1 1) with 364878.
  intros Htoday Hparser. unfold _parse_date.
  destruct (negb (truthy v)); [intros [= <-]; eauto|].
  destruct v as [| | | |s| |]; try discriminate.
  unfold parse_date_str.
  destruct (relative_keywords _) as [days|] eqn:Hrel.
  { intros H. apply bind_Ok in H as (t & Ht & H). injection H as <-.
    apply relative_keywords_nonneg in Hrel.
    pose proof (add_days_Ok _ _ _ Ht) as ->.
    unfold Datetime.add_days in Ht.
    destruct (_ && _) eqn:Hr; [|discriminate Ht].
    apply andb_true_iff in Hr as [_ Hr]. apply Z.leb_le in Hr.
    exists (today w + days). split; [lia | reflexivity]. }
  destruct (find_weekday_phrase _ _) as [[prefix idx]|].
  { intros H. apply bind_Ok in H as (t & Ht & H). injection H as <-.
    pose proof (days_ahead_range prefix idx (Datetime.weekday (today w))) as Hrange.
    pose proof (add_days_Ok _ _ _ Ht) as ->.
    unfold Datetime.add_days in Ht.
    destruct (_ && _) eqn:Hr; [|discriminate Ht].
    apply andb_true_iff in Hr as [_ Hr]. apply Z.leb_le in Hr.
    eexists. split; [|reflexivity]. lia. }
  destruct (dateparser_parse w _) as [p|] eqn:Hp; [|discriminate].
  intros [= <-]. exists p. split; [|reflexivity].
  apply Hparser in Hp. exact Hp.
Qed.

(** X18.  With today and the dates of [dateparser] in the years 1000 to
    9999, whatever [_parse_date] returns is the text of a day of those
    years, and [strptime] reads it back as that day; when the day is of the
    years from 1946 on and not the last of the calendar, the calendar
    service gets the working day 09:00 to 17:00 of that day at
    UTC+05:30. *)
Theorem parsed_date_is_read_back (w : World) (v : json) (date_str : string) :
  four_digit_year (today w) →
  (∀ s p, dateparser_parse w s = Some p → four_digit_year p) →
  _parse_date w v = Ok date_str →
  ∃ d, four_digit_year d
       ∧ date_str = Datetime.format_date d
       ∧ Datetime.strptime_ymd date_str = Ok d
       ∧ (ist_day d →
          working_day date_str = Ok (ist_minute d 540, ist_minute d 1020)).
Proof.
  intros Htoday Hparser H.
  destruct (parse_date_is_format_date w v date_str Htoday Hparser H) as (d & Hd & ->).
  assert (Hd' : 1 <= d <= Datetime.MAXORDINAL).
  { unfold four_digit_year in Hd. change (Datetime.ymd2ord 1000 1 1) with 364878 in Hd.
    lia. }
  exists d. split; [exact Hd|]. split; [reflexivity|].
  split; [now apply strptime_format_date | intros _; now apply working_day_format_date].
Qed.

Lemma parsed_date_is_read_back_witness :
  _parse_date quiet_world (JString " Day after Tomorrow ")
  = Ok (Datetime.format_date 738889)
  ∧ ist_day 738889
  ∧ working_day (Datetime.format_date 738889)
    = Ok (ist_minute 738889 540, ist_minute 738889 1020).
Proof.
  destruct (parsed_date_is_read_back quiet_world (JString " Day after Tomorrow ")
              "2024-01-04") as (d & _ & E & Hs & H).
  - vm_compute. split; discriminate.
  - intros s p. discriminate.
  - vm_compute. reflexivity.
  - assert (d = 738889) as ->.
    { change (Datetime.strptime_ymd "2024-01-04") with (Ok 738889 : Exc Z) in Hs.
      now injection Hs as <-. }
    assert (Hday : ist_day 738889) by (vm_compute; split; [discriminate | reflexivity]).
    split; [vm_compute; reflexivity|]. split; [exact Hday|].
    rewrite <- E. exact (H Hday).
Defined.

(** X19.  With today and the dates of [dateparser] in the years 1000 to
    9999, [generate_inquiry_response] apologises exactly when [_parse_date]
    raises or [str] refuses the duration or the purpose of the details, as
    it does an integer of more than 4300 digits; in every other case the
    reply names the day [_parse_date] returned, with the duration and the
    purpose. *)
Theorem inquiry_confirms_understood_date (w : World) (cs : ConversationState) :
  four_digit_year (today w) →
  (∀ s p, dateparser_parse w s = Some p → four_digit_year p) →
  let details := extracted_details cs in
  match _parse_date w (default (JString "") (dict_get "date" details)),
        py_str w (default (JInt 30) (dict_get "duration" details)),
        py_str w (default (JString "meeting") (dict_get "purpose" details))
  with
  | Ok date_str, Ok duration, Ok purpose =>
      ∃ d, four_digit_year d
        ∧ date_str = Datetime.format_date d
        ∧ generate_inquiry_response w cs
          = append_message
              (AIMessage
                 ("Yes, I can check availability for " +:+ Datetime.format_long_date d
                  +:+ "." +:+ NL +:+ "Would you like me to find a " +:+ duration
                  +:+ "-minute slot " +:+ "for a " +:+ purpose +:+ "?"))
              cs
  | _, _, _ =>
      generate_inquiry_response w cs
      = append_message
          (AIMessage "Sorry, I couldn't understand the date. Please try again.") cs
  end.
Proof.
  intros Htoday Hparser. cbv zeta. unfold generate_inquiry_response.
  destruct (_parse_date w _) as [date_str|e] eqn:Hp; [|reflexivity].
  destruct (parse_date_is_format_date w _ date_str Htoday Hparser Hp) as (d & Hd & ->).
  assert (Hs : Datetime.strptime_ymd (Datetime.format_date d) = Ok d).
  { apply strptime_format_date. unfold four_digit_year in Hd.
    change (Datetime.ymd2ord 1000 1 1) with 364878 in Hd. lia. }
  rewrite exc_bind_Ok, Hs, exc_bind_Ok.
  destruct (py_str w (default (JInt 30) _)) as [duration|e1]; [|reflexivity].
  rewrite exc_bind_Ok.
  destruct (py_str w (default (JString "meeting") _)) as [purpose|e2]; [|reflexivity].
  exists d. split; [exact Hd|]. split; reflexivity.
Qed.

Lemma inquiry_confirms_understood_date_witness :
  let cs :=
    set_extracted_details
      [("date", JString "tomorrow"); ("time", JString "12:00"); ("duration", JInt 30);
       ("purpose", JString "Meeting")]
      new_conversation in
  _simple_extraction "are you free tomorrow" new_conversation = Ok cs
  ∧ last_ai_message (messages (generate_inquiry_response quiet_world cs))
    = "Yes, I can check availability for Wednesday, January 03." +:+ NL
      +:+ "Would you like me to find a 30-minute slot for a Meeting?".
Proof.
  cbv zeta. split; [vm_compute; reflexivity|].
  pose proof (inquiry_confirms_understood_date quiet_world
                (set_extracted_details
                   [("date", JString "tomorrow"); ("time", JString "12:00");
                    ("duration", JInt 30); ("purpose", JString "Meeting")]
                   new_conversation)) as H.
  cbv zeta in H.
  destruct (_parse_date quiet_world _) as [date_str|e] eqn:Hp;
    [|vm_compute in Hp; discriminate Hp].
  destruct (py_str quiet_world (default (JInt 30) _)) as [duration|e] eqn:Hdu;
    [|vm_compute in Hdu; discriminate Hdu].
  destruct (py_str quiet_world (default (JString "meeting") _)) as [purpose|e] eqn:Hpu;
    [|vm_compute in Hpu; discriminate Hpu].
  destruct H as (d & Hrange & Hd & ->).
  - vm_compute. split; discriminate.
  - intros s p. discriminate.
  - vm_compute in Hp, Hdu, Hpu.
    injection Hp as <-. injection Hdu as <-. injection Hpu as <-.
    assert (d = 738888) as ->.
    { assert (Hd' : 1 <= d <= Datetime.MAXORDINAL).
      { unfold four_digit_year in Hrange.
        change (Datetime.ymd2ord 1000 1 1) with 364878 in Hrange. lia. }
      pose proof (strptime_format_date d Hd') as Hs. rewrite <- Hd in Hs.
      vm_compute in Hs. now injection Hs as <-. }
    vm_compute. reflexivity.
Defined.

(** ** The message the endpoint lets through *)

Lemma replace_char_all (P : ascii → bool) (c : ascii) (new s : string) :
  all_chars P new = true →
  all_chars (fun x => Ascii.eqb c x || P x) s = true →
  all_chars P (replace (String c "") new s) = true.
Proof.
  intros Hnew. unfold replace. induction s as [|x s IH]; [reflexivity|].
  cbn [all_chars replace_go startswith String.length Nat.sub]. intros H.
  apply andb_true_iff in H as [Hx Hs].
  destruct (Ascii.eqb c x).
  - rewrite all_chars_app, Hnew. now apply IH.
  - cbn [all_chars]. cbn [orb] in Hx. rewrite Hx. now apply IH.
Qed.

Lemma all_chars_lstrip (P : ascii → bool) (s : string) :
  all_chars P s = true → all_chars P (lstrip s) = true.
Proof.
  induction s as [|x s IH]; [reflexivity|]. cbn [lstrip]. intros H.
  destruct (is_space x); [|exact H].
  cbn [all_chars] in H. apply andb_true_iff in H as [_ Hs]. now apply IH.
Qed.

Lemma all_chars_strip (P : ascii → bool) (s : string) :
  all_chars P s = true → all_chars P (strip s) = true.
Proof.
  intros H. unfold strip, rstrip.
  rewrite all_chars_rev_str. cbn [all_chars]. rewrite andb_true_r.
  apply all_chars_lstrip. rewrite all_chars_rev_str. cbn [all_chars].
  rewrite andb_true_r. now apply all_chars_lstrip.
Qed.

Lemma lstrip_lstrip (s : string) : lstrip (lstrip s) = lstrip s.
Proof.
  induction s as [|x s IH]; [reflexivity|]. cbn [lstrip].
  destruct (is_space x) eqn:E; [exact IH|]. cbn [lstrip]. now rewrite E.
Qed.

Lemma rev_str_app (acc a b : string) :
  rev_str acc (a +:+ b) = rev_str (rev_str acc a) b.
Proof.
  revert acc. induction a as [|x a IH]; intros acc; [reflexivity|].
  rewrite append_cons. cbn [rev_str]. apply IH.
Qed.

Lemma rev_str_acc (s acc : string) : rev_str acc s = rev_str "" s +:+ acc.
Proof.
  revert acc. induction s as [|x s IH]; intros acc; [reflexivity|].
  cbn [rev_str]. rewrite (IH (String x acc)), (IH (String x "")).
  now rewrite append_assoc.
Qed.

Lemma rev_str_involutive (s : string) : rev_str "" (rev_str "" s) = s.
Proof. rewrite rev_str_rev_str. cbn [rev_str]. apply append_nil_r. Qed.

Lemma rstrip_rstrip (s : string) : rstrip (rstrip s) = rstrip s.
Proof. unfold rstrip. now rewrite rev_str_involutive, lstrip_lstrip. Qed.

(** Stripping on the left stops at a character that is no white space. *)
Lemma lstrip_before (a : string) (c : ascii) (b : string) :
  is_space c = false → ∃ w, lstrip (a +:+ String c b) = w +:+ String c b.
Proof.
  intros Hc. induction a as [|x a IH].
  - exists "". change ("" +:+ String c b) with (String c b).
    cbn [lstrip]. now rewrite Hc.
  - rewrite append_cons. cbn [lstrip]. destruct (is_space x); [exact IH|].
    exists (String x a). now rewrite append_cons.
Qed.

(** Stripping on the right keeps a first character that is no white
    space. *)
Lemma rstrip_first (c : ascii) (t : string) :
  is_space c = false → ∃ t', rstrip (String c t) = String c t'.
Proof.
  intros Hc. unfold rstrip. cbn [rev_str].
  rewrite (rev_str_acc t (String c "")).
  destruct (lstrip_before (rev_str "" t) c "" Hc) as [w ->].
  rewrite rev_str_app. cbn [rev_str]. eauto.
Qed.

Lemma strip_strip (s : string) : strip (strip s) = strip s.
Proof.
  unfold strip.
  assert (H : lstrip (rstrip (lstrip s)) = rstrip (lstrip s)).
  { pose proof (lstrip_lstrip s) as Hl.
    destruct (lstrip s) as [|c t] eqn:E; [reflexivity|].
    cbn [lstrip] in Hl.
    destruct (is_space c) eqn:Hc.
    - (* a stripped text does not start with white space *)
      exfalso. clear Hl. revert E. induction s as [|x s IH]; [discriminate|].
      cbn [lstrip]. destruct (is_space x) eqn:Hx; [exact IH|].
      intros [= -> _]. congruence.
    - destruct (rstrip_first c t Hc) as [t' ->]. cbn [lstrip]. now rewrite Hc. }
  rewrite H. apply rstrip_rstrip.
Qed.

(** X20.  The message the validator of the chat endpoint lets through
    holds neither [<] nor [>], has no white space at either end, and is left
    as it is when it is validated once more. *)
Theorem sanitize_message_clean (v : string) :
  all_chars no_bracket (sanitize_message v) = true
  ∧ strip (sanitize_message v) = sanitize_message v
  ∧ sanitize_message (sanitize_message v) = sanitize_message v.
Proof.
  assert (Hlt : all_chars (is_not "<") (replace "<" "&lt;" v) = true).
  { apply replace_char_all; [reflexivity|].
    induction v as [|x v IH]; [reflexivity|]. cbn [all_chars]. rewrite IH.
    unfold is_not. now destruct (Ascii.eqb "<" x). }
  assert (Hlt' : all_chars (is_not "<") (replace ">" "&gt;" (replace "<" "&lt;" v)) = true).
  { apply replace_char_all; [reflexivity|].
    eapply all_chars_impl, Hlt. intros c ->. apply orb_true_r. }
  assert (Hgt : all_chars (is_not ">") (replace ">" "&gt;" (replace "<" "&lt;" v)) = true).
  { apply replace_char_all; [reflexivity|].
    generalize (replace "<" "&lt;" v). intros s.
    induction s as [|x s IH]; [reflexivity|]. cbn [all_chars]. rewrite IH.
    unfold is_not. now destruct (Ascii.eqb ">" x). }
  assert (Hclean : all_chars (is_not "<") (sanitize_message v) = true
                   ∧ all_chars (is_not ">") (sanitize_message v) = true).
  { split; now apply all_chars_strip. }
  destruct Hclean as [H1 H2].
  split; [|split].
  - unfold no_bracket.
    revert H1 H2. generalize (sanitize_message v). intros s.
    induction s as [|x s IH]; [reflexivity|]. cbn [all_chars]. intros Ha Hb.
    apply andb_true_iff in Ha as [Ha Ha']. apply andb_true_iff in Hb as [Hb Hb'].
    now rewrite Ha, Hb, IH.
  - unfold sanitize_message. apply strip_strip.
  - unfold sanitize_message at 1. unfold replace at 2.
    rewrite replace_go_absent by exact H1. unfold replace at 1.
    rewrite replace_go_absent by exact H2.
    unfold sanitize_message. apply strip_strip.
Qed.

(** ** Times of day in canonical form *)

Lemma plain_facts (c : ascii) :
  plain c = true →
  lower_char c = c ∧ is_space c = false
  ∧ Ascii.eqb "t" c = false ∧ Ascii.eqb "u" c = false ∧ Ascii.eqb "f" c = false
  ∧ Ascii.eqb "p" c = false ∧ Ascii.eqb "a" c = false ∧ Ascii.eqb "." c = false
  ∧ Ascii.eqb c "m" = false ∧ Ascii.eqb c "a" = false ∧ Ascii.eqb c "e" = false
  ∧ Ascii.eqb c "n" = false.
Proof.
  destruct c as [[] [] [] [] [] [] [] []]; vm_compute; intros H;
    try discriminate H; repeat split.
Qed.

Lemma fmt02d_digits (z : Z) : 0 <= z → all_chars is_digit (fmt02d z) = true.
Proof.
  intros Hz. unfold fmt02d.
  replace (z <? 0) with false by (symmetry; apply Z.ltb_ge; lia).
  destruct (z <? 10).
  - change ("0" +:+ dec z) with (String "0" (dec z)). cbn [all_chars].
    now rewrite dec_digits.
  - apply dec_digits.
Qed.

Lemma digit_plain (s : string) : all_chars is_digit s = true → all_chars plain s = true.
Proof. apply all_chars_impl. intros c Hc. unfold plain. now rewrite Hc. Qed.

Lemma hh_mm_plain (h m : Z) : 0 <= h → 0 <= m → all_chars plain (hh_mm h m) = true.
Proof.
  intros Hh Hm. unfold hh_mm. rewrite !all_chars_app.
  rewrite (digit_plain (fmt02d h)), (digit_plain (fmt02d m)) by now apply fmt02d_digits.
  reflexivity.
Qed.

Lemma lower_plain (s : string) : all_chars plain s = true → lower s = s.
Proof.
  induction s as [|c s IH]; [reflexivity|]. cbn [all_chars lower]. intros H.
  apply andb_true_iff in H as [Hc Hs].
  destruct (plain_facts c Hc) as (-> & _). now rewrite IH.
Qed.

Lemma strip_plain (s : string) : all_chars plain s = true → strip s = s.
Proof.
  intros H. apply strip_no_space. eapply all_chars_impl, H.
  intros c Hc. destruct (plain_facts c Hc) as (_ & -> & _). reflexivity.
Qed.

Lemma plain_is_not (x : ascii) (s : string) :
  (∀ c, plain c = true → Ascii.eqb x c = false) →
  all_chars plain s = true → all_chars (is_not x) s = true.
Proof.
  intros Hx. apply all_chars_impl. intros c Hc. unfold is_not. now rewrite Hx.
Qed.

Lemma contains_absent (x : ascii) (p s : string) :
  all_chars (is_not x) s = true → contains (String x p) s = false.
Proof.
  induction s as [|c s IH]; [reflexivity|]. cbn [all_chars contains startswith].
  intros H. apply andb_true_iff in H as [Hc Hs].
  unfold is_not in Hc. apply negb_true_iff in Hc. rewrite Hc. now apply IH.
Qed.

Lemma replace_absent (x : ascii) (p new s : string) :
  all_chars (is_not x) s = true → replace (String x p) new s = s.
Proof.
  unfold replace. induction s as [|c s IH]; [reflexivity|].
  cbn [all_chars replace_go startswith]. intros H.
  apply andb_true_iff in H as [Hc Hs].
  unfold is_not in Hc. apply negb_true_iff in Hc. rewrite Hc. now rewrite IH.
Qed.

Lemma sub_separators_plain (s : string) (prev_word : bool) :
  all_chars plain s = true → sub_separators prev_word 0 s = s.
Proof.
  revert prev_word. induction s as [|c s IH]; intros prev_word; [reflexivity|].
  cbn [all_chars]. intros H. apply andb_true_iff in H as [Hc Hs].
  destruct (plain_facts c Hc) as (_ & _ & Ht & Hu & _).
  cbn [sub_separators match_separator startswith]. rewrite Ht, Hu. cbn [andb].
  rewrite IH by exact Hs. now destruct prev_word.
Qed.

Lemma named_times_plain (c : ascii) (s : string) :
  plain c = true → named_times (String c s) = None.
Proof.
  intros Hc. destruct (plain_facts c Hc) as (_ & _ & _ & _ & _ & _ & _ & _ & Hm & Ha & He & Hn).
  unfold named_times. cbn [String.eqb]. now rewrite Hm, Ha, He, Hn.
Qed.

Lemma search_duration_absent (s : string) (i : nat) :
  all_chars (is_not "f") s = true → search_duration i s = None.
Proof.
  revert i. induction s as [|c s IH]; intros i; [reflexivity|].
  cbn [all_chars]. intros H. apply andb_true_iff in H as [Hc Hs].
  unfold is_not in Hc. apply negb_true_iff in Hc.
  cbn [search_duration]. unfold match_duration. cbn [startswith]. rewrite Hc.
  now apply IH.
Qed.

Lemma contains_char_app (x : ascii) (a b : string) :
  contains (String x "") (a +:+ String x b) = true.
Proof.
  induction a as [|c a IH].
  - change ("" +:+ String x b) with (String x b). cbn [contains startswith].
    now rewrite Ascii.eqb_refl.
  - rewrite append_cons. cbn [contains]. rewrite IH. apply orb_true_r.
Qed.

Lemma plain_not_char (x : ascii) (s : string) :
  plain x = false → all_chars plain s = true → all_chars (is_not x) s = true.
Proof.
  intros Hx. apply all_chars_impl. intros c Hc. unfold is_not.
  destruct (Ascii.eqb_spec x c) as [-> | _]; [congruence | reflexivity].
Qed.

(** A time of day in canonical form is left as it is. *)
Lemma normalize_time_canonical (h m : Z) :
  0 <= h → 0 <= m → _normalize_time (hh_mm h m) = Ok (hh_mm h m).
Proof.
  intros Hh Hm. pose proof (hh_mm_plain h m Hh Hm) as Hp.
  unfold _normalize_time.
  rewrite (lower_plain _ Hp).
  rewrite (replace_absent "." "" "" _ (plain_not_char "." _ eq_refl Hp)).
  rewrite (strip_plain _ Hp).
  rewrite (contains_absent "p" "m" _ (plain_not_char "p" _ eq_refl Hp)).
  rewrite (replace_absent "a" "m" "" _ (plain_not_char "a" _ eq_refl Hp)).
  rewrite (replace_absent "p" "m" "" _ (plain_not_char "p" _ eq_refl Hp)).
  rewrite (strip_plain _ Hp).
  assert (Hcolon : contains ":" (hh_mm h m) = true) by apply contains_char_app.
  assert (Hsplit : split ":" (hh_mm h m) = [fmt02d h; fmt02d m]) by apply split_colon_fmt.
  rewrite Hcolon, Hsplit. cbn [negb].
  rewrite int_str_fmt02d, exc_bind_Ok. reflexivity.
Qed.

(** [_parse_time] on a single time of day in canonical form. *)
Lemma parse_time_canonical (h m : Z) :
  0 <= h → 0 <= m →
  _parse_time (JString (hh_mm h m))
  = Ok (hh_mm h m, hh_mm ((h * 60 + m + 30) / 60) ((h * 60 + m + 30) mod 60)).
Proof.
  intros Hh Hm. pose proof (hh_mm_plain h m Hh Hm) as Hp.
  assert (Hne : ∃ c s, hh_mm h m = String c s ∧ plain c = true).
  { destruct (hh_mm h m) as [|c s] eqn:E.
    - exfalso. unfold hh_mm in E. revert E. apply append_not_empty.
    - exists c, s. split; [reflexivity|]. cbn [all_chars] in Hp.
      now apply andb_true_iff in Hp as [Hc _]. }
  destruct Hne as (c & s & E & Hc).
  unfold _parse_time.
  replace (truthy (JString (hh_mm h m))) with true by (rewrite E; reflexivity).
  cbn [negb]. unfold parse_time_str.
  rewrite (lower_plain _ Hp), (strip_plain _ Hp), (sub_separators_plain _ _ Hp).
  rewrite E at 1. rewrite (named_times_plain c s Hc).
  rewrite (contains_absent "f" "rom" _ (plain_not_char "f" _ eq_refl Hp)). cbn [andb].
  rewrite (search_duration_absent _ _ (plain_not_char "f" _ eq_refl Hp)).
  assert (Hdash : contains "-" (hh_mm h m) = false).
  { apply contains_absent. unfold hh_mm. rewrite !all_chars_app.
    rewrite (digit_is_not_dash (fmt02d h)), (digit_is_not_dash (fmt02d m))
      by now apply fmt02d_digits.
    reflexivity. }
  rewrite Hdash.
  rewrite (normalize_time_canonical h m Hh Hm), exc_bind_Ok.
  assert (Hadd : _add_minutes (hh_mm h m) 30
                 = Ok (hh_mm ((h * 60 + m + 30) / 60) ((h * 60 + m + 30) mod 60)))
    by apply add_minutes_canonical.
  rewrite Hadd, exc_bind_Ok. reflexivity.
Qed.

Lemma find_from_first (x : ascii) (a b : string) (i : nat) :
  all_chars (is_not x) a = true →
  find_from (String x "") (a +:+ String x b) i = Some (i + String.length a)%nat.
Proof.
  revert i. induction a as [|c a IH]; intros i H.
  - change ("" +:+ String x b) with (String x b). cbn [find_from startswith].
    rewrite Ascii.eqb_refl. cbn [String.length]. f_equal. lia.
  - cbn [all_chars] in H. apply andb_true_iff in H as [Hc Ha].
    unfold is_not in Hc. apply negb_true_iff in Hc.
    rewrite append_cons. cbn [find_from startswith]. rewrite Hc.
    rewrite (IH _ Ha). cbn [String.length]. f_equal. lia.
Qed.

Lemma take_str_app (a b : string) : take_str (String.length a) (a +:+ b) = a.
Proof.
  induction a as [|c a IH]; [now destruct b|].
  rewrite append_cons. cbn [String.length take_str]. now rewrite IH.
Qed.

Lemma drop_str_app (a b : string) : drop_str (String.length a) (a +:+ b) = b.
Proof.
  induction a as [|c a IH]; [reflexivity|].
  rewrite append_cons. cbn [String.length drop_str]. exact IH.
Qed.

Lemma split1_first (x : ascii) (a b : string) :
  all_chars (is_not x) a = true →
  split1 (String x "") (a +:+ String x b) = [a; b].
Proof.
  intros H. unfold split1, find. rewrite (find_from_first x a b 0 H).
  cbn [Nat.add String.length]. rewrite take_str_app.
  replace (String.length a + 1)%nat with (String.length (a +:+ String x "")).
  - replace (a +:+ String x b) with ((a +:+ String x "") +:+ b)
      by (rewrite append_assoc; reflexivity).
    now rewrite drop_str_app.
  - clear. induction a as [|c a IH]; [reflexivity|].
    rewrite append_cons. cbn [String.length]. now rewrite IH.
Qed.

(** [_parse_time] on a range of two times of day in canonical form. *)
Lemma parse_time_range_canonical (h1 m1 h2 m2 : Z) :
  0 <= h1 → 0 <= m1 → 0 <= h2 → 0 <= m2 →
  _parse_time (JString (hh_mm h1 m1 +:+ "-" +:+ hh_mm h2 m2))
  = Ok (hh_mm h1 m1, hh_mm h2 m2).
Proof.
  intros Hh1 Hm1 Hh2 Hm2.
  pose proof (hh_mm_plain h1 m1 Hh1 Hm1) as Hp1.
  pose proof (hh_mm_plain h2 m2 Hh2 Hm2) as Hp2.
  set (t := hh_mm h1 m1 +:+ "-" +:+ hh_mm h2 m2).
  assert (Hp : all_chars plain t = true).
  { subst t. rewrite !all_chars_app, Hp1, Hp2. reflexivity. }
  assert (Hne : ∃ c s, t = String c s ∧ plain c = true).
  { destruct t as [|c s] eqn:E.
    - exfalso. subst t. revert E. apply append_not_empty.
    - exists c, s. split; [reflexivity|]. cbn [all_chars] in Hp.
      now apply andb_true_iff in Hp as [Hc _]. }
  destruct Hne as (c & s & E & Hc).
  assert (Hnodash : all_chars (is_not "-") (hh_mm h1 m1) = true).
  { unfold hh_mm. rewrite !all_chars_app.
    rewrite (digit_is_not_dash (fmt02d h1)), (digit_is_not_dash (fmt02d m1))
      by now apply fmt02d_digits.
    reflexivity. }
  unfold _parse_time.
  replace (truthy (JString t)) with true by (rewrite E; reflexivity).
  cbn [negb]. unfold parse_time_str.
  rewrite (lower_plain _ Hp), (strip_plain _ Hp), (sub_separators_plain _ _ Hp).
  rewrite E at 1. rewrite (named_times_plain c s Hc).
  rewrite (contains_absent "f" "rom" _ (plain_not_char "f" _ eq_refl Hp)). cbn [andb].
  rewrite (search_duration_absent _ _ (plain_not_char "f" _ eq_refl Hp)).
  assert (Hdash : contains "-" t = true) by apply contains_char_app.
  assert (Hsplit : split1 "-" t = [hh_mm h1 m1; hh_mm h2 m2])
    by (apply split1_first; exact Hnodash).
  rewrite Hdash, Hsplit.
  rewrite (strip_plain _ Hp1), (strip_plain _ Hp2).
  rewrite !normalize_time_canonical, !exc_bind_Ok by assumption.
  reflexivity.
Qed.

(** ** What the fallback extractor hands to [check] *)

Lemma take_digits_digits (n : nat) (s : string) :
  all_chars is_digit (fst (take_digits n s)) = true.
Proof.
  revert s. induction n as [|n IH]; intros s; [now destruct s|].
  destruct s as [|c s]; [reflexivity|]. cbn [take_digits].
  destruct (is_digit c) eqn:Hc; [|reflexivity].
  specialize (IH s). destruct (take_digits n s) as [d r].
  cbn [fst all_chars] in *. now rewrite Hc, IH.
Qed.

Lemma digits_val_nonneg (s : string) (acc : Z) :
  all_chars is_digit s = true → 0 <= acc → 0 <= digits_val acc s.
Proof.
  revert acc. induction s as [|c s IH]; intros acc H Hacc; [exact Hacc|].
  cbn [all_chars] in H. apply andb_true_iff in H as [Hc Hs].
  cbn [digits_val]. apply IH; [exact Hs|].
  assert (0 <= digit_val c); [|lia].
  unfold is_digit in Hc. apply andb_true_iff in Hc as [Hc _].
  apply Z.leb_le in Hc. unfold digit_val. lia.
Qed.

Lemma to_24h_nonneg (period : option string) (v : Z) : 0 <= v → 0 <= to_24h period v.
Proof.
  intros Hv. unfold to_24h.
  repeat match goal with
         | |- context [match ?x with _ => _ end] => destruct x
         end; lia.
Qed.

Lemma group_or_0_nonneg (g : option string) :
  (∀ d, g = Some d → all_chars is_digit d = true) → 0 <= group_or_0 g.
Proof.
  intros H. unfold group_or_0. destruct g as [d|]; [|lia].
  destruct (String.eqb d ""); [lia|]. apply digits_val_nonneg; [now apply H | lia].
Qed.

Lemma search_time_digits (s hour : string) (minute period : option string) :
  search_time s = Some (hour, minute, period) →
  all_chars is_digit hour = true
  ∧ ∀ d, minute = Some d → all_chars is_digit d = true.
Proof.
  induction s as [|c s IH]; [discriminate|]. cbn [search_time].
  destruct (is_digit c); [|exact IH].
  unfold match_time.
  pose proof (take_digits_digits 2 (String c s)) as Hh.
  destruct (take_digits 2 (String c s)) as [h r]. cbn [fst] in Hh.
  destruct r as [|x r'].
  - intros [= <- <- _]. split; [exact Hh | discriminate].
  - destruct (Ascii.eqb_spec x ":") as [-> | Hx].
    + pose proof (take_digits_digits 2 r') as Hm.
      destruct (take_digits 2 r') as [m r'']. cbn [fst] in Hm.
      destruct (String.length m =? 2)%nat.
      * intros [= <- <- _]. split; [exact Hh|]. now intros d [= <-].
      * intros [= <- <- _]. split; [exact Hh | discriminate].
    + assert (E : (let '(minute, r) :=
                     match String x r' with
                     | String ":" r'0 =>
                         let '(m, r'') := take_digits 2 r'0 in
                         if (String.length m =? 2)%nat then (Some m, r'')
                         else (None, String x r')
                     | _ => (None, String x r')
                     end in (h, minute, fst (match_period (lstrip r))))
                  = (h, None, fst (match_period (lstrip (String x r'))))).
      { destruct x as [[] [] [] [] [] [] [] []]; try reflexivity. now exfalso. }
      rewrite E. intros [= <- <- _]. split; [exact Hh | discriminate].
Qed.

Lemma match_clock_digits (s hour : string) (minute period : option string) (r : string) :
  match_clock s = Some (hour, minute, period, r) →
  all_chars is_digit hour = true
  ∧ ∀ d, minute = Some d → all_chars is_digit d = true.
Proof.
  unfold match_clock, all_digits.
  pose proof (take_digits_digits (String.length s) s) as Hh.
  destruct (take_digits (String.length s) s) as [h r0]. cbn [fst] in Hh.
  destruct (String.eqb h ""); [discriminate|].
  assert (E : ∃ m r1,
             match r0 with
             | String ":" r' =>
                 let '(m, r'') := take_digits (String.length r') r' in
                 if String.eqb m "" then (None, r0) else (Some m, r'')
             | _ => (None, r0)
             end = (m, r1)
             ∧ ∀ d, m = Some d → all_chars is_digit d = true).
  { destruct r0 as [|x r']; [exists None, ""; split; [reflexivity | discriminate]|].
    destruct (Ascii.eqb_spec x ":") as [-> | Hx].
    - pose proof (take_digits_digits (String.length r') r') as Hm.
      destruct (take_digits (String.length r') r') as [m r'']. cbn [fst] in Hm.
      destruct (String.eqb m "").
      + eexists _, _. split; [reflexivity | discriminate].
      + eexists _, _. split; [reflexivity|]. now intros d [= <-].
    - exists None, (String x r'). split; [|discriminate].
      destruct x as [[] [] [] [] [] [] [] []]; try reflexivity. now exfalso. }
  destruct E as (m & r1 & -> & Hm).
  destruct (match_period (lstrip r1)) as [p r2].
  intros [= <- <- _ _]. now split.
Qed.

Lemma search_between_digits (s : string) (h1 h2 : string)
    (m1 p1 m2 p2 : option string) :
  search_between s = Some (h1, m1, p1, (h2, m2, p2)) →
  all_chars is_digit h1 = true ∧ (∀ d, m1 = Some d → all_chars is_digit d = true)
  ∧ all_chars is_digit h2 = true ∧ (∀ d, m2 = Some d → all_chars is_digit d = true).
Proof.
  assert (Hm : ∀ t, match_between t = Some (h1, m1, p1, (h2, m2, p2)) →
                    all_chars is_digit h1 = true
                    ∧ (∀ d, m1 = Some d → all_chars is_digit d = true)
                    ∧ all_chars is_digit h2 = true
                    ∧ (∀ d, m2 = Some d → all_chars is_digit d = true)).
  { intros t. unfold match_between.
    destruct (startswith "between " t); [|discriminate].
    destruct (match_clock (drop_str 8 t)) as [[[[a b] c] r]|] eqn:E1; [|discriminate].
    cbn [mbind option_bind].
    destruct (if startswith "-" (lstrip r) then _ else _) as [r'|]; [|discriminate].
    cbn [mbind option_bind].
    destruct (match_clock (lstrip r')) as [[[[a' b'] c'] r'']|] eqn:E2; [|discriminate].
    cbn [mbind option_bind]. intros [= <- <- <- <- <- <-].
    apply match_clock_digits in E1 as [? ?], E2 as [? ?]. repeat split; assumption. }
  induction s as [|c s IH].
  - cbn [search_between]. destruct (match_between "") eqn:E; [|discriminate].
    intros [= ->]. now apply Hm in E.
  - cbn [search_between]. destruct (match_between (String c s)) eqn:E; [|exact IH].
    intros [= ->]. now apply Hm in E.
Qed.

(** The time the fallback extractor stores is a time of day in canonical
    form, or a range of two. *)
Lemma simple_details_shape (user_input : string) (details : pydict) :
  simple_details user_input = Ok details →
  ∃ date time duration,
    details
    = [("date", JString date); ("time", JString time); ("duration", JInt duration);
       ("purpose", JString "Meeting")]
    ∧ date ∈ ["tomorrow"; "next monday"; "next tuesday"; "next wednesday";
              "next thursday"; "next friday"; "next week"; "today"]
    ∧ ((∃ h m, 0 <= h ∧ 0 <= m ∧ time = hh_mm h m)
       ∨ (∃ h1 m1 h2 m2, 0 <= h1 ∧ 0 <= m1 ∧ 0 <= h2 ∧ 0 <= m2
            ∧ time = hh_mm h1 m1 +:+ "-" +:+ hh_mm h2 m2)).
Proof.
  unfold simple_details.
  set (ui := lower user_input).
  set (date := if contains "tomorrow" ui then _ else _).
  set (time := if contains "afternoon" ui then _ else _).
  assert (Hd : date ∈ ["tomorrow"; "next monday"; "next tuesday"; "next wednesday";
                       "next thursday"; "next friday"; "next week"; "today"]).
  { subst date. destruct (contains "tomorrow" ui); [repeat constructor|].
    unfold first_weekday_in. cbn [List.find].
    repeat match goal with |- context [if ?b then _ else _] => destruct b end;
      repeat constructor. }
  assert (Ht : ∃ h m, 0 <= h ∧ 0 <= m ∧ time = hh_mm h m).
  { subst time.
    destruct (contains "afternoon" ui); [exists 14, 0; repeat split; lia|].
    destruct (contains "morning" ui); [exists 9, 0; repeat split; lia|].
    destruct (contains "evening" ui); [exists 17, 0; repeat split; lia|].
    destruct (search_time ui) as [[[h m] p]|] eqn:E; [|exists 12, 0; repeat split; lia].
    apply search_time_digits in E as [Hh Hm].
    exists (to_24h p (digits_val 0 h)), (group_or_0 m).
    split; [apply to_24h_nonneg, digits_val_nonneg; [exact Hh | lia]|].
    split; [now apply group_or_0_nonneg | reflexivity]. }
  intros H. apply bind_Ok in H as ([time' duration] & Hr & H). injection H as <-.
  exists date, time', duration. split; [reflexivity|]. split; [exact Hd|].
  destruct (contains "between" ui && (contains "-" ui || contains "and" ui)).
  - destruct (search_between ui) as [[[[h1 m1] p1] [[h2 m2] p2]]|] eqn:E.
    + apply search_between_digits in E as (Hh1 & Hm1 & Hh2 & Hm2).
      apply bind_Ok in Hr as (start_hour & E1 & Hr).
      apply bind_Ok in Hr as (start_min & E2 & Hr).
      apply bind_Ok in Hr as (end_hour & E3 & Hr).
      apply bind_Ok in Hr as (end_min & E4 & Hr).
      apply int_group_Ok in E1, E3. apply int_group_or_0_Ok in E2, E4. subst.
      injection Hr as <- _. right.
      exists (to_24h p1 (digits_val 0 h1)), (group_or_0 m1),
             (to_24h p2 (digits_val 0 h2)), (group_or_0 m2).
      repeat split;
        try (apply to_24h_nonneg, digits_val_nonneg; [assumption | lia]);
        try (now apply group_or_0_nonneg).
      unfold hh_mm. now rewrite !append_assoc.
    + injection Hr as <- _. now left.
  - injection Hr as <- _. now left.
Qed.

Lemma parse_date_str_relative (w : World) (s : string) (n : Z) :
  relative_keywords (strip (lower s)) = Some n →
  parse_date_str w s
  = (target_date ← Datetime.add_days (today w) n; Ok (Datetime.format_date target_date)).
Proof. intros H. unfold parse_date_str. now rewrite H. Qed.

Lemma parse_date_str_weekday (w : World) (s prefix : string) (idx : Z) :
  relative_keywords (strip (lower s)) = None →
  find_weekday_phrase ["next"; "this"; "coming"] (strip (lower s)) = Some (prefix, idx) →
  parse_date_str w s
  = (target_date ← Datetime.add_days (today w)
                     (days_ahead prefix idx (Datetime.weekday (today w)));
     Ok (Datetime.format_date target_date)).
Proof. intros H1 H2. unfold parse_date_str. now rewrite H1, H2. Qed.

(** The dates of the fallback extractor are understood. *)
Lemma parse_date_fallback (w : World) (date : string) :
  date ∈ ["tomorrow"; "next monday"; "next tuesday"; "next wednesday";
          "next thursday"; "next friday"; "next week"; "today"] →
  1 <= today w → today w + 7 <= Datetime.MAXORDINAL →
  ∃ n, 0 <= n <= 7
       ∧ _parse_date w (JString date) = Ok (Datetime.format_date (today w + n)).
Proof.
  intros Hd Hlo Hhi.
  assert (Hrel : ∀ s n, 0 <= n <= 7 → relative_keywords (strip (lower s)) = Some n →
                   String.eqb s "" = false →
                   ∃ n, 0 <= n <= 7
                        ∧ _parse_date w (JString s)
                          = Ok (Datetime.format_date (today w + n))).
  { intros s n Hn Hs Hne. exists n. split; [exact Hn|].
    unfold _parse_date. cbn [truthy]. rewrite Hne. cbn [negb].
    rewrite (parse_date_str_relative w s n Hs).
    rewrite add_days_in_range by lia. reflexivity. }
  assert (Hwd : ∀ s idx, relative_keywords (strip (lower s)) = None →
                  find_weekday_phrase ["next"; "this"; "coming"] (strip (lower s))
                  = Some ("next", idx) →
                  String.eqb s "" = false →
                  ∃ n, 0 <= n <= 7
                       ∧ _parse_date w (JString s)
                         = Ok (Datetime.format_date (today w + n))).
  { intros s idx H1 H2 Hne.
    pose proof (days_ahead_range "next" idx (Datetime.weekday (today w))) as Hr.
    eexists. split; [exact Hr|].
    unfold _parse_date. cbn [truthy]. rewrite Hne. cbn [negb].
    rewrite (parse_date_str_weekday w s "next" idx H1 H2).
    rewrite add_days_in_range by lia. reflexivity. }
  repeat (apply elem_of_cons in Hd as [-> | Hd]).
  - apply (Hrel _ 1); [lia | reflexivity | reflexivity].
  - apply (Hwd _ 0); reflexivity.
  - apply (Hwd _ 1); reflexivity.
  - apply (Hwd _ 2); reflexivity.
  - apply (Hwd _ 3); reflexivity.
  - apply (Hwd _ 4); reflexivity.
  - apply (Hrel _ 7); [lia | reflexivity | reflexivity].
  - apply (Hrel _ 0); [lia | reflexivity | reflexivity].
  - inversion Hd.
Qed.

(** After the fallback extractor the [try] block of [check] ends
    normally. *)
Lemma check_slots_fallback (w : World) (user_id : pyid) (user_input : string)
    (details : pydict) :
  simple_details user_input = Ok details →
  1 <= today w → today w + 7 <= Datetime.MAXORDINAL →
  ∃ filtered_slots all_slots,
    check_slots w user_id details = Ok (filtered_slots, all_slots).
Proof.
  intros Hdetails Hlo Hhi.
  destruct (simple_details_shape user_input details Hdetails)
    as (date & time & duration & -> & Hd & Ht).
  destruct (parse_date_fallback w date Hd Hlo Hhi) as (n & Hn & Hdate).
  assert (Htime : ∃ a b, _parse_time (JString time) = Ok (a, b)).
  { destruct Ht as [(h & m & Hh & Hm & ->) | (h1 & m1 & h2 & m2 & ? & ? & ? & ? & ->)].
    - eexists _, _. now apply parse_time_canonical.
    - eexists _, _. now apply parse_time_range_canonical. }
  destruct Htime as (a & b & Htime).
  destruct (parse_time_hours _ _ _ Htime) as [[ha Hha] [hb Hhb]].
  unfold check_slots, dict_item.
  cbn [dict_get String.eqb Ascii.eqb Bool.eqb of_option default].
  rewrite !exc_bind_Ok, Hdate, exc_bind_Ok, Htime, exc_bind_Ok.
  unfold id. cbn [py_int]. rewrite exc_bind_Ok.
  rewrite (filterM_filter _ (fun s => (ha <=? slot_hour s) && (slot_hour s <? hb))).
  - rewrite exc_bind_Ok. eauto.
  - intros s Hs. apply is_time_in_range_hours; [|assumption|assumption].
    destruct (get_available_slots_hours _ _ _ _ _ Hs) as [x Hx].
    unfold slot_hour. now rewrite Hx.
Qed.

(** X21.  With today at least seven days before the last day of the
    calendar, the details the fallback extractor has stored never make
    [check] fail, whatever the user wrote: the date and the time it stores
    are understood by [_parse_date] and [_parse_time], the [try] block ends
    normally, no error message is appended, and the state gets the slots in
    the window, or all slots of the day when none is, with the pointer at
    0. *)
Theorem fallback_check_never_fails
    (w : World) (user_id : pyid) (user_input : string) (cs cs1 : ConversationState) :
  falsy_id user_id = false →
  1 <= today w → today w + 7 <= Datetime.MAXORDINAL →
  _simple_extraction user_input cs = Ok cs1 →
  ∃ filtered_slots all_slots,
    check_slots w user_id (extracted_details cs1) = Ok (filtered_slots, all_slots)
    ∧ messages (check_availability w user_id cs1) = messages cs
    ∧ available_slots (check_availability w user_id cs1)
      = or_else filtered_slots all_slots
    ∧ current_slot_index (check_availability w user_id cs1) = 0%nat.
Proof.
  intros Hid Hlo Hhi Hcs1. unfold _simple_extraction in Hcs1.
  apply bind_Ok in Hcs1 as (details & Hdetails & Hcs1). injection Hcs1 as <-.
  destruct (check_slots_fallback w user_id user_input details Hdetails Hlo Hhi)
    as (f & a & H).
  exists f, a. split; [exact H|].
  unfold check_availability.
  cbn [extracted_details set_extracted_details]. rewrite Hid, H.
  repeat split.
Qed.

Lemma fallback_check_never_fails_witness :
  ∃ cs1,
    _simple_extraction "hello" new_conversation = Ok cs1
    ∧ messages (check_availability quiet_world (Some "u") cs1) = []
    ∧ current_slot_index (check_availability quiet_world (Some "u") cs1) = 0%nat.
Proof.
  eexists. split; [vm_compute; reflexivity|].
  edestruct (fallback_check_never_fails quiet_world (Some "u") "hello" new_conversation)
    as (f & a & _ & Hm & _ & Hi).
  - reflexivity.
  - vm_compute. discriminate.
  - vm_compute. discriminate.
  - vm_compute. reflexivity.
  - split; [exact Hm | exact Hi].
Defined.

(** ** A turn while the LLM is down *)

Lemma decide_after_extraction_snd (user_input : string) (cs : ConversationState) :
  snd (_decide_after_extraction user_input cs) = set_booking None cs.
Proof.
  unfold _decide_after_extraction.
  now repeat match goal with |- context [if ?b then _ else _] => destruct b end.
Qed.

Lemma decide_after_fallback (user_input : string) (details : pydict)
    (cs : ConversationState) :
  simple_details user_input = Ok details →
  extracted_details cs = details →
  fst (_decide_after_extraction user_input cs) = to_check
  ∨ fst (_decide_after_extraction user_input cs) = to_inquire.
Proof.
  intros Hdetails E.
  destruct (simple_details_date_time user_input details Hdetails) as [Hd Ht].
  unfold _decide_after_extraction. rewrite E, Hd, Ht, !andb_true_r.
  destruct (existsb _ ["book"; "schedule"; "set up"; "want"]);
    [|destruct (existsb _ ["free"; "available"; "have time"])]; cbn; auto.
Qed.

Lemma extract_details_llm_down (w : World) (user_input : string) (e : exn)
    (cs : ConversationState) :
  chat_invoke w user_input = Raise e →
  extract_details w user_input cs = _simple_extraction user_input cs.
Proof. intros H. unfold extract_details, llm_details. now rewrite H. Qed.

Lemma finalize_booking_details (w : World) (user_id : pyid) (cs : ConversationState) :
  extracted_details (finalize_booking w user_id cs) = extracted_details cs.
Proof.
  unfold finalize_booking. destruct (falsy_id user_id); [reflexivity|].
  now destruct (suggested_slot cs).
Qed.

Lemma simple_details_purpose (user_input : string) (details : pydict) :
  simple_details user_input = Ok details →
  dict_get "purpose" details = Some (JString "Meeting").
Proof.
  intros H. destruct (simple_details_keys user_input details H) as (d & t & n & ->).
  reflexivity.
Qed.

Lemma fallback_path (w : World) (user_id : pyid) (user_input : string)
    (details : pydict) (filtered_slots all_slots : list Slot) (cs : ConversationState) :
  falsy_id user_id = false →
  simple_details user_input = Ok details →
  extracted_details cs = details →
  check_slots w user_id details = Ok (filtered_slots, all_slots) →
  booked_first_slot w user_id details filtered_slots all_slots
    (List.last (fst (run_nodes w user_id [check; suggest; confirm; respond] cs)) cs).
Proof.
  intros Hid Hdetails Hdet Hcheck.
  set (c1 := check_availability w user_id cs).
  set (c3 := finalize_booking w user_id (suggest_slots c1)).
  assert (H1 : c1 = {| messages := messages cs; extracted_details := extracted_details cs;
                       state := state cs;
                       available_slots := or_else filtered_slots all_slots;
                       current_slot_index := 0;
                       suggested_slot := suggested_slot cs; booking := booking cs |}).
  { subst c1. unfold check_availability. now rewrite Hid, Hdet, Hcheck. }
  assert (H3 : booked_first_slot w user_id details filtered_slots all_slots c3).
  { subst c3. split; [|split].
    - rewrite finalize_booking_details, (proj2 (suggest_slots_keeps _)), H1. exact Hdet.
    - destruct (same_slots_confirm w user_id (suggest_slots c1)) as (-> & _ & _).
      destruct (suggest_slots_cases c1) as [(s & _ & -> & _) | [_ (-> & _)]];
        now rewrite H1.
    - intros slot rest Hslots.
      assert (E : available_slots c1 !! current_slot_index c1 = Some slot)
        by (rewrite H1; cbn; now rewrite Hslots).
      rewrite (suggest_slots_offer c1 slot E).
      rewrite (finalize_booking_stores_result _ _ _ slot) by (assumption || reflexivity).
      cbn [current_slot_index suggested_slot booking set_booking extracted_details].
      rewrite H1. cbn [current_slot_index extracted_details].
      rewrite Hdet, (simple_details_purpose user_input details Hdetails).
      repeat split. }
  cbn [run_nodes run_node]. fold c1. fold c3.
  destruct (generate_response c3) as [c4|e] eqn:Hr; cbn [fst List.last].
  - destruct (generate_response_keeps _ _ Hr) as (Hb & Hs & Hd).
    destruct (same_slots_respond _ _ Hr) as (Ha & Hi & _).
    destruct H3 as (P1 & P2 & P3). split; [|split].
    + now rewrite Hd.
    + now rewrite Ha.
    + intros slot rest Hslots. rewrite Hi, Hs, Hb. now apply (P3 slot rest).
  - exact H3.
Qed.

(** X22.  A turn of a user with a non-empty id on a message of at most
    4300 characters while the LLM raises: the stored conversation holds the
    details of the fallback extractor and the slots [check] found for them
    and, when there is one, the first of them is the suggested slot, the
    pointer is 1, and the booking is what [book_appointment] answers for
    that slot with the purpose [Meeting].  The user is never asked to
    confirm. *)
Theorem fallback_turn_books_first_slot
    (w : World) (message user_id : string) (c : ascii) (conversations : Conversations) :
  let u := String c user_id in
  short_text message →
  (∃ e, chat_invoke w message = Raise e) →
  1 <= today w → today w + 7 <= Datetime.MAXORDINAL →
  ∃ cs' details filtered_slots all_slots,
    snd (process_message w message (Some u) conversations) !! u = Some cs'
    ∧ simple_details message = Ok details
    ∧ extracted_details cs' = details
    ∧ check_slots w (Some u) details = Ok (filtered_slots, all_slots)
    ∧ available_slots cs' = or_else filtered_slots all_slots
    ∧ ∀ slot rest, or_else filtered_slots all_slots = slot :: rest →
        current_slot_index cs' = 1%nat
        ∧ suggested_slot cs' = Some slot
        ∧ booking cs'
          = Some (book_appointment w (Some u) (slot_start slot) (slot_end slot)
                    (JString "Meeting")).
Proof.
  cbv zeta. intros Hshort [e He] Hlo Hhi.
  destruct (process_message_session w message user_id c conversations) as [Hs _].
  destruct (simple_details_short message Hshort) as (date & time & duration & Hdetails).
  set (details := [("date", JString date); ("time", JString time);
                   ("duration", JInt duration); ("purpose", JString "Meeting")]) in *.
  destruct (check_slots_fallback w (Some (String c user_id)) message details
              Hdetails Hlo Hhi) as (f & a & Hcheck).
  eexists _, details, f, a. split; [exact Hs|]. split; [exact Hdetails|].
  cut (booked_first_slot w (Some (String c user_id)) details f a
         (List.last
            (fst (turn_trace w message (String c user_id)
                    (default new_conversation (conversations !! String c user_id))))
            (default new_conversation (conversations !! String c user_id)))).
  { intros (P1 & P2 & P3). repeat split; try assumption; now apply (P3 slot rest). }
  set (cs := default new_conversation (conversations !! String c user_id)).
  unfold turn_trace, workflow_stream.
  rewrite (extract_details_llm_down w message e _ He).
  unfold _simple_extraction. rewrite Hdetails, exc_bind_Ok.
  set (cs1 := set_extracted_details details (append_message (HumanMessage message) cs)).
  assert (Hdet : extracted_details cs1 = details) by reflexivity.
  pose proof (decide_after_extraction_snd message cs1) as Hsnd.
  pose proof (decide_after_fallback message details cs1 Hdetails Hdet) as Hroute.
  destruct (_decide_after_extraction message cs1) as [route cs2].
  cbn [fst snd] in Hsnd, Hroute. subst cs2.
  assert (Hpath : booked_first_slot w (Some (String c user_id)) details f a
            (List.last (fst (run_nodes w (Some (String c user_id)) (path_of route)
                               (set_booking None cs1)))
               (set_booking None cs1))).
  { destruct Hroute as [-> | ->]; cbn [path_of].
    - apply (fallback_path w _ message); [reflexivity | exact Hdetails | exact Hdet
                                          | exact Hcheck].
    - set (ci := generate_inquiry_response w (set_booking None cs1)).
      assert (Hi : extracted_details ci = details)
        by (subst ci; now rewrite (proj2 (generate_inquiry_response_keeps _ _))).
      pose proof (fallback_path w (Some (String c user_id)) message details f a ci
                    eq_refl Hdetails Hi Hcheck) as H.
      cbn [run_nodes run_node] in H |- *. fold ci.
      destruct (generate_response _) as [c4|e']; cbn in H |- *; exact H. }
  destruct (run_nodes _ _ _ _) as [trace e']. cbn [fst] in Hpath |- *.
  now rewrite !last_cons_default.
Qed.

Lemma fallback_turn_books_first_slot_witness :
  ∃ cs', snd (process_message quiet_world "see you tomorrow" (Some "u") ∅) !! "u" = Some cs'
    ∧ suggested_slot cs' = Some nine_o_clock
    ∧ booking cs'
      = Some (book_appointment quiet_world (Some "u") (slot_start nine_o_clock)
                (slot_end nine_o_clock) (JString "Meeting")).
Proof.
  destruct (fallback_turn_books_first_slot quiet_world "see you tomorrow" "" "u" ∅)
    as (cs' & details & f & a & Hs & Hdetails & _ & Hcheck & _ & H).
  - vm_compute. discriminate.
  - exists RuntimeError. reflexivity.
  - vm_compute. discriminate.
  - vm_compute. discriminate.
  - exists cs'. split; [exact Hs|].
    vm_compute in Hdetails. injection Hdetails as <-.
    vm_compute in Hcheck. injection Hcheck as <- <-.
    destruct (H nine_o_clock _ eq_refl) as (_ & H1 & H2). split; assumption.
Defined.

(** ** The windows [_parse_time] reads *)

Lemma clock_periods_all (p : option bool) : In p clock_periods.
Proof. destruct p as [[]|]; cbn; auto. Qed.

Lemma parses_range_all :
  forallb (fun sep =>
    forallb (fun p1 =>
      forallb (fun p2 =>
        range_all (fun a => range_all (parses_range sep p1 p2 a) 1 12) 1 12)
        clock_periods)
      clock_periods)
    [" to "; "-"] = true.
Proof. vm_compute. reflexivity. Qed.

(** X23.  A range of two hours of the 12-hour clock, each with [am], [pm]
    or nothing, joined by [ to ] or [-], is read by [_parse_time] as the
    window from the first to the second, each normalized on its own: an
    hour without a period is taken as written, so [9-5] ends at 05:00. *)
Theorem parse_time_range_of_hours (a b : Z) (p1 p2 : option bool) (sep : string) :
  1 <= a <= 12 → 1 <= b <= 12 → sep ∈ [" to "; "-"] →
  _parse_time (JString (clock_text a p1 +:+ sep +:+ clock_text b p2))
  = Ok (clock_time a p1, clock_time b p2).
Proof.
  intros Ha Hb Hsep.
  pose proof parses_range_all as H. rewrite forallb_forall in H.
  apply list_elem_of_In, H in Hsep. rewrite forallb_forall in Hsep.
  pose proof (Hsep p1 (clock_periods_all p1)) as H1. rewrite forallb_forall in H1.
  pose proof (H1 p2 (clock_periods_all p2)) as H2.
  pose proof (range_all_spec _ _ _ H2 a ltac:(lia)) as H3.
  pose proof (range_all_spec _ _ _ H3 b ltac:(lia)) as H4.
  exact (is_window_spec _ _ _ H4).
Qed.

Lemma parse_time_range_of_hours_witness :
  _parse_time (JString "9am to 5pm") = Ok ("09:00", "17:00")
  ∧ _parse_time (JString "9-5") = Ok ("09:00", "05:00").
Proof.
  split.
  - apply (parse_time_range_of_hours 9 5 (Some false) (Some true) " to "); [lia | lia |].
    repeat constructor.
  - apply (parse_time_range_of_hours 9 5 None None "-"); [lia | lia |].
    repeat constructor.
Defined.

Lemma from_to_raises_all :
  forallb (fun p1 =>
    forallb (fun p2 =>
      range_all (fun a => range_all (from_to_raises p1 p2 a) 1 12) 1 12)
      clock_periods)
    clock_periods = true.
Proof. vm_compute. reflexivity. Qed.

(** X24.  The branch for [from X to Y] is never reached on such a range:
    the word [to] has been replaced by [-] before, the text is split at the
    [-], and [_normalize_time] raises [ValueError] on the first part, which
    still holds the word [from]. *)
Theorem parse_time_from_to_raises (a b : Z) (p1 p2 : option bool) :
  1 <= a <= 12 → 1 <= b <= 12 →
  _parse_time (JString ("from " +:+ clock_text a p1 +:+ " to " +:+ clock_text b p2))
  = Raise ValueError.
Proof.
  intros Ha Hb.
  pose proof from_to_raises_all as H. rewrite forallb_forall in H.
  pose proof (H p1 (clock_periods_all p1)) as H1. rewrite forallb_forall in H1.
  pose proof (H1 p2 (clock_periods_all p2)) as H2.
  pose proof (range_all_spec _ _ _ H2 a ltac:(lia)) as H3.
  pose proof (range_all_spec _ _ _ H3 b ltac:(lia)) as H4.
  unfold from_to_raises in H4.
  destruct (_parse_time _) as [r|[]]; try discriminate H4. reflexivity.
Qed.

Lemma parse_time_from_to_raises_witness :
  _parse_time (JString "from 9am to 5pm") = Raise ValueError.
Proof. apply (parse_time_from_to_raises 9 5 (Some false) (Some true)); lia. Defined.

Lemma parses_duration_all :
  forallb (fun unit =>
    forallb (fun p =>
      range_all (fun h => range_all (parses_duration unit p h) 1 8) 1 12)
      clock_periods)
    hour_units = true.
Proof. vm_compute. reflexivity. Qed.

(** X25.  A time of the 12-hour clock followed by [for n hour], [for n
    hours] or [for n hr] is read as the window that starts at that time and
    ends [n] hours later; the end is not wrapped at midnight, so it can be
    an hour above 23. *)
Theorem parse_time_duration (h n : Z) (p : option bool) (unit : string) :
  1 <= h <= 12 → 1 <= n <= 8 → unit ∈ hour_units →
  _parse_time (JString (clock_text h p +:+ " for " +:+ str_int n +:+ " " +:+ unit))
  = Ok (clock_time h p,
        fmt02d (hour_of_period (default false p) h + n) +:+ ":00").
Proof.
  intros Hh Hn Hu.
  pose proof parses_duration_all as H. rewrite forallb_forall in H.
  apply list_elem_of_In, H in Hu. rewrite forallb_forall in Hu.
  pose proof (Hu p (clock_periods_all p)) as H1.
  pose proof (range_all_spec _ _ _ H1 h ltac:(lia)) as H2.
  pose proof (range_all_spec _ _ _ H2 n ltac:(lia)) as H3.
  exact (is_window_spec _ _ _ H3).
Qed.

Lemma parse_time_duration_witness :
  _parse_time (JString "2pm for 2 hours") = Ok ("14:00", "16:00")
  ∧ _parse_time (JString "11pm for 2 hours") = Ok ("23:00", "25:00").
Proof.
  split.
  - apply (parse_time_duration 2 2 (Some true) "hours"); [lia | lia |].
    repeat constructor.
  - apply (parse_time_duration 11 2 (Some true) "hours"); [lia | lia |].
    repeat constructor.
Defined.

(** ** The JSON text cut out of the LLM's answer *)

Lemma rfind_from_none (x : ascii) (s : string) (i : nat) :
  all_chars (is_not x) s = true → rfind_from (String x "") s i = None.
Proof.
  revert i. induction s as [|c s IH]; intros i H; [reflexivity|].
  cbn [all_chars] in H. apply andb_true_iff in H as [Hc Hs].
  unfold is_not in Hc. apply negb_true_iff in Hc.
  cbn [rfind_from startswith]. rewrite Hc. now rewrite IH.
Qed.

Lemma rfind_from_last (x : ascii) (a b : string) (i : nat) :
  all_chars (is_not x) b = true →
  rfind_from (String x "") (a +:+ String x b) i = Some (i + String.length a)%nat.
Proof.
  intros Hb. revert i. induction a as [|c a IH]; intros i.
  - change ("" +:+ String x b) with (String x b). cbn [rfind_from startswith].
    rewrite Ascii.eqb_refl, rfind_from_none by exact Hb.
    cbn [String.length]. f_equal. lia.
  - rewrite append_cons. cbn [rfind_from]. rewrite IH.
    cbn [String.length]. f_equal. lia.
Qed.

Lemma string_length_app (a b : string) :
  String.length (a +:+ b) = (String.length a + String.length b)%nat.
Proof.
  induction a as [|c a IH]; [reflexivity|].
  rewrite append_cons. cbn [String.length]. now rewrite IH.
Qed.

(** X26.  From an answer of the LLM without a backquote, [extract_details]
    keeps the text from the first [{] to the last [}], both included, and
    drops what is written before and after. *)
Theorem strip_fences_braces (pre mid post : string) :
  all_chars (is_not "`") (pre +:+ "{" +:+ mid +:+ "}" +:+ post) = true →
  all_chars (is_not "{") pre = true →
  all_chars (is_not "}") post = true →
  strip_fences (pre +:+ "{" +:+ mid +:+ "}" +:+ post) = "{" +:+ mid +:+ "}".
Proof.
  intros Htick Hpre Hpost. unfold strip_fences.
  set (s := pre +:+ "{" +:+ mid +:+ "}" +:+ post) in *.
  rewrite (contains_absent "`" "``json" s Htick).
  rewrite (contains_absent "`" "``" s Htick).
  assert (H1 : contains "{" s = true) by apply contains_char_app.
  assert (Hs : s = (pre +:+ "{" +:+ mid) +:+ String "}" post)
    by (subst s; now rewrite !append_assoc).
  assert (H2 : contains "}" s = true) by (rewrite Hs; apply contains_char_app).
  rewrite H1, H2. cbn [andb].
  assert (Hf : find "{" s = Some (String.length pre))
    by (unfold find; subst s;
        exact (find_from_first "{" pre (mid +:+ "}" +:+ post) 0 Hpre)).
  assert (Hr : rfind "}" s = Some (String.length (pre +:+ "{" +:+ mid)))
    by (unfold rfind; rewrite Hs;
        exact (rfind_from_last "}" (pre +:+ "{" +:+ mid) post 0 Hpost)).
  rewrite Hf, Hr.
  replace (String.length (pre +:+ "{" +:+ mid) + 1 - String.length pre)%nat
    with (String.length ("{" +:+ mid +:+ "}")).
  - subst s. rewrite drop_str_app.
    replace ("{" +:+ mid +:+ "}" +:+ post) with (("{" +:+ mid +:+ "}") +:+ post)
      by (now rewrite !append_assoc).
    apply take_str_app.
  - rewrite !string_length_app. cbn [String.length]. lia.
Qed.

Lemma strip_fences_braces_witness :
  strip_fences "Here you are: {a: {b: 1}} - done" = "{a: {b: 1}}".
Proof.
  apply (strip_fences_braces "Here you are: " "a: {b: 1}" " - done"); reflexivity.
Defined.

(** ** Slots of a negative duration *)

Lemma clear_of_short (d duration k : Z) (b : Busy) :
  duration < 0 → lasts_at_most (- duration) b → clear_of d duration k b = true.
Proof.
  intros Hneg (_ & _ & b_start & b_end & Hs & He & Hlen).
  unfold clear_of. rewrite Hs, He, !instant_ist_minute.
  apply orb_true_iff.
  destruct (Z_le_gt_dec b_end
              (d * Datetime.US_PER_DAY + (540 + 15 * k - 330) * Datetime.US_PER_MINUTE))
    as [Hle | Hgt].
  - right. now apply Z.leb_le.
  - left. apply Z.leb_le. change Datetime.US_PER_MINUTE with 60000000 in *. lia.
Qed.

Lemma filter_all {A} (f : A → bool) (l : list A) :
  (∀ x, x ∈ l → f x = true) → List.filter f l = l.
Proof.
  induction l as [|x l IH]; intros H; [reflexivity|].
  cbn [List.filter]. rewrite H by (apply elem_of_cons; now left).
  f_equal. apply IH. intros y Hy. apply H, elem_of_cons. now right.
Qed.

(** X27.  A negative duration is not refused.  On a day of the years from
    1946 on that is not the last of the calendar, for a duration between
    -210 and -1 minutes and busy intervals none of which lasts longer than
    the duration's absolute value, [get_available_slots] returns every
    candidate, each ending before it starts: the loop goes on while the end
    of the slot is before 17:00, so there are [(480 - duration) / 15 + 1] of
    them, the last ones starting after 17:00, and no busy interval takes a
    slot away, not even one the slot starts in. *)
Theorem negative_duration_offers_every_candidate
    (w : World) (user_id : pyid) (d duration : Z) (busy_slots : list Busy) :
  _get_credentials w user_id = true →
  ist_day d → -210 <= duration < 0 →
  freebusy_query w (Datetime.isoformat (utc_minute d 210))
    (Datetime.isoformat (utc_minute d 690)) = Ok busy_slots →
  Forall (lasts_at_most (- duration)) busy_slots →
  get_available_slots w user_id (Datetime.format_date d) duration
  = candidate d duration <$> seqZ 0 ((480 - duration) / 15 + 1).
Proof.
  intros Hcreds Hd Hdur Hquery Hbusy.
  assert (Haware : Forall (fun b => aware (busy_start b) ∧ aware (busy_end b)) busy_slots).
  { eapply Forall_impl; [exact Hbusy|]. intros b (Hs & He & _). now split. }
  rewrite (get_available_slots_filter w user_id d duration busy_slots
             Hcreds (proj1 (ist_day_range d Hd)) ltac:(lia) Hquery Haware).
  assert (Hn : candidate_count duration = (480 - duration) / 15 + 1).
  { unfold candidate_count.
    now replace (duration <=? 480) with true by (symmetry; apply Z.leb_le; lia). }
  rewrite Hn, filter_all; [reflexivity|].
  intros k _. apply forallb_forall. intros b Hb.
  apply clear_of_short; [lia|].
  rewrite Forall_forall in Hbusy. apply Hbusy. now apply list_elem_of_In.
Qed.

Lemma negative_duration_offers_every_candidate_witness :
  get_available_slots quiet_world (Some "u") "2024-01-03" (-120)
  = candidate 738888 (-120) <$> seqZ 0 41
  ∧ candidate 738888 (-120) 5 ∈ get_available_slots quiet_world (Some "u") "2024-01-03" (-120)
  ∧ candidate 738888 (-120) 5
    = {| slot_start := "2024-01-03T10:15:00+05:30";
         slot_end := "2024-01-03T08:15:00+05:30";
         slot_display := "10:15 AM" |}
  ∧ candidate 738888 (-120) 40
    = {| slot_start := "2024-01-03T19:00:00+05:30";
         slot_end := "2024-01-03T17:00:00+05:30";
         slot_display := "07:00 PM" |}.
Proof.
  pose proof (negative_duration_offers_every_candidate quiet_world (Some "u") 738888 (-120)
                [{| busy_start := "2024-01-03T10:00:00+05:30";
                    busy_end := "2024-01-03T10:30:00+05:30" |}]) as H.
  change (Datetime.format_date 738888) with "2024-01-03" in H.
  change ((480 - -120) / 15 + 1) with 41 in H.
  assert (E : get_available_slots quiet_world (Some "u") "2024-01-03" (-120)
              = candidate 738888 (-120) <$> seqZ 0 41).
  { apply H.
    - reflexivity.
    - vm_compute. split; [discriminate | reflexivity].
    - lia.
    - reflexivity.
    - apply List.Forall_cons; [|apply List.Forall_nil].
      split; [|split].
      + eexists. split; [vm_compute; reflexivity | discriminate].
      + eexists. split; [vm_compute; reflexivity | discriminate].
      + eexists _, _. split; [vm_compute; reflexivity|].
        split; [vm_compute; reflexivity|]. vm_compute. discriminate. }
  split; [exact E|]. split; [|split; vm_compute; reflexivity].
  rewrite E. apply list_elem_of_In. vm_compute. do 5 right. left. reflexivity.
Defined.

(** ** A turn that [extract] aborts *)

(** [extract_details] raises nothing but [ValueError], and only on a text of
    more than 4300 characters. *)
Lemma extract_details_raises
    (w : World) (user_input : string) (cs : ConversationState) (e : exn) :
  extract_details w user_input cs = Raise e →
  e = ValueError ∧ ¬ short_text user_input.
Proof.
  intros H. split.
  - unfold extract_details, _simple_extraction in H.
    destruct (simple_details_cases user_input) as [(date & time & duration & E) | [E _]];
      rewrite E in H;
      destruct (llm_details w user_input) as [[d|]|e']; cbn in H; congruence.
  - intros Hshort. destruct (extract_details_short w user_input cs Hshort) as [cs' E].
    congruence.
Qed.

(** X28.  When [extract_details] raises in a turn of a user with an id, it
    raises [ValueError] and the message has more than 4300 characters; the
    reply is the generic error, and the store holds the conversation the
    user had with nothing but the message appended: details, slots, slot
    pointer, suggested slot and a booking of an earlier turn stay. *)
Theorem extraction_failure_aborts_turn
    (w : World) (message user_id : string) (c : ascii) (conversations : Conversations)
    (e : exn) :
  let u := String c user_id in
  let cs := append_message (HumanMessage message)
              (default new_conversation (conversations !! u)) in
  extract_details w message cs = Raise e →
  e = ValueError
  ∧ ¬ short_text message
  ∧ process_message w message (Some u) conversations
    = ("Sorry, I encountered an error. Please try again.", <[u := cs]> conversations).
Proof.
  cbv zeta. intros H.
  destruct (extract_details_raises w message _ e H) as [-> Hlong].
  split; [reflexivity|]. split; [exact Hlong|].
  unfold process_message, turn_trace, workflow_stream. rewrite H. reflexivity.
Qed.

Lemma extraction_failure_aborts_turn_witness :
  fst (process_message quiet_world long_request (Some "u") {["u" := prompted_conversation]})
  = "Sorry, I encountered an error. Please try again."
  ∧ snd (process_message quiet_world long_request (Some "u")
           {["u" := prompted_conversation]}) !! "u"
    = Some (append_message (HumanMessage long_request) prompted_conversation).
Proof.
  destruct (extraction_failure_aborts_turn quiet_world long_request "" "u"
              {["u" := prompted_conversation]} ValueError) as (_ & _ & H).
  - vm_compute. reflexivity.
  - rewrite H. cbn [fst snd]. split; [reflexivity|].
    rewrite lookup_insert_eq. f_equal.
Defined.

(** ** The length of an admitted message *)

Lemma replace_char_cons (x c : ascii) (new s : string) :
  replace (String x "") new (String c s)
  = (if Ascii.eqb x c then new else String c "") +:+ replace (String x "") new s.
Proof.
  unfold replace. cbn [replace_go startswith String.length Nat.sub].
  destruct (Ascii.eqb x c); reflexivity.
Qed.

Lemma replace_char_app (x : ascii) (new a b : string) :
  replace (String x "") new (a +:+ b)
  = replace (String x "") new a +:+ replace (String x "") new b.
Proof.
  induction a as [|c a IH]; [reflexivity|].
  rewrite append_cons, !replace_char_cons, IH. now rewrite append_assoc.
Qed.

Lemma length_rev_str (s acc : string) :
  String.length (rev_str acc s) = (String.length s + String.length acc)%nat.
Proof.
  revert acc. induction s as [|c s IH]; intros acc; [reflexivity|].
  cbn [rev_str]. rewrite IH. cbn [String.length]. lia.
Qed.

Lemma length_strip (s : string) : (String.length (strip s) ≤ String.length s)%nat.
Proof.
  unfold strip, rstrip. rewrite length_rev_str. cbn [String.length].
  pose proof (length_lstrip (rev_str "" (lstrip s))) as H1.
  rewrite length_rev_str in H1. cbn [String.length] in H1.
  pose proof (length_lstrip s). lia.
Qed.

(** Each character becomes at most four. *)
Lemma length_escaped (v : string) :
  (String.length (replace ">" "&gt;" (replace "<" "&lt;" v)) ≤ 4 * String.length v)%nat.
Proof.
  induction v as [|c v IH]; [cbn; lia|].
  rewrite replace_char_cons, replace_char_app, string_length_app.
  cbn [String.length].
  assert (H : (String.length
                 (replace ">" "&gt;" (if Ascii.eqb "<" c then "&lt;" else String c "")) ≤ 4)%nat).
  { destruct (Ascii.eqb "<" c); [vm_compute; lia|].
    rewrite replace_char_cons, string_length_app.
    change (String.length (replace ">" "&gt;" "")) with 0%nat.
    destruct (Ascii.eqb ">" c); cbn [String.length]; lia. }
  lia.
Qed.

(** X29.  [sanitize_message] makes a text at most four times as long: a
    text of at most 500 characters, the bound of the message field, comes
    out with at most 2000, short enough for [int] to read every run of
    digits in it. *)
Theorem admitted_message_is_short (v : string) :
  Z.of_nat (String.length v) <= 500 →
  (String.length (sanitize_message v) ≤ 4 * String.length v)%nat
  ∧ short_text (sanitize_message v).
Proof.
  intros Hv.
  assert (H : (String.length (sanitize_message v) ≤ 4 * String.length v)%nat).
  { unfold sanitize_message.
    pose proof (length_strip (replace ">" "&gt;" (replace "<" "&lt;" v))).
    pose proof (length_escaped v). lia. }
  split; [exact H|]. unfold short_text, MAX_STR_DIGITS. lia.
Qed.

Lemma admitted_message_is_short_witness :
  sanitize_message " <b>book</b> " = "&lt;b&gt;book&lt;/b&gt;"
  ∧ short_text (sanitize_message " <b>book</b> ").
Proof.
  split; [reflexivity|].
  apply (admitted_message_is_short " <b>book</b> "). vm_compute. discriminate.
Defined.
